(** * modis_downloader: a shallow embedding of [modis_downloader.py]

    The development follows the source top to bottom: the Python string
    primitives the scraper relies on, [datetime] values and the one
    [strptime] format in use, the HTTP archive and the output directory as
    an explicit world, then [get_available_dates], [download_granule_list],
    [download_granules], [required_files], [get_modis_data] and [main].

    Text is modelled as [string], one character per code point below 256;
    [str.upper] is modelled on the ASCII letters.  Python sets and
    dictionaries are stdpp's [gset] and [gmap]; the order in which a set is
    enumerated is left open ([SetOrder]).  The archive is a function of the
    request and of the number of requests issued before it, the worker
    pool is sequenced in input order with the head start of the workers as
    a parameter ([Schedule]), and the one unbounded loop of the source
    takes a bound on its iterations ([fuel]); any positive bound gives the
    same run. *)

From Stdlib Require Import ZArith Ascii String List Bool Lia.
From stdpp Require Import gmap strings list fin_maps.

Local Open Scope Z_scope.

(** ** Python [str] primitives *)

(** The double quote character, written by its code. *)
Definition dquote : ascii := "034"%char.

(** [s.startswith(p)]. *)
Definition startswith (s p : string) : bool := String.prefix p s.

(** [s.find(sub)]: the lowest index at which [sub] occurs in [s], or -1. *)
Fixpoint find_from (i : Z) (s sub : string) : Z :=
  if startswith s sub then i
  else match s with
       | EmptyString => -1
       | String _ s' => find_from (i + 1) s' sub
       end.

Definition find (s sub : string) : Z := find_from 0 s sub.

(** [s.endswith(suf)], read off the reversed strings. *)
Definition endswith (s suf : string) : bool :=
  String.prefix (String.rev suf) (String.rev s).

(** The first piece of a split grows by one character. *)
Definition cons_head (c : ascii) (l : list string) : list string :=
  match l with
  | p :: ps => String c p :: ps
  | [] => [String c EmptyString]
  end.

(** [s.split(sep)] for a non-empty separator: pieces between the
    non-overlapping occurrences of [sep], scanned left to right.  [skip]
    counts the characters of a separator still to be passed over. *)
Fixpoint split_go (sep s : string) (skip : nat) : list string :=
  match s with
  | EmptyString => [EmptyString]
  | String c s' =>
      match skip with
      | S k => split_go sep s' k
      | O =>
          if startswith s sep
          then EmptyString :: split_go sep s' (Nat.pred (String.length sep))
          else cons_head c (split_go sep s' O)
      end
  end.

Definition split (s sep : string) : list string := split_go sep s O.

(** [s.strip(chars)] for a one-character set. *)
Fixpoint lstrip (c : ascii) (s : string) : string :=
  match s with
  | String a s' => if Ascii.eqb a c then lstrip c s' else s
  | EmptyString => EmptyString
  end.

Definition rstrip (c : ascii) (s : string) : string :=
  String.rev (lstrip c (String.rev s)).

Definition strip (c : ascii) (s : string) : string := rstrip c (lstrip c s).

(** Line boundaries of [str.splitlines] among the code points below 256:
    LF, VT, FF, CR, FS, GS, RS and NEL; CR LF counts as one boundary. *)
Definition is_linebreak (c : ascii) : bool :=
  match c with
  | "010" | "011" | "012" | "013" | "028" | "029" | "030" | "133" => true
  | _ => false
  end%char.

(** [s.splitlines()].  [cur] is the line being read, reversed; [open] tells
    whether a line has been started since the last boundary. *)
Fixpoint splitlines_go (s : string) (cur : string) (open : bool) : list string :=
  match s with
  | EmptyString => if open then [String.rev cur] else []
  | String c s' =>
      if is_linebreak c then
        String.rev cur ::
          match c, s' with
          | "013"%char, String "010"%char s'' => splitlines_go s'' EmptyString false
          | _, _ => splitlines_go s' EmptyString false
          end
      else splitlines_go s' (String c cur) true
  end.

Definition splitlines (s : string) : list string :=
  splitlines_go s EmptyString false.

(** [l[i]] for a non-negative index: [None] stands for [IndexError]. *)
Definition index_at {A} (l : list A) (i : nat) : option A := nth_error l i.

(** [l[-1]]. *)
Definition last_item {A} (l : list A) : option A := List.last (map Some l) None.

(** [l[n:]]. *)
Definition slice_from {A} (n : nat) (l : list A) : list A := skipn n l.

(** [url.split("/")[-1]]: the file name a URL stands for. *)
Definition fileName (url : string) : string :=
  match last_item (split url "/") with
  | Some f => f
  | None => EmptyString
  end.

(** [str.upper] on the ASCII letters; other characters are left alone. *)
Definition upper_char (c : ascii) : ascii :=
  let n := nat_of_ascii c in
  if (97 <=? n)%nat && (n <=? 122)%nat then ascii_of_nat (n - 32) else c.

Fixpoint upper (s : string) : string :=
  match s with
  | EmptyString => EmptyString
  | String c s' => String (upper_char c) (upper s')
  end.

(** [list.sort()] on strings: insertion by code-point order. *)
Fixpoint insert_sorted (x : string) (l : list string) : list string :=
  match l with
  | [] => [x]
  | y :: l' => if String.leb x y then x :: l else y :: insert_sorted x l'
  end.

Fixpoint sort (l : list string) : list string :=
  match l with
  | [] => []
  | x :: l' => insert_sorted x (sort l')
  end.

(** ** [datetime] values and [strptime(_, "%Y.%m.%d")] *)

Record datetime : Type := mkDatetime {
  year : Z; month : Z; day : Z;
  hour : Z; minute : Z; second : Z; microsecond : Z
}.

Definition date_at (y m d : Z) : datetime := mkDatetime y m d 0 0 0 0.

Definition dt_key (d : datetime) : list Z :=
  [year d; month d; day d; hour d; minute d; second d; microsecond d].

(** Naive datetimes compare field by field, most significant first. *)
Fixpoint lex_leb (a b : list Z) : bool :=
  match a, b with
  | x :: a', y :: b' =>
      if x <? y then true else if y <? x then false else lex_leb a' b'
  | [], _ => true
  | _ :: _, [] => false
  end.

(** [a <= b] on datetimes. *)
Definition datetime_le (a b : datetime) : bool := lex_leb (dt_key a) (dt_key b).

Definition in_range (lo hi c : ascii) : bool :=
  (nat_of_ascii lo <=? nat_of_ascii c)%nat && (nat_of_ascii c <=? nat_of_ascii hi)%nat.

Definition is_digit (c : ascii) : bool := in_range "0" "9" c.

Definition dval (c : ascii) : Z := Z.of_nat (nat_of_ascii c) - 48.

(** One alternative of a directive's pattern consumes a prefix of the text
    and yields the number read and the rest. *)
Definition alternative : Type := string -> option (Z * string).

Definition two_chars (l1 h1 l2 h2 : ascii) : alternative := fun s =>
  match s with
  | String a (String b r) =>
      if in_range l1 h1 a && in_range l2 h2 b
      then Some (10 * dval a + dval b, r) else None
  | _ => None
  end.

Definition one_char (l h : ascii) : alternative := fun s =>
  match s with
  | String a r => if in_range l h a then Some (dval a, r) else None
  | _ => None
  end.

Definition space_digit : alternative := fun s =>
  match s with
  | String " " (String b r) =>
      if in_range "1" "9" b then Some (dval b, r) else None
  | _ => None
  end.

(** Alternation: the first alternative that matches.  Every directive is
    followed by a literal dot or by the end of the pattern, so a later
    alternative never succeeds where an earlier one matched. *)
Fixpoint first_of (alts : list alternative) : alternative := fun s =>
  match alts with
  | [] => None
  | f :: fs => match f s with Some r => Some r | None => first_of fs s end
  end.

(** [%Y] is [\d\d\d\d]. *)
Definition re_Y : alternative := fun s =>
  match s with
  | String a (String b (String c (String d r))) =>
      if is_digit a && is_digit b && is_digit c && is_digit d
      then Some (1000 * dval a + 100 * dval b + 10 * dval c + dval d, r)
      else None
  | _ => None
  end.

(** [%m] is [1[0-2]|0[1-9]|[1-9]]. *)
Definition re_m : alternative :=
  first_of [two_chars "1" "1" "0" "2"; two_chars "0" "0" "1" "9"; one_char "1" "9"].

(** [%d] is [3[01]|[12]\d|0[1-9]|[1-9]| [1-9]]. *)
Definition re_d : alternative :=
  first_of [two_chars "3" "3" "0" "1"; two_chars "1" "2" "0" "9";
            two_chars "0" "0" "1" "9"; one_char "1" "9"; space_digit].

Definition literal (c : ascii) (s : string) : option string :=
  match s with
  | String a r => if Ascii.eqb a c then Some r else None
  | EmptyString => None
  end.

Definition is_leap (y : Z) : bool :=
  (y mod 4 =? 0) && (negb (y mod 100 =? 0) || (y mod 400 =? 0)).

Definition days_in_month (y m : Z) : Z :=
  if m =? 2 then (if is_leap y then 29 else 28)
  else if (m =? 4) || (m =? 6) || (m =? 9) || (m =? 11) then 30 else 31.

(** [datetime.datetime.strptime(s, "%Y.%m.%d")]; [None] stands for the
    [ValueError] of a text that does not match, of text left over, or of a
    day that is not in the calendar. *)
Definition strptime (s : string) : option datetime :=
  match re_Y s with
  | Some (y, s1) =>
    match literal "." s1 with
    | Some s2 =>
      match re_m s2 with
      | Some (m, s3) =>
        match literal "." s3 with
        | Some s4 =>
          match re_d s4 with
          | Some (d, EmptyString) =>
              if (1 <=? y) && (d <=? days_in_month y m)
              then Some (date_at y m d) else None
          | _ => None
          end
        | None => None
        end
      | None => None
      end
    | None => None
    end
  | None => None
  end.

(** ** The regular expression of product names *)

Inductive charclass : Type :=
| CChar (c : ascii)            (* a literal character *)
| CSet (cs : list ascii)       (* [...] *)
| CDigit                       (* \d *)
| CAny.                        (* . : anything but a line feed *)

Inductive re_item : Type :=
| One (c : charclass)          (* one character of the class *)
| LazyPlus (c : charclass)     (* c+? *)
| Ahead (c : charclass).       (* (?=c) *)

Definition class_has (cl : charclass) (c : ascii) : bool :=
  match cl with
  | CChar a => Ascii.eqb a c
  | CSet cs => existsb (Ascii.eqb c) cs
  | CDigit => is_digit c
  | CAny => negb (Ascii.eqb c "010")
  end.

(** One or more characters satisfying [p], then the continuation [k]:
    the shortest run is tried first, then longer ones. *)
Fixpoint plus_go (p : ascii -> bool) (k : string -> bool) (s : string) : bool :=
  match s with
  | String c s' => p c && (k s' || plus_go p k s')
  | EmptyString => false
  end.

(** [re.match(pattern, s) is not None]: the pattern matches a prefix of [s]. *)
Fixpoint re_match (items : list re_item) (s : string) : bool :=
  match items with
  | [] => true
  | One cl :: rest =>
      match s with
      | String c s' => class_has cl c && re_match rest s'
      | EmptyString => false
      end
  | LazyPlus cl :: rest => plus_go (class_has cl) (re_match rest) s
  | Ahead cl :: rest =>
      match s with
      | String c _ => class_has cl c && re_match rest s
      | EmptyString => false
      end
  end.

(** [product_regex = r"M[CYO]D\d\dA.+?(?=.)\d\d\d"]. *)
Definition product_regex : list re_item :=
  [One (CChar "M"); One (CSet ["C"; "Y"; "O"]%char); One (CChar "D");
   One CDigit; One CDigit; One (CChar "A");
   LazyPlus CAny; Ahead CAny; One CDigit; One CDigit; One CDigit].

(** ** Exceptions and results *)

Inductive exn : Type :=
| WebError | IOError | OSError | IndexError | KeyError | ValueError
| AttributeError | AssertionError | UnboundLocalError
| ConnectionError | ChunkedEncodingError
| FuelExhausted.   (* no Python exception: the bound on loop iterations was reached *)

Inductive result (A : Type) : Type :=
| Ok (a : A)
| Raise (e : exn).

Arguments Ok {A} a.
Arguments Raise {A} e.

(** ** The remote archive and the local world *)

Inductive header : Type :=
| HMissing                 (* no such header: [KeyError] *)
| HMalformed               (* not a number: [ValueError] in [int] *)
| HLength (n : Z).

(** What the client sees of a response.  [chunks] is the body as
    [iter_content] delivers it; [body_fails] says that the connection breaks
    once these chunks have been delivered. *)
Record Response : Type := mkResponse {
  ok : bool;
  resp_url : string;                 (* [r.url], the location after redirects *)
  chunks : list string;
  body_fails : bool;
  content_length : header
}.

(** [r.text]. *)
Definition text (r : Response) : string := String.concat EmptyString (chunks r).

Inductive http_outcome : Type :=
| ConnFail                 (* the request raises a connection error *)
| Resp (r : Response).

Definition credentials : Type := (option string * option string)%type.

(** The archive answers the [n]-th request of a run; [n] counts the requests
    issued so far, so an archive may recover or degrade over time. *)
Definition Server : Type := nat -> option credentials -> string -> http_outcome.

(** The state a run reads and writes: the entries of the output directory
    ([None]: there is no such directory) with their contents, the requests
    issued, the sleeps taken and the wall clock. *)
Record World : Type := mkWorld {
  outdir : option (gmap string string);
  net_log : list string;
  slept : list Z;
  clock : datetime
}.

Definition set_outdir (d : option (gmap string string)) (w : World) : World :=
  mkWorld d (net_log w) (slept w) (clock w).

(** How worker threads got ahead of the consumer of [executor.map] when a
    task failed: the number of later tasks already started, per phase. *)
Record Schedule : Type := mkSchedule {
  listing_extra : nat;
  fetching_extra : nat
}.

(** [list(s)] for a set [s] enumerates every element once; Python leaves the
    order open, and so does this interface. *)
Class SetOrder : Type := mkSetOrder {
  set_to_list : gset string -> list string;
  set_to_list_perm : forall X, set_to_list X ≡ₚ elements X
}.

#[local] Instance elements_order : SetOrder :=
  mkSetOrder elements (fun X => reflexivity (elements X)).

(** ** Computations over the world *)

Definition M (A : Type) : Type := World -> World * result A.

Definition ret {A} (a : A) : M A := fun w => (w, Ok a).

Definition raise {A} (e : exn) : M A := fun w => (w, Raise e).

Definition bind {A B} (c : M A) (k : A -> M B) : M B := fun w =>
  match c w with
  | (w', Ok a) => k a w'
  | (w', Raise e) => (w', Raise e)
  end.

Notation "'let*' x ':=' c 'in' k" := (bind c (fun x => k))
  (at level 10, x name, c at level 100, k at level 200).

(** A pure step that may raise. *)
Definition lift {A} (r : result A) : M A := fun w => (w, r).

Definition of_option {A} (e : exn) (o : option A) : result A :=
  match o with
  | Some a => Ok a
  | None => Raise e
  end.

(** [time.sleep(n)]. *)
Definition sleep (n : Z) : M unit := fun w =>
  (mkWorld (outdir w) (net_log w) (slept w ++ [n]) (clock w), Ok tt).

(** [datetime.datetime.now()]. *)
Definition now : M datetime := fun w => (w, Ok (clock w)).

Definition log_request (url : string) (w : World) : World :=
  mkWorld (outdir w) (net_log w ++ [url]) (slept w) (clock w).

(** *** The output directory *)

(** [os.path.exists(output_dir)]. *)
Definition os_path_exists : M bool := fun w =>
  (w, Ok (match outdir w with Some _ => true | None => false end)).

(** [os.mkdir(output_dir)], taken to succeed where the directory is missing. *)
Definition os_mkdir : M unit := fun w =>
  match outdir w with
  | Some _ => (w, Raise OSError)
  | None => (set_outdir (Some ∅) w, Ok tt)
  end.

(** [os.listdir(output_dir)]; the order of the entries is the file
    system's, and every caller turns them into a set. *)
Definition os_listdir : M (list string) := fun w =>
  match outdir w with
  | Some d => (w, Ok (elements (dom d)))
  | None => (w, Raise OSError)
  end.

(** [open(path, "wb")]: the entry is created or emptied. *)
Definition open_wb (name : string) : M unit := fun w =>
  match outdir w with
  | Some d => (set_outdir (Some (<[name := EmptyString]> d)) w, Ok tt)
  | None => (w, Raise OSError)
  end.

(** [fp.write(block)]. *)
Definition fp_write (name block : string) : M unit := fun w =>
  match outdir w with
  | Some d =>
      match d !! name with
      | Some old => (set_outdir (Some (<[name := old +:+ block]> d)) w, Ok tt)
      | None => (w, Raise OSError)
      end
  | None => (w, Raise OSError)
  end.

(** A name that denotes a directory rather than a file in [output_dir]. *)
Definition names_directory (name : string) : bool :=
  String.eqb name "" || String.eqb name "." || String.eqb name "..".

(** [os.rename(src, dst)] between entries of the output directory. *)
Definition os_rename (src dst : string) : M unit := fun w =>
  match outdir w with
  | Some d =>
      match d !! src with
      | Some data =>
          if names_directory dst then (w, Raise OSError)
          else (set_outdir (Some (<[dst := data]> (delete src d))) w, Ok tt)
      | None => (w, Raise OSError)
      end
  | None => (w, Raise OSError)
  end.

(** [os.path.join(a, b)]. *)
Definition os_path_join (a b : string) : string :=
  if startswith b "/" then b
  else if String.eqb a "" || endswith a "/" then a +:+ b
  else a +:+ "/" +:+ b.

(** [Path(p).name]: the last component, empty and [.] components dropped. *)
Definition path_name (p : string) : string :=
  match last_item (List.filter (fun c => negb (String.eqb c "" || String.eqb c "."))
                          (split p "/")) with
  | Some n => n
  | None => EmptyString
  end.

(** ** The downloader *)

Definition BASE_URL : string := "http://e4ftl01.cr.usgs.gov/".

(** [tiles] is a single tile name or a list of them. *)
Inductive tiles_arg : Type :=
| TilesStr (s : string)
| TilesList (l : list string).

(** [requests.Session()] with [s.auth] set. *)
Record Session : Type := mkSession { auth : credentials }.

(** [line.split("href=")[1]] split once more at the double quote, item 1:
    the text between the first pair of double quotes after the first
    [href=]. *)
Definition href_value (line : string) : result string :=
  match index_at (split line "href=") 1 with
  | None => Raise IndexError
  | Some after =>
      of_option IndexError (index_at (split after (String dquote EmptyString)) 1)
  end.

(** The attributes of the [requests] module that the code looks up. *)
Definition requests_getattr (name : string) : result string :=
  if String.eqb name "exceptions" then Ok "requests.exceptions"
  else Raise AttributeError.

Section Archive.

Variable server : Server.
Context {order : SetOrder}.

(** [requests.get(url)]: the whole body is read before the call returns. *)
Definition requests_get (url : string) : M Response := fun w =>
  let w' := log_request url w in
  match server (length (net_log w)) None url with
  | ConnFail => (w', Raise ConnectionError)
  | Resp r => if body_fails r then (w', Raise ChunkedEncodingError) else (w', Ok r)
  end.

(** [session.request("get", url)]: as [requests.get], with the session's
    credentials. *)
Definition session_request (s : Session) (url : string) : M Response := fun w =>
  let w' := log_request url w in
  match server (length (net_log w)) (Some (auth s)) url with
  | ConnFail => (w', Raise ConnectionError)
  | Resp r => if body_fails r then (w', Raise ChunkedEncodingError) else (w', Ok r)
  end.

(** [session.get(url, stream=True)]: returns once the headers are in. *)
Definition session_get_stream (s : Session) (url : string) : M Response := fun w =>
  let w' := log_request url w in
  match server (length (net_log w)) (Some (auth s)) url with
  | ConnFail => (w', Raise ConnectionError)
  | Resp r => (w', Ok r)
  end.

(** *** [get_available_dates] *)

(** The loop over the lines of the index page; [avail_dates] accumulates. *)
Fixpoint scan_dates (url : string) (start_date end_date : datetime)
    (lines : list string) (avail_dates : list string) : result (list string) :=
  match lines with
  | [] => Ok avail_dates
  | line :: rest =>
      if (0 <=? find line "[DIR]") && (0 <=? find line "href") then
        match href_value line with
        | Raise e => Raise e
        | Ok quoted =>
            let this_date := strip "/" quoted in
            match strptime this_date with
            | None => Raise ValueError
            | Some this_datetime =>
                if datetime_le start_date this_datetime
                   && datetime_le this_datetime end_date
                then scan_dates url start_date end_date rest
                       (avail_dates ++ [url +:+ "/" +:+ this_date])
                else scan_dates url start_date end_date rest avail_dates
            end
        end
      else scan_dates url start_date end_date rest avail_dates
  end.

Definition get_available_dates (url : string) (start_date : datetime)
    (end_date : option datetime) : M (list string) :=
  let* end_date := match end_date with
                   | None => now
                   | Some e => ret e
                   end in
  let* r := requests_get url in
  if negb (ok r) then raise WebError
  else
    let html := text r in
    lift (scan_dates url start_date end_date (slice_from 19 (splitlines html)) []).

(** *** [download_granule_list] *)

(** [while True: try: r = requests.get(url); break
     except requests.execeptions.ConnectionError: time.sleep(240)].
    The handler's class is looked up when an exception reaches it. *)
Fixpoint get_until_success (fuel : nat) (url : string) : M Response := fun w =>
  match fuel with
  | O => (w, Raise FuelExhausted)
  | S fuel' =>
      match requests_get url w with
      | (w1, Ok r) => (w1, Ok r)
      | (w1, Raise e) =>
          match requests_getattr "execeptions" with
          | Raise e' => (w1, Raise e')
          | Ok _ =>
              match e with
              | ConnectionError =>
                  (let* _ := sleep 240 in get_until_success fuel' url) w1
              | _ => (w1, Raise e)
              end
          end
      end
  end.

(** The inner loop over the tiles, for one line. *)
Fixpoint grab_tiles (url line : string) (tiles : list string)
    (grab : list string) : result (list string) :=
  match tiles with
  | [] => Ok grab
  | tile :: rest =>
      if (0 <=? find line tile) && (find line ".xml" <? 0)
         && (find line "BROWSE" <? 0)
      then
        match href_value line with
        | Raise e => Raise e
        | Ok fname => grab_tiles url line rest (grab ++ [url +:+ "/" +:+ fname])
        end
      else grab_tiles url line rest grab
  end.

(** The outer loop over the lines of the page. *)
Fixpoint grab_lines (url : string) (lines tiles : list string)
    (grab : list string) : result (list string) :=
  match lines with
  | [] => Ok grab
  | line :: rest =>
      match grab_tiles url line tiles grab with
      | Raise e => Raise e
      | Ok grab' => grab_lines url rest tiles grab'
      end
  end.

(** [if not isinstance(tiles, type([])): tiles = [tiles]]. *)
Definition as_tile_list (tiles : tiles_arg) : list string :=
  match tiles with
  | TilesList l => l
  | TilesStr s => [s]
  end.

Definition download_granule_list (fuel : nat) (url : string)
    (tiles : tiles_arg) : M (list string) :=
  let tiles := as_tile_list tiles in
  let* r := get_until_success fuel url in
  lift (grab_lines url (splitlines (text r)) tiles []).

(** *** [download_granules] *)

(** [for block in r.iter_content(65536): fp.write(block)]; the iterator
    raises after the last chunk it could deliver when the body fails. *)
Fixpoint write_blocks (name : string) (blocks : list string)
    (fails : bool) : M unit :=
  match blocks with
  | [] => if fails then raise ChunkedEncodingError else ret tt
  | block :: rest =>
      let* _ := fp_write name block in
      write_blocks name rest fails
  end.

Definition download_granules (url : string) (session : Session)
    (username password : option string) (output_dir : string) : M string :=
  let* r1 := session_request session url in
  let* r := session_get_stream session (resp_url r1) in
  let fname := fileName url in
  if negb (ok r) then raise IOError
  else
    let* file_size := lift (match content_length r with
                            | HMissing => Raise KeyError
                            | HMalformed => Raise ValueError
                            | HLength n => Ok n
                            end) in
    let output_fname := os_path_join output_dir fname in
    let* _ := open_wb (fname +:+ ".partial") in
    let* _ := write_blocks (fname +:+ ".partial") (chunks r) (body_fails r) in
    let* _ := os_rename (fname +:+ ".partial") fname in
    ret output_fname.

(** *** [required_files] *)

(** [dict(pairs)]: a later pair replaces an earlier one with the same key. *)
Definition dict_of (pairs : list (string * string)) : gmap string string :=
  fold_left (fun m kv => <[kv.1 := kv.2]> m) pairs ∅.

(** [[file_list[k] for k in ks]]. *)
Fixpoint lookup_all (file_list : gmap string string) (ks : list string)
    : result (list string) :=
  match ks with
  | [] => Ok []
  | k :: rest =>
      match file_list !! k with
      | None => Raise KeyError
      | Some v =>
          match lookup_all file_list rest with
          | Ok vs => Ok (v :: vs)
          | Raise e => Raise e
          end
      end
  end.

Definition required_files (url_list : list string) (output_dir : string)
    : M (list string) :=
  let* all_files_present := os_listdir in
  let hdf_files_present :=
    List.filter (fun fich => endswith fich ".hdf") all_files_present in
  let hdf_files_present : gset string := list_to_set hdf_files_present in
  let flist := map fileName url_list in
  let file_list := dict_of (combine flist url_list) in
  let flist : gset string := list_to_set flist in
  let files_to_download := set_to_list (flist ∖ hdf_files_present) in
  lift (lookup_all file_list files_to_download).

(** *** [ThreadPoolExecutor.map] *)

(** The results are consumed in the order of the inputs: the tasks up to
    the first one that raises, with what is left of the input. *)
Fixpoint in_order {A B} (f : A -> M B) (xs : list A) (w : World)
    : World * (list B + exn * list A) :=
  match xs with
  | [] => (w, inl [])
  | x :: rest =>
      match f x w with
      | (w1, Raise e) => (w1, inr (e, rest))
      | (w1, Ok b) =>
          match in_order f rest w1 with
          | (w2, inl bs) => (w2, inl (b :: bs))
          | (w2, inr r) => (w2, inr r)
          end
      end
  end.

(** Tasks that run to their end with nobody reading their result. *)
Fixpoint run_discard {A B} (f : A -> M B) (xs : list A) (w : World) : World :=
  match xs with
  | [] => w
  | x :: rest => run_discard f rest (fst (f x w))
  end.

(** [with ThreadPoolExecutor(max_workers) as executor:
       for r in executor.map(f, xs): out.append(r)].
    When a result raises, the tasks not yet started are cancelled and the
    [extra] ones already started run to their end before the exception
    leaves the [with] block.  Tasks are sequenced in input order. *)
Definition executor_map {A B} (max_workers : Z) (extra : nat)
    (f : A -> M B) (xs : list A) : M (list B) := fun w =>
  if max_workers <=? 0 then (w, Raise ValueError)
  else
    match in_order f xs w with
    | (w', inl out) => (w', Ok out)
    | (w', inr (e, rest)) => (run_discard f (take extra rest) w', Raise e)
    end.

(** *** [get_modis_data] *)

(** Lines 218 to 250: the platform check, the output directory, the date
    scan, the granule listing and the files still to fetch. *)
Definition granules_to_download (fuel : nat) (sched : Schedule)
    (platform product : string) (tiles : tiles_arg) (output_dir : string)
    (start_date : datetime) (end_date : option datetime) (n_threads : Z)
    : M (list string) :=
  if negb (existsb (String.eqb (upper platform)) ["MOLA"; "MOLT"; "MOTA"])
  then raise AssertionError
  else
    let* there := os_path_exists in
    let* _ := (if negb there then os_mkdir else ret tt) in
    let url := BASE_URL +:+ platform +:+ "/" +:+ product in
    let* the_dates := get_available_dates url start_date end_date in
    (* f"First:{str(the_dates[0]):s}" and f"Last:{str(the_dates[-1]):s}" *)
    let* _ := lift (of_option IndexError (index_at the_dates 0)) in
    let* _ := lift (of_option IndexError (last_item the_dates)) in
    let* the_granules :=
      executor_map n_threads (listing_extra sched)
        (fun date => download_granule_list fuel date tiles) the_dates in
    let gr := sort (concat the_granules) in
    required_files gr output_dir.

(** Lines 255 to 281: the body of [while not have_all_files], which ends
    the loop or raises. *)
Definition fetch_pass (sched : Schedule) (username password : option string)
    (output_dir : string) (n_threads : Z) (gr req_fnames : list string)
    : M (list string) :=
  let* _ := sleep 10 in
  let s := mkSession (username, password) in
  let* dload_files :=
    executor_map n_threads (fetching_extra sched)
      (fun u => download_granules u s username password output_dir) gr in
  let gotten_files := map path_name dload_files in
  if forallb (fun fich => existsb (String.eqb fich) gotten_files) req_fnames
  then ret dload_files
  else raise IOError.

Definition get_modis_data (fuel : nat) (sched : Schedule)
    (username password : option string) (platform product : string)
    (tiles : tiles_arg) (output_dir : string) (start_date : datetime)
    (end_date : option datetime) (n_threads : Z) : M (list string) :=
  let* gr := granules_to_download fuel sched platform product tiles
               output_dir start_date end_date n_threads in
  let req_fnames := map fileName gr in
  if (length gr =? 0)%nat then ret []
  else fetch_pass sched username password output_dir n_threads gr req_fnames.

(** *** [main] *)

(** The options as [optparse] hands them over; an option that was not
    given is [None], so the two tests on [options.__dict__] never fire. *)
Record Options : Type := mkOptions {
  opt_username : option string;
  opt_password : option string;
  opt_verbose : bool;
  opt_product : option string;
  opt_tiles : option string;
  opt_dir_out : string;
  opt_start_date : option string;
  opt_end_date : option string;
  opt_get_xml : bool
}.

(** [datetime.datetime( *list(map(int, s.split("-"))))]. *)
Variable cli_datetime : string -> result datetime.

(** Lines 319 to 329: the product name in upper case and the platform. *)
Definition main_product (options : Options) : result (string * string) :=
  match opt_product options with
  | None => Raise AttributeError
  | Some typed =>
      let product := upper typed in
      if negb (re_match product_regex product) then Raise ValueError
      else if 0 <=? find typed "MOD" then Ok (product, "MOLT")
      else if 0 <=? find typed "MYD" then Ok (product, "MOLA")
      else if 0 <=? find typed "MCD" then Ok (product, "MOTA")
      else Raise ValueError
  end.

Definition main (fuel : nat) (sched : Schedule) (options : Options) : M (list string) :=
  let* pp := lift (main_product options) in
  let product := fst pp in
  let platform := snd pp in
  let* tiles := lift (match opt_tiles options with
                      | None => Raise AttributeError
                      | Some t => Ok (split t ",")
                      end) in
  let* start_date := lift (match opt_start_date options with
                           | None => Raise AttributeError
                           | Some s => cli_datetime s
                           end) in
  (* [end_date] is bound only when the option was given *)
  let* end_date := lift (match opt_end_date options with
                         | None => Ok None
                         | Some e => match cli_datetime e with
                                     | Ok d => Ok (Some d)
                                     | Raise x => Raise x
                                     end
                         end) in
  match end_date with
  | None => raise UnboundLocalError
  | Some e =>
      get_modis_data fuel sched (opt_username options) (opt_password options)
        platform product (TilesList tiles) (opt_dir_out options)
        start_date (Some e) 3
  end.

End Archive.

(** ** A small archive to run the model on *)

Module Demo.

Definition q : string := String dquote EmptyString.
Definition nl : string := String "010"%char EmptyString.

(** A row of the index page that stands for a sub-directory. *)
Definition dir_row (name : string) : string :=
  "<img src=" +:+ q +:+ "/icons/folder.gif" +:+ q +:+ " alt=" +:+ q +:+ "[DIR]" +:+ q
  +:+ "> <a href=" +:+ q +:+ name +:+ "/" +:+ q +:+ ">" +:+ name +:+ "/</a>".

(** A row of a date page that stands for a file. *)
Definition file_row (name : string) : string :=
  "<img src=" +:+ q +:+ "/icons/unknown.gif" +:+ q +:+ " alt=" +:+ q +:+ "[   ]" +:+ q
  +:+ "> <a href=" +:+ q +:+ name +:+ q +:+ ">" +:+ name +:+ "</a>".

Definition page (rows : list string) : Response :=
  mkResponse true "" [String.concat nl rows] false HMissing.

Definition header_rows : list string := repeat "<!-- header -->" 19.

Definition base : string := "http://e4ftl01.cr.usgs.gov/MOLT/MOD13A3.006".

Definition index_page : Response :=
  page (header_rows ++ [dir_row "2017.12.01"; dir_row "2018.01.01";
                        dir_row "2018.02.01"; dir_row "2018.03.01"]).

(** The name of a granule with the given extension. *)
Definition g (ext date tile : string) : string :=
  "MOD13A3.A" +:+ date +:+ "." +:+ tile +:+ ".006." +:+ ext.

Definition date_page (ext date : string) : Response :=
  page ["<html>";
        file_row ("BROWSE." +:+ g ext date "h17v04" +:+ ".jpg");
        file_row (g ext date "h17v04"); file_row (g ext date "h17v04" +:+ ".xml");
        file_row (g ext date "h17v05"); file_row (g ext date "h17v05" +:+ ".xml");
        file_row (g ext date "h18v04")].

Definition granule (url : string) : Response :=
  mkResponse true url ["data of "; fileName url] false (HLength 0).

Definition not_found (url : string) : Response :=
  mkResponse false url [] false HMissing.

(** An archive with two dates in early 2018 whose granules end in [ext]. *)
Definition archive (ext : string) : Server := fun _ _ url =>
  if String.eqb url base then Resp index_page
  else if String.eqb url (base +:+ "/2018.01.01") then Resp (date_page ext "2018.01.01")
  else if String.eqb url (base +:+ "/2018.02.01") then Resp (date_page ext "2018.02.01")
  else if endswith url ext then Resp (granule url)
  else Resp (not_found url).

Definition server : Server := archive "hdf".

(** The same archive, unreachable at the first request only. *)
Definition flaky_server : Server := fun n c url =>
  match n with
  | O => ConnFail
  | S _ => server n c url
  end.

(** The same archive, with one more directory row that is no date. *)
Definition server_with_docs : Server := fun n c url =>
  if String.eqb url base
  then Resp (page (header_rows ++ [dir_row "2018.01.01"; dir_row "docs"]))
  else server n c url.

(** The same archive, whose first date page mentions a tile in a row
    without a link. *)
Definition server_with_note : Server := fun n c url =>
  if String.eqb url (base +:+ "/2018.01.01")
  then Resp (page [file_row (g "hdf" "2018.01.01" "h17v04");
                   "<p>h17v04 is being reprocessed</p>"])
  else server n c url.

(** The same archive, where the address of one granule redirects to a data
    host, and where the streamed transfer from that host breaks off after
    its first chunk. *)
Definition broken_url : string := base +:+ "/2018.01.01/" +:+ g "hdf" "2018.01.01" "h17v04".
Definition data_url : string := "http://data.host/" +:+ g "hdf" "2018.01.01" "h17v04".

Definition server_breaking : Server := fun n c url =>
  if String.eqb url broken_url
  then Resp (mkResponse true data_url ["first chunk"; "second chunk"] false (HLength 4096))
  else if String.eqb url data_url
  then Resp (mkResponse true data_url ["first chunk"] true (HLength 4096))
  else server n c url.

(** The same archive, where one granule is gone. *)
Definition server_missing : Server := fun n c url =>
  if String.eqb url broken_url then Resp (not_found url)
  else server n c url.

Definition w0 : World := mkWorld None [] [] (date_at 2019 1 1).

Definition tiles : tiles_arg := TilesList ["h17v04"; "h17v05"].

(** One run of the orchestrator for January 2018. *)
Definition run (srv : Server) (sched : Schedule) (w : World)
    : World * result (list string) :=
  get_modis_data srv 1 sched (Some "user") (Some "secret") "MOLT" "MOD13A3.006"
    tiles "out" (date_at 2018 1 1) (Some (date_at 2018 2 1)) 3 w.

(** The entries of the output directory. *)
Definition entries (w : World) : list string :=
  match outdir w with
  | Some d => elements (dom d)
  | None => []
  end.


(** Two dates that list the same file name, and an empty output directory. *)
Definition twice_first : string := "http://e4ftl01.cr.usgs.gov/MOLT/P/2018.01.01/x.hdf".
Definition twice_second : string := "http://e4ftl01.cr.usgs.gov/MOLT/P/2018.01.17/x.hdf".

Definition empty_dir : World := mkWorld (Some ∅) [] [] (date_at 2019 1 1).

(** An output directory that already holds one granule. *)
Definition one_present : World :=
  mkWorld (Some {[ "x.hdf" := "data" ]}) [] [] (date_at 2019 1 1).

(** A run for a month the archive has no date for. *)
Definition run_2010 (w : World) : World * result (list string) :=
  get_modis_data server 1 (mkSchedule 0 0) (Some "user") (Some "secret") "MOLT"
    "MOD13A3.006" tiles "out" (date_at 2010 1 1) (Some (date_at 2010 2 1)) 3 w.

(** The files of the demonstration archive, in the order in which the
    fetching phase takes them up. *)
Definition first_url : string := base +:+ "/2018.01.01/" +:+ g "hdf" "2018.01.01" "h17v05".
Definition later_urls : list string :=
  [base +:+ "/2018.02.01/" +:+ g "hdf" "2018.02.01" "h17v05";
   base +:+ "/2018.02.01/" +:+ g "hdf" "2018.02.01" "h17v04"].

(** The command line of the help text, for a given product name. *)
Definition options_for (product : string) : Options :=
  mkOptions (Some "user") (Some "secret") true (Some product) (Some "h17v04,h17v05")
    "out" (Some "2018-01-01") (Some "2018-02-01") false.

(** The two dates of that command line, read off by hand. *)
Definition read_date (s : string) : result datetime :=
  if String.eqb s "2018-01-01" then Ok (date_at 2018 1 1)
  else if String.eqb s "2018-02-01" then Ok (date_at 2018 2 1)
  else Raise ValueError.

(** An output directory that already holds one granule of the archive. *)
Definition kept_name : string := g "hdf" "2018.01.01" "h17v04".

Definition one_kept : World :=
  mkWorld (Some {[ kept_name := "fetched last week" ]}) [] [] (date_at 2019 1 1).

(** A command line without an end date. *)
Definition options_open_end : Options :=
  mkOptions (Some "user") (Some "secret") true (Some "MOD13A3.006")
    (Some "h17v04,h17v05") "out" (Some "2018-01-01") None false.

End Demo.

(** ** The specification's words, as definitions *)

(** [sub] occurs in [s]. *)
Definition contains (s sub : string) : Prop :=
  exists a b, s = a +:+ sub +:+ b.

(** A line of the index page that denotes a sub-directory: it carries the
    directory marker and an [href]. *)
Definition is_dir_row (line : string) : bool :=
  (0 <=? find line "[DIR]") && (0 <=? find line "href").

(** The link text of a row and the date it parses as. *)
Definition row_date (line : string) : option (string * datetime) :=
  match href_value line with
  | Ok quoted =>
      match strptime (strip "/" quoted) with
      | Some d => Some (strip "/" quoted, d)
      | None => None
      end
  | Raise _ => None
  end.

(** The date scan as specified: in listing order, one entry per directory
    row whose link text parses as a date inside the window. *)
Definition dates_in_window (url : string) (start_date end_date : datetime)
    (lines : list string) : list string :=
  flat_map (fun line =>
    if is_dir_row line then
      match row_date line with
      | Some (this_date, d) =>
          if datetime_le start_date d && datetime_le d end_date
          then [url +:+ "/" +:+ this_date] else []
      | None => []
      end
    else []) lines.

(** The test [download_granule_list] applies to a line and a tile. *)
Definition tile_selects (line tile : string) : bool :=
  (0 <=? find line tile) && (find line ".xml" <? 0) && (find line "BROWSE" <? 0).

(** What one line adds to the listing: its linked file, once per tile
    that selects the line. *)
Definition line_grabs (url : string) (tiles : list string) (line : string)
    : list string :=
  match href_value line with
  | Ok fname =>
      flat_map (fun tile =>
        if tile_selects line tile then [url +:+ "/" +:+ fname] else []) tiles
  | Raise _ => []
  end.

Definition granules_listed (url : string) (tiles lines : list string) : list string :=
  flat_map (line_grabs url tiles) lines.

(** [u] is the last URL of the list that has its file name. *)
Definition last_with_name (urls : list string) (u : string) : Prop :=
  exists pre post,
    urls = pre ++ u :: post /\ Forall (fun v => fileName v <> fileName u) post.

(** One candidate per file name, the first seen, in input order. *)
Fixpoint keep_first (seen candidates : list string) : list string :=
  match candidates with
  | [] => []
  | c :: rest =>
      if existsb (String.eqb (fileName c)) seen then keep_first seen rest
      else c :: keep_first (fileName c :: seen) rest
  end.

(** [filterNew] as specified: the candidates deduplicated by file name,
    first seen wins, less those whose file name is in the inventory. *)
Definition filterNew (candidates inventory : list string) : list string :=
  List.filter (fun c => negb (existsb (String.eqb (fileName c)) inventory))
    (keep_first [] candidates).

(** The inventory: the [.hdf] entries of a directory. *)
Definition hdf_present (d : gmap string string) : gset string :=
  list_to_set (List.filter (fun fich => endswith fich ".hdf") (elements (dom d))).

(** The outcome of [requests.get] and of [session.request] on an answer
    of the archive. *)
Definition get_result (o : http_outcome) : result Response :=
  match o with
  | ConnFail => Raise ConnectionError
  | Resp r => if body_fails r then Raise ChunkedEncodingError else Ok r
  end.

(** The sidecar of a file. *)
Definition sidecar (fname : string) : string := fname +:+ ".partial".

(** Lines 147 to 153 in one step: the body of [r] is written to the
    sidecar, which is then renamed to [fname]. *)
Definition materialize (fname output_dir : string) (r : Response) : M string := fun w =>
  match outdir w with
  | None => (w, Raise OSError)
  | Some d =>
      let d2 := <[sidecar fname := text r]> d in
      if body_fails r then (set_outdir (Some d2) w, Raise ChunkedEncodingError)
      else if names_directory fname then (set_outdir (Some d2) w, Raise OSError)
      else (set_outdir (Some (<[fname := text r]> (delete (sidecar fname) d2))) w,
            Ok (os_path_join output_dir fname))
  end.

(** No sidecar of [fname] lies in the output directory. *)
Definition sidecar_absent (fname : string) (w : World) : Prop :=
  match outdir w with
  | Some d => d !! sidecar fname = None
  | None => True
  end.

(** The output directory once [get_modis_data] has made sure it exists. *)
Definition ensure_dir (w : World) : World :=
  match outdir w with
  | Some _ => w
  | None => set_outdir (Some ∅) w
  end.

(** One transfer of the fetching phase, as [get_modis_data] sets it up. *)
Definition fetch_one (server : Server) (username password : option string)
    (output_dir : string) (u : string) : M string :=
  download_granules server u (mkSession (username, password)) username password
    output_dir.

(** What [get_modis_data] does with the dates it found, up to the list of
    files to fetch: lines 232 to 247. *)
Definition after_scan (server : Server) {order : SetOrder} (fuel : nat)
    (sched : Schedule) (tiles : tiles_arg) (output_dir : string)
    (n_threads : Z) (the_dates : list string) : M (list string) :=
  let* _ := lift (of_option IndexError (index_at the_dates 0)) in
  let* _ := lift (of_option IndexError (last_item the_dates)) in
  let* the_granules :=
    executor_map n_threads (listing_extra sched)
      (fun date => download_granule_list server fuel date tiles) the_dates in
  required_files (sort (concat the_granules)) output_dir.

(** The platform names [get_modis_data] accepts. *)
Definition valid_platform (platform : string) : bool :=
  existsb (String.eqb (upper platform)) ["MOLA"; "MOLT"; "MOTA"].

(** The platform as the specification derives it, from the three-letter
    prefix of the product name. *)
Definition platform_of_prefix (product : string) : option string :=
  if startswith product "MOD" then Some "MOLT"
  else if startswith product "MYD" then Some "MOLA"
  else if startswith product "MCD" then Some "MOTA"
  else None.

(** Three digits and nothing more. *)
Definition three_digits (s : string) : bool :=
  match s with
  | String a (String b (String c EmptyString)) => is_digit a && is_digit b && is_digit c
  | _ => false
  end.

(** Digits, a dot and the three digits of the collection. *)
Fixpoint collection_tail (s : string) : bool :=
  match s with
  | String c r =>
      if is_digit c then collection_tail r else Ascii.eqb c "." && three_digits r
  | EmptyString => false
  end.

(** The documented form of a product name: [MOD], [MYD] or [MCD], two
    digits, [A], digits, a dot and a three-digit collection, as in
    [MOD13A3.006]. *)
Definition documented_form (product : string) : bool :=
  match product with
  | String m (String x (String d (String d1 (String d2 (String a r))))) =>
      Ascii.eqb m "M" && existsb (Ascii.eqb x) ["C"; "Y"; "O"]%char && Ascii.eqb d "D"
      && is_digit d1 && is_digit d2 && Ascii.eqb a "A" && collection_tail r
  | _ => false
  end.

(** [c] occurs in [s]. *)
Fixpoint has_char (c : ascii) (s : string) : bool :=
  match s with
  | String a r => Ascii.eqb a c || has_char c r
  | EmptyString => false
  end.

(** An archive that answers a request the same way whenever it is asked. *)
Definition stationary (server : Server) : Prop :=
  forall n m c u, server n c u = server m c u.

(** Every granule the archive lists for the request has a file name that
    passes the test [good]. *)
Definition lists_only (good : string -> bool) (server : Server) (fuel : nat)
    (url : string) (start_date : datetime) (end_date : option datetime)
    (tiles : tiles_arg) : Prop :=
  forall wa wb dates,
    get_available_dates server url start_date end_date wa = (wb, Ok dates) ->
    forall date wc wd grab u,
      In date dates ->
      download_granule_list server fuel date tiles wc = (wd, Ok grab) ->
      In u grab ->
      good (fileName u) = true.

(** Every granule the archive lists for the request has a file name that
    ends in [.hdf]. *)
Definition lists_only_hdf : Server -> nat -> string -> datetime ->
    option datetime -> tiles_arg -> Prop :=
  lists_only (fun fname => endswith fname ".hdf").

(** A file name that names a file and is not itself a sidecar's name. *)
Definition proper_name (fname : string) : bool :=
  negb (names_directory fname) && negb (endswith fname ".partial").

(** [k] is an entry of the output directory. *)
Definition in_dir (k : string) (dir : option (gmap string string)) : Prop :=
  match dir with
  | Some d => is_Some (d !! k)
  | None => False
  end.

(** From [w] to [w'] no [.partial] entry has appeared. *)
Definition keeps (w w' : World) : Prop :=
  forall k, endswith k ".partial" = true -> in_dir k (outdir w') -> in_dir k (outdir w).

(** A computation that adds no [.partial] entry, whatever its outcome, and
    whose result, when it returns, satisfies [Q]. *)
Definition ensures {A} (c : M A) (Q : A -> Prop) : Prop :=
  forall w, keeps w (fst (c w)) /\ forall a, snd (c w) = Ok a -> Q a.

(** The result of the date scan on an answer of the archive. *)
Definition dates_result (o : http_outcome) (url : string)
    (start_date end_date : datetime) : result (list string) :=
  match get_result o with
  | Raise e => Raise e
  | Ok r =>
      if negb (ok r) then Raise WebError
      else scan_dates url start_date end_date (skipn 19 (splitlines (text r))) []
  end.

(** The result of the granule listing on an answer of the archive. *)
Definition listing_result (o : http_outcome) (url : string) (tiles : list string)
    : result (list string) :=
  match get_result o with
  | Raise _ => Raise AttributeError
  | Ok r => grab_lines url (splitlines (text r)) tiles []
  end.

(** A directory row is well formed when its link text parses as a date. *)
Definition rows_parse (lines : list string) : Prop :=
  Forall (fun line => is_dir_row line = true -> is_Some (row_date line)) lines.

(** A line that some tile selects is well formed when it carries a link. *)
Definition rows_linked (tiles lines : list string) : Prop :=
  Forall (fun line => existsb (tile_selects line) tiles = true ->
                      exists fname, href_value line = Ok fname) lines.

(** The dictionary of [required_files]. *)
Definition name_dict (urls : list string) : gmap string string :=
  dict_of (map (fun u => (fileName u, u)) urls).

(** The file names still wanted: those of the candidates, less the
    inventory. *)
Definition wanted (urls : list string) (d : gmap string string) : gset string :=
  list_to_set (map fileName urls) ∖ hdf_present d.


(** ** Further vocabulary for the properties of the code *)

(** The content of an entry of the output directory. *)
Definition entry (k : string) (w : World) : option string :=
  match outdir w with
  | Some d => d !! k
  | None => None
  end.

(** From [w] to [w'] nothing was slept and no entry of the output
    directory has changed: at most the request log grew, or the empty
    directory was created. *)
Definition quiet (w w' : World) : Prop :=
  slept w' = slept w /\ forall k, entry k w' = entry k w.

(** From [w] to [w'] nothing was slept. *)
Definition same_sleep (w w' : World) : Prop := slept w' = slept w.

(** Every run of [c] takes the world to one related to it by [R]. *)
Definition always {A} (R : World -> World -> Prop) (c : M A) : Prop :=
  forall w, R w (fst (c w)).

(** No occurrence of [sep] starts inside [pre] when [pre] is followed by
    [tail]. *)
Fixpoint starts_nowhere (sep pre tail : string) : bool :=
  match pre with
  | EmptyString => true
  | String c pre' =>
      negb (startswith (pre +:+ tail) sep) && starts_nowhere sep pre' tail
  end.

(** From [w] to [w'] the entry [k] has kept its content. *)
Definition same_entry (k : string) (w w' : World) : Prop := entry k w' = entry k w.


(** * Properties *)

(** ** The primitives on small inputs *)

Example split_href :
  split "<a href=x>y</a> href=z" "href=" = ["<a "; "x>y</a> "; "z"].
Proof. reflexivity. Qed.

Example splitlines_ex :
  splitlines (String "a" (String "013" (String "010" (String "010" "b")))) = ["a"; ""; "b"].
Proof. reflexivity. Qed.

Example fileName_ex : fileName "http://h/d/x.hdf" = "x.hdf".
Proof. reflexivity. Qed.

Example find_ex : find "abcabc" "ca" = 2 /\ find "abc" "x" = -1 /\ find "" "" = 0.
Proof. repeat split; reflexivity. Qed.

Example strip_ex : strip "/" "//2018.01.01/" = "2018.01.01".
Proof. reflexivity. Qed.

Example endswith_ex : endswith "x.hdf" ".hdf" = true /\ endswith "x.hdf.xml" ".hdf" = false.
Proof. split; reflexivity. Qed.

Example sort_ex : sort ["b"; "a"; "ab"] = ["a"; "ab"; "b"].
Proof. reflexivity. Qed.

Example strptime_ok : strptime "2018.01.17" = Some (date_at 2018 1 17).
Proof. reflexivity. Qed.

Example strptime_short : strptime "2018.1.5" = Some (date_at 2018 1 5).
Proof. reflexivity. Qed.

Example strptime_bad :
  strptime "2018.02.30" = None /\ strptime "2018.01.017" = None /\
  strptime "Parent Directory" = None /\ strptime "2020.02.29" = Some (date_at 2020 2 29).
Proof. repeat split; reflexivity. Qed.

Example product_regex_ex :
  re_match product_regex "MOD13A3.006" = true /\
  re_match product_regex "MCD43A1.006" = true /\
  re_match product_regex "MCD12AMOD006" = true /\
  re_match product_regex "MXD13A3.006" = false /\
  re_match product_regex "MOD13A006" = false.
Proof. repeat split; reflexivity. Qed.

Example path_name_ex :
  path_name (os_path_join "out" "x.hdf") = "x.hdf" /\
  path_name (os_path_join "out/" "x.hdf") = "x.hdf" /\
  path_name "out/." = "out".
Proof. repeat split; reflexivity. Qed.

(** ** Facts about the string primitives *)

Lemma app_nil_l' (s : string) : "" +:+ s = s.
Proof. reflexivity. Qed.

Lemma app_cons (c : ascii) (a s : string) : String c a +:+ s = String c (a +:+ s).
Proof. reflexivity. Qed.

Lemma app_nil_r' (s : string) : s +:+ "" = s.
Proof. induction s as [|c s IH]; [reflexivity|]. now rewrite app_cons, IH. Qed.

Lemma app_assoc' (a b c : string) : (a +:+ b) +:+ c = a +:+ (b +:+ c).
Proof. induction a as [|x a IH]; [reflexivity|]. now rewrite !app_cons, IH. Qed.

(** [startswith] is the prefix relation. *)
Lemma startswith_iff (s p : string) :
  startswith s p = true <-> exists t, s = p +:+ t.
Proof.
  unfold startswith. revert s. induction p as [|c p IH]; intros s.
  - destruct s; simpl; split; eauto.
  - destruct s as [|a s]; simpl.
    + split; [discriminate|]. intros [t Ht]. rewrite app_cons in Ht. discriminate.
    + destruct (ascii_dec c a) as [->|Hne].
      * rewrite IH. split; intros [t Ht]; exists t.
        -- now rewrite app_cons, Ht.
        -- rewrite app_cons in Ht. now inversion Ht.
      * split; [discriminate|]. intros [t Ht]. rewrite app_cons in Ht.
        inversion Ht. congruence.
Qed.

Lemma contains_nil (sub : string) : contains "" sub <-> startswith "" sub = true.
Proof.
  rewrite startswith_iff. split.
  - intros (a & b & H). destruct a; [|rewrite app_cons in H; discriminate].
    rewrite app_nil_l' in H. eauto.
  - intros [t Ht]. exists "", t. now rewrite app_nil_l'.
Qed.

Lemma contains_cons (c : ascii) (s sub : string) :
  contains (String c s) sub <-> startswith (String c s) sub = true \/ contains s sub.
Proof.
  rewrite startswith_iff. split.
  - intros (a & b & H). destruct a as [|x a].
    + left. exists b. now rewrite app_nil_l' in H.
    + right. rewrite app_cons in H. inversion H. now exists a, b.
  - intros [[t Ht]|(a & b & H)].
    + exists "", t. now rewrite app_nil_l'.
    + exists (String c a), b. now rewrite app_cons, H.
Qed.

(** [find] is -1 exactly when there is no occurrence. *)
Lemma find_from_spec (sub s : string) (i : Z) :
  0 <= i ->
  (find_from i s sub = -1 /\ ~ contains s sub) \/
  (i <= find_from i s sub /\ contains s sub).
Proof.
  revert i. induction s as [|c s IH]; intros i Hi; cbn [find_from].
  - destruct (startswith "" sub) eqn:E.
    + right. split; [lia|]. now apply contains_nil.
    + left. split; [reflexivity|]. rewrite contains_nil. congruence.
  - destruct (startswith (String c s) sub) eqn:E.
    + right. split; [lia|]. apply contains_cons. now left.
    + destruct (IH (i + 1)) as [[H1 H2]|[H1 H2]]; [lia|..].
      * left. split; [assumption|]. rewrite contains_cons. intros [H|H]; congruence.
      * right. split; [lia|]. apply contains_cons. now right.
Qed.

Lemma find_nonneg_iff (s sub : string) : (0 <=? find s sub) = true <-> contains s sub.
Proof.
  unfold find. destruct (find_from_spec sub s 0) as [[H1 H2]|[H1 H2]]; [lia|..].
  - rewrite H1. split; [discriminate|contradiction].
  - split; [auto|]. intros _. now apply Z.leb_le.
Qed.

Lemma find_neg_iff (s sub : string) : (find s sub <? 0) = true <-> ~ contains s sub.
Proof.
  rewrite <- find_nonneg_iff, Z.ltb_lt. split.
  - intros H E. apply Z.leb_le in E. lia.
  - intros H. destruct (0 <=? find s sub) eqn:E; [now destruct H|]. apply Z.leb_gt in E. lia.
Qed.

(** Sorting keeps the elements. *)
Lemma insert_sorted_In (x y : string) (l : list string) :
  In y (insert_sorted x l) <-> y = x \/ In y l.
Proof.
  induction l as [|z l IH]; simpl; [intuition|].
  destruct (String.leb x z); simpl; rewrite ?IH; intuition.
Qed.

Lemma sort_In (x : string) (l : list string) : In x (sort l) <-> In x l.
Proof.
  induction l as [|y l IH]; simpl; [tauto|].
  rewrite insert_sorted_In, IH. intuition.
Qed.

(** ** Unfolding computations *)

Lemma bind_ok {A B} (c : M A) (k : A -> M B) w w' a :
  c w = (w', Ok a) -> bind c k w = k a w'.
Proof. intros H. unfold bind. now rewrite H. Qed.

Lemma bind_raise {A B} (c : M A) (k : A -> M B) w w' e :
  c w = (w', Raise e) -> bind c k w = (w', Raise e).
Proof. intros H. unfold bind. now rewrite H. Qed.

(** ** The retry loop of [download_granule_list] *)

Section Listing.

Variable server : Server.

Lemma requests_get_eq url w :
  requests_get server url w
  = (log_request url w, get_result (server (length (net_log w)) None url)).
Proof.
  unfold requests_get, get_result.
  destruct (server _ None url) as [|r]; [reflexivity|].
  now destruct (body_fails r).
Qed.

(** The handler never resumes the loop: looking up its class raises. *)
Lemma get_until_success_once fuel url w :
  get_until_success server (S fuel) url w
  = (log_request url w,
     match get_result (server (length (net_log w)) None url) with
     | Ok r => Ok r
     | Raise _ => Raise AttributeError
     end).
Proof.
  cbn [get_until_success]. rewrite requests_get_eq.
  now destruct (get_result _).
Qed.

(** Any positive bound on the iterations gives the same run. *)
Lemma get_until_success_fuel fuel fuel' url w :
  get_until_success server (S fuel) url w = get_until_success server (S fuel') url w.
Proof. now rewrite !get_until_success_once. Qed.

(** C5: when the GET of a granule listing raises a connection failure,
    [download_granule_list] issues that one request and raises
    [AttributeError]: it neither sleeps nor asks again. *)
Theorem download_granule_list_connection_failure fuel url tiles w :
  server (length (net_log w)) None url = ConnFail ->
  download_granule_list server (S fuel) url tiles w
  = (log_request url w, Raise AttributeError).
Proof.
  intros Hfail. unfold download_granule_list.
  apply bind_raise. rewrite get_until_success_once, Hfail. reflexivity.
Qed.

(** C10: a tile given as a bare string is listed as the one-element list
    holding it. *)
Theorem download_granule_list_bare_tile fuel url tile w :
  download_granule_list server fuel url (TilesStr tile) w
  = download_granule_list server fuel url (TilesList [tile]) w.
Proof.
  unfold download_granule_list.
  change (as_tile_list (TilesStr tile)) with [tile].
  change (as_tile_list (TilesList [tile])) with [tile].
  reflexivity.
Qed.

End Listing.

(** The archive of the demonstration refuses the first request and would
    answer the second: the listing stops at the first, with no sleep. *)
Lemma download_granule_list_connection_failure_witness :
  Demo.flaky_server (length (net_log Demo.w0)) None (Demo.base +:+ "/2018.01.01") = ConnFail /\
  Demo.flaky_server 1%nat None (Demo.base +:+ "/2018.01.01")
    = Resp (Demo.date_page "hdf" "2018.01.01") /\
  download_granule_list Demo.flaky_server 1 (Demo.base +:+ "/2018.01.01") Demo.tiles Demo.w0
  = (mkWorld None [Demo.base +:+ "/2018.01.01"] [] (date_at 2019 1 1), Raise AttributeError).
Proof.
  split; [reflexivity|]. split; [reflexivity|].
  apply (download_granule_list_connection_failure Demo.flaky_server 0%nat
           (Demo.base +:+ "/2018.01.01") Demo.tiles Demo.w0).
  reflexivity.
Defined.

(** ** The date scan *)

Lemma scan_dates_spec url start_date end_date lines avail :
  rows_parse lines ->
  scan_dates url start_date end_date lines avail
  = Ok (avail ++ dates_in_window url start_date end_date lines).
Proof.
  revert avail. induction lines as [|line rest IH]; intros avail Hrows.
  - simpl. now rewrite app_nil_r.
  - inversion Hrows as [|? ? Hline Hrest]; subst.
    cbn [scan_dates dates_in_window flat_map].
    fold (is_dir_row line). fold (dates_in_window url start_date end_date rest).
    destruct (is_dir_row line) eqn:Hdir.
    + destruct (Hline eq_refl) as [[s d] Hsd].
      rewrite Hsd. unfold row_date in Hsd.
      destruct (href_value line) as [quoted|]; [|discriminate].
      destruct (strptime (strip "/" quoted)) as [d'|]; [|discriminate].
      injection Hsd as <- <-.
      destruct (datetime_le start_date d' && datetime_le d' end_date).
      * rewrite IH by assumption. now rewrite <- app_assoc.
      * now rewrite IH.
    + now rewrite IH.
Qed.

(** A directory row whose link text is no date stops the scan. *)
Lemma scan_dates_unparsed url start_date end_date line rest avail quoted :
  is_dir_row line = true ->
  href_value line = Ok quoted ->
  strptime (strip "/" quoted) = None ->
  scan_dates url start_date end_date (line :: rest) avail = Raise ValueError.
Proof.
  intros Hdir Hq Hp. cbn [scan_dates]. fold (is_dir_row line).
  now rewrite Hdir, Hq, Hp.
Qed.

(** C6, as amended: [get_available_dates] skips the first 19 lines of the
    index page and, provided every later directory row has a quoted link
    text that parses as a date, returns in listing order [url/date] for
    each directory row whose date lies in the window. *)
Theorem get_available_dates_scan (server : Server) url start_date end_date w r :
  server (length (net_log w)) None url = Resp r ->
  body_fails r = false ->
  ok r = true ->
  rows_parse (skipn 19 (splitlines (text r))) ->
  get_available_dates server url start_date end_date w
  = (log_request url w,
     Ok (dates_in_window url start_date
           (match end_date with Some e => e | None => clock w end)
           (skipn 19 (splitlines (text r))))).
Proof.
  intros Hsrv Hbody Hok Hrows. unfold get_available_dates.
  set (e := match end_date with Some e => e | None => clock w end).
  assert (Hend : (match end_date with None => now | Some e0 => ret e0 end) w = (w, Ok e))
    by (subst e; now destruct end_date).
  rewrite (bind_ok _ _ _ _ _ Hend).
  assert (Hget : requests_get server url w = (log_request url w, Ok r)).
  { rewrite requests_get_eq, Hsrv. simpl. now rewrite Hbody. }
  rewrite (bind_ok _ _ _ _ _ Hget). rewrite Hok. simpl negb. cbv iota.
  unfold lift, slice_from. now rewrite scan_dates_spec.
Qed.

Lemma get_available_dates_scan_witness :
  (Demo.server (length (net_log Demo.w0)) None Demo.base = Resp Demo.index_page /\
   body_fails Demo.index_page = false /\ ok Demo.index_page = true /\
   rows_parse (skipn 19 (splitlines (text Demo.index_page)))) /\
  get_available_dates Demo.server Demo.base (date_at 2018 1 1)
    (Some (date_at 2018 2 1)) Demo.w0
  = (log_request Demo.base Demo.w0,
     Ok [Demo.base +:+ "/2018.01.01"; Demo.base +:+ "/2018.02.01"]).
Proof.
  assert (Hrows : rows_parse (skipn 19 (splitlines (text Demo.index_page)))).
  { vm_compute. repeat constructor; intros _; eexists; reflexivity. }
  split; [repeat split; try reflexivity; exact Hrows|].
  rewrite (get_available_dates_scan Demo.server Demo.base (date_at 2018 1 1)
             (Some (date_at 2018 2 1)) Demo.w0 Demo.index_page
             eq_refl eq_refl eq_refl Hrows).
  vm_compute. reflexivity.
Defined.

(** C6 as stated fails on an index page with a directory row that is no
    date: the scan raises [ValueError], where the claim has it emit the
    one date of the window. *)
Lemma get_available_dates_unparsed_row :
  snd (get_available_dates Demo.server_with_docs Demo.base (date_at 2018 1 1)
         (Some (date_at 2018 2 1)) Demo.w0) = Raise ValueError /\
  dates_in_window Demo.base (date_at 2018 1 1) (date_at 2018 2 1)
    (skipn 19 (Demo.header_rows ++ [Demo.dir_row "2018.01.01"; Demo.dir_row "docs"]))
  = [Demo.base +:+ "/2018.01.01"].
Proof. split; vm_compute; reflexivity. Qed.

(** ** The granule listing *)

Lemma grab_tiles_spec url line tiles grab :
  (existsb (tile_selects line) tiles = true -> exists fname, href_value line = Ok fname) ->
  grab_tiles url line tiles grab = Ok (grab ++ line_grabs url tiles line).
Proof.
  unfold line_grabs. revert grab.
  induction tiles as [|tile rest IH]; intros grab Hlink.
  - simpl. destruct (href_value line); now rewrite app_nil_r.
  - cbn [grab_tiles]. fold (tile_selects line tile).
    cbn [existsb] in Hlink.
    destruct (tile_selects line tile) eqn:Hsel.
    + destruct (Hlink eq_refl) as [fname Hf]. rewrite Hf in *.
      rewrite IH by (intros _; eauto).
      cbn [flat_map]. rewrite Hsel. now rewrite <- app_assoc.
    + rewrite IH by exact Hlink.
      destruct (href_value line); [|reflexivity].
      cbn [flat_map]. now rewrite Hsel.
Qed.

Lemma grab_lines_spec url lines tiles grab :
  rows_linked tiles lines ->
  grab_lines url lines tiles grab = Ok (grab ++ granules_listed url tiles lines).
Proof.
  unfold granules_listed. revert grab.
  induction lines as [|line rest IH]; intros grab Hrows.
  - simpl. now rewrite app_nil_r.
  - inversion Hrows as [|? ? Hline Hrest]; subst.
    cbn [grab_lines flat_map]. rewrite grab_tiles_spec by assumption.
    rewrite IH by assumption. now rewrite <- app_assoc.
Qed.

(** Membership in the listing, in the specification's terms. *)
Lemma granules_listed_In url tiles lines u :
  In u (granules_listed url tiles lines) <->
  exists line tile fname,
    In line lines /\ In tile tiles /\
    contains line tile /\ ~ contains line ".xml" /\ ~ contains line "BROWSE" /\
    href_value line = Ok fname /\ u = url +:+ "/" +:+ fname.
Proof.
  unfold granules_listed, line_grabs. rewrite in_flat_map. split.
  - intros (line & Hline & Hu).
    destruct (href_value line) as [fname|] eqn:Hf; [|contradiction].
    apply in_flat_map in Hu as (tile & Htile & Hu).
    destruct (tile_selects line tile) eqn:Hsel; [|contradiction].
    destruct Hu as [<-|[]].
    unfold tile_selects in Hsel.
    apply andb_true_iff in Hsel as [Hsel Hb]. apply andb_true_iff in Hsel as [Ht Hx].
    exists line, tile, fname.
    rewrite find_nonneg_iff in Ht. rewrite find_neg_iff in Hx, Hb. auto 10.
  - intros (line & tile & fname & Hline & Htile & Ht & Hx & Hb & Hf & ->).
    exists line. split; [assumption|]. rewrite Hf.
    apply in_flat_map. exists tile. split; [assumption|].
    rewrite <- find_nonneg_iff in Ht. rewrite <- find_neg_iff in Hx, Hb.
    unfold tile_selects. rewrite Ht, Hx, Hb. now left.
Qed.

(** C7, as amended: provided every line that a tile selects carries a
    quoted [href], [download_granule_list] returns a listing that holds a
    line's linked file exactly when, for some requested tile, the line
    contains the tile and mentions neither [.xml] nor [BROWSE]. *)
Theorem download_granule_list_selects (server : Server) fuel url tiles w r :
  server (length (net_log w)) None url = Resp r ->
  body_fails r = false ->
  rows_linked (as_tile_list tiles) (splitlines (text r)) ->
  exists grab,
    download_granule_list server (S fuel) url tiles w = (log_request url w, Ok grab) /\
    forall u, In u grab <->
      exists line tile fname,
        In line (splitlines (text r)) /\ In tile (as_tile_list tiles) /\
        contains line tile /\ ~ contains line ".xml" /\ ~ contains line "BROWSE" /\
        href_value line = Ok fname /\ u = url +:+ "/" +:+ fname.
Proof.
  intros Hsrv Hbody Hrows.
  exists (granules_listed url (as_tile_list tiles) (splitlines (text r))).
  split; [|intros u; apply granules_listed_In].
  unfold download_granule_list.
  assert (Hget : get_until_success server (S fuel) url w = (log_request url w, Ok r)).
  { rewrite get_until_success_once, Hsrv. simpl. now rewrite Hbody. }
  rewrite (bind_ok _ _ _ _ _ Hget). unfold lift.
  now rewrite grab_lines_spec.
Qed.

Lemma download_granule_list_selects_witness :
  exists grab,
    download_granule_list Demo.server 1 (Demo.base +:+ "/2018.01.01") Demo.tiles Demo.w0
    = (log_request (Demo.base +:+ "/2018.01.01") Demo.w0, Ok grab) /\
    forall u, In u grab <->
      exists line tile fname,
        In line (splitlines (text (Demo.date_page "hdf" "2018.01.01"))) /\
        In tile (as_tile_list Demo.tiles) /\
        contains line tile /\ ~ contains line ".xml" /\ ~ contains line "BROWSE" /\
        href_value line = Ok fname /\
        u = (Demo.base +:+ "/2018.01.01") +:+ "/" +:+ fname.
Proof.
  apply (download_granule_list_selects Demo.server 0 (Demo.base +:+ "/2018.01.01")
           Demo.tiles Demo.w0 (Demo.date_page "hdf" "2018.01.01")).
  - reflexivity.
  - reflexivity.
  - vm_compute. repeat constructor; intros H; try discriminate H; eexists; reflexivity.
Defined.

(** C7 as stated fails on a page where a line names a tile without a
    link: the listing raises [IndexError], although another line of the
    page meets the test and links a file. *)
Lemma download_granule_list_unlinked_row :
  snd (download_granule_list Demo.server_with_note 1 (Demo.base +:+ "/2018.01.01")
         Demo.tiles Demo.w0) = Raise IndexError /\
  tile_selects (Demo.file_row (Demo.g "hdf" "2018.01.01" "h17v04")) "h17v04" = true /\
  href_value (Demo.file_row (Demo.g "hdf" "2018.01.01" "h17v04"))
  = Ok (Demo.g "hdf" "2018.01.01" "h17v04").
Proof. repeat split; vm_compute; reflexivity. Qed.

(** ** The inventory filter *)

Lemma combine_map_self {A B} (f : A -> B) (l : list A) :
  combine (map f l) l = map (fun u => (f u, u)) l.
Proof. induction l as [|x l IH]; simpl; [reflexivity|]. now rewrite IH. Qed.

Lemma dict_of_snoc pairs k v :
  dict_of (pairs ++ [(k, v)]) = <[k := v]> (dict_of pairs).
Proof. unfold dict_of. now rewrite fold_left_app. Qed.

Lemma name_dict_snoc urls x :
  name_dict (urls ++ [x]) = <[fileName x := x]> (name_dict urls).
Proof. unfold name_dict. rewrite map_app. cbn [map]. apply dict_of_snoc. Qed.

Lemma last_with_name_snoc_same urls x u :
  fileName u = fileName x -> last_with_name (urls ++ [x]) u -> u = x.
Proof.
  intros Hname (pre & post & Heq & Hpost).
  destruct post as [|y post _] using rev_ind.
  - now apply app_inj_tail in Heq as [_ ->].
  - rewrite app_comm_cons, app_assoc in Heq. apply app_inj_tail in Heq as [_ ->].
    apply Forall_app in Hpost as [_ Hy]. inversion Hy; subst. congruence.
Qed.

Lemma last_with_name_snoc_other urls x u :
  fileName u <> fileName x ->
  last_with_name (urls ++ [x]) u <-> last_with_name urls u.
Proof.
  intros Hname. split; intros (pre & post & Heq & Hpost).
  - destruct post as [|y post _] using rev_ind.
    + apply app_inj_tail in Heq as [_ ->]. congruence.
    + rewrite app_comm_cons, app_assoc in Heq. apply app_inj_tail in Heq as [-> ->].
      apply Forall_app in Hpost as [Hpost _]. now exists pre, post.
  - exists pre, (post ++ [x]). split.
    + rewrite Heq. now rewrite <- app_assoc.
    + apply Forall_app. split; [assumption|]. constructor; [congruence|constructor].
Qed.

(** A later URL replaces an earlier one with the same file name. *)
Lemma name_dict_lookup urls k u :
  name_dict urls !! k = Some u <-> fileName u = k /\ last_with_name urls u.
Proof.
  revert k u. induction urls as [|x urls IH] using rev_ind; intros k u.
  - unfold name_dict, dict_of. simpl. rewrite lookup_empty. split; [discriminate|].
    intros [_ (pre & post & Heq & _)]. now destruct pre.
  - rewrite name_dict_snoc. destruct (decide (fileName x = k)) as [<-|Hne].
    + rewrite lookup_insert_eq. split.
      * intros [= <-]. split; [reflexivity|]. exists urls, []. split; [reflexivity|constructor].
      * intros [Hname Hlast]. f_equal. symmetry. eapply last_with_name_snoc_same; eauto.
    + rewrite lookup_insert_ne by assumption. rewrite IH. split.
      * intros [<- Hlast]. split; [reflexivity|]. apply last_with_name_snoc_other; [congruence|assumption].
      * intros [<- Hlast]. split; [reflexivity|]. apply last_with_name_snoc_other in Hlast; [assumption|congruence].
Qed.

Lemma name_dict_dom urls k :
  is_Some (name_dict urls !! k) <-> exists u, In u urls /\ fileName u = k.
Proof.
  induction urls as [|x urls IH] using rev_ind.
  - unfold name_dict, dict_of. simpl. rewrite lookup_empty. split.
    + intros [? ?]. discriminate.
    + intros (u & [] & _).
  - rewrite name_dict_snoc. destruct (decide (fileName x = k)) as [<-|Hne].
    + rewrite lookup_insert_eq. split; [|eauto].
      intros _. exists x. split; [|reflexivity]. apply in_or_app. right. now left.
    + rewrite lookup_insert_ne by assumption. rewrite IH. split.
      * intros (u & Hu & Hk). exists u. split; [|assumption]. apply in_or_app. now left.
      * intros (u & Hu & Hk). exists u. split; [|assumption].
        apply in_app_or in Hu as [Hu|[->|[]]]; [assumption|congruence].
Qed.

Lemma lookup_all_spec (m : gmap string string) ks :
  (forall k, In k ks -> is_Some (m !! k)) ->
  exists vs, lookup_all m ks = Ok vs /\ Forall2 (fun k v => m !! k = Some v) ks vs.
Proof.
  induction ks as [|k ks IH]; intros Hks.
  - exists []. split; [reflexivity|constructor].
  - destruct (Hks k (or_introl eq_refl)) as [v Hv].
    destruct IH as (vs & Hvs & Hall); [intros; apply Hks; now right|].
    exists (v :: vs). cbn [lookup_all]. rewrite Hv, Hvs. split; [reflexivity|].
    now constructor.
Qed.

Lemma elem_of_hdf_present d k :
  k ∈ hdf_present d <-> is_Some (d !! k) /\ endswith k ".hdf" = true.
Proof.
  unfold hdf_present. rewrite elem_of_list_to_set, list_elem_of_In, filter_In.
  rewrite <- list_elem_of_In, elem_of_elements, elem_of_dom. reflexivity.
Qed.

Lemma elem_of_wanted urls d k :
  k ∈ wanted urls d <->
  (exists u, In u urls /\ fileName u = k) /\
  ~ (is_Some (d !! k) /\ endswith k ".hdf" = true).
Proof.
  unfold wanted. rewrite elem_of_difference, elem_of_hdf_present.
  rewrite elem_of_list_to_set, list_elem_of_In, in_map_iff.
  split; intros [(u & H1 & H2) H3]; (split; [exists u; tauto|assumption]).
Qed.

Section Required.

Context {order : SetOrder}.

Lemma set_to_list_In (X : gset string) k : In k (set_to_list X) <-> k ∈ X.
Proof.
  rewrite <- list_elem_of_In, (set_to_list_perm X). apply elem_of_elements.
Qed.

Lemma set_to_list_NoDup (X : gset string) : List.NoDup (set_to_list X).
Proof.
  apply NoDup_ListNoDup. rewrite (set_to_list_perm X). apply NoDup_elements.
Qed.

(** The run of [required_files] on an existing directory: it changes
    nothing and looks up, for each wanted name, the URL recorded for it. *)
Lemma required_files_run url_list output_dir w d :
  outdir w = Some d ->
  exists to_download,
    required_files url_list output_dir w = (w, Ok to_download) /\
    Forall2 (fun k u => name_dict url_list !! k = Some u)
      (set_to_list (wanted url_list d)) to_download.
Proof.
  intros Hdir.
  destruct (lookup_all_spec (name_dict url_list) (set_to_list (wanted url_list d)))
    as (vs & Hvs & Hall).
  { intros k Hk. apply set_to_list_In, elem_of_wanted in Hk as [Hk _].
    now apply name_dict_dom. }
  exists vs. split; [|assumption].
  unfold required_files.
  assert (Hls : os_listdir w = (w, Ok (elements (dom d))))
    by (unfold os_listdir; now rewrite Hdir).
  rewrite (bind_ok _ _ _ _ _ Hls). unfold lift.
  rewrite combine_map_self. fold (name_dict url_list). fold (hdf_present d).
  fold (wanted url_list d). now rewrite Hvs.
Qed.

Lemma Forall2_lookup_names (m : gmap string string) ks vs :
  (forall k v, m !! k = Some v -> fileName v = k) ->
  Forall2 (fun k v => m !! k = Some v) ks vs -> map fileName vs = ks.
Proof.
  intros Hm H. induction H as [|k v ks vs Hkv _ IH]; simpl; [reflexivity|].
  now rewrite (Hm _ _ Hkv), IH.
Qed.

Lemma Forall2_lookup_In (m : gmap string string) ks vs u :
  Forall2 (fun k v => m !! k = Some v) ks vs ->
  In u vs <-> exists k, In k ks /\ m !! k = Some u.
Proof.
  intros H. induction H as [|k v ks vs Hkv _ IH]; simpl.
  - split; [contradiction|]. now intros (k & [] & _).
  - rewrite IH. split.
    + intros [<-|(k' & Hk' & Hu)]; eauto.
    + intros (k' & [<-|Hk'] & Hu); [left; congruence|right; eauto].
Qed.

(** C2, as amended: on an existing output directory [required_files]
    returns, in the order in which the set of wanted names is enumerated,
    one URL per file name: the last candidate with that name, for each
    name that is not an [.hdf] entry of the directory. *)
Theorem required_files_spec url_list output_dir w d :
  outdir w = Some d ->
  exists to_download,
    required_files url_list output_dir w = (w, Ok to_download) /\
    List.NoDup (map fileName to_download) /\
    forall u, In u to_download <->
      last_with_name url_list u /\
      ~ (is_Some (d !! fileName u) /\ endswith (fileName u) ".hdf" = true).
Proof.
  intros Hdir.
  destruct (required_files_run url_list output_dir w d Hdir)
    as (vs & Hrun & Hall).
  exists vs. split; [assumption|]. split.
  - rewrite (Forall2_lookup_names _ _ _ (fun k v H => proj1 (proj1 (name_dict_lookup _ _ _) H)) Hall).
    apply set_to_list_NoDup.
  - intros u. rewrite (Forall2_lookup_In _ _ _ u Hall). split.
    + intros (k & Hk & Hu). apply name_dict_lookup in Hu as [<- Hlast].
      apply set_to_list_In, elem_of_wanted in Hk as [_ Hk]. auto.
    + intros [Hlast Hnew]. exists (fileName u). split.
      * apply set_to_list_In, elem_of_wanted. split; [|assumption].
        exists u. split; [|reflexivity].
        destruct Hlast as (pre & post & -> & _). apply in_or_app. right. now left.
      * now apply name_dict_lookup.
Qed.

End Required.

Lemma set_to_list_singleton {order : SetOrder} (k : string) :
  set_to_list {[ k ]} = [k].
Proof.
  apply Permutation_singleton_r. rewrite (set_to_list_perm {[ k ]}).
  now rewrite elements_singleton.
Qed.

Lemma required_files_spec_witness :
  outdir Demo.one_present = Some {[ "x.hdf" := "data" ]} /\
  exists to_download,
    required_files [Demo.twice_first; "http://h/y.hdf"; Demo.twice_second] "out"
      Demo.one_present = (Demo.one_present, Ok to_download) /\
    List.NoDup (map fileName to_download) /\
    forall u, In u to_download <->
      last_with_name [Demo.twice_first; "http://h/y.hdf"; Demo.twice_second] u /\
      ~ (is_Some (({[ "x.hdf" := "data" ]} : gmap string string) !! fileName u) /\
         endswith (fileName u) ".hdf" = true).
Proof.
  split; [reflexivity|].
  apply (required_files_spec [Demo.twice_first; "http://h/y.hdf"; Demo.twice_second]
           "out" Demo.one_present {[ "x.hdf" := "data" ]}).
  reflexivity.
Defined.

(** C2 as stated fails on two candidates with one file name: whatever the
    enumeration order of sets, [required_files] keeps the URL seen last,
    where [filterNew] keeps the one seen first. *)
Lemma required_files_keeps_last :
  (forall order : SetOrder,
     @required_files order [Demo.twice_first; Demo.twice_second] "out" Demo.empty_dir
     = (Demo.empty_dir, Ok [Demo.twice_second])) /\
  filterNew [Demo.twice_first; Demo.twice_second] [] = [Demo.twice_first].
Proof.
  split; [|reflexivity].
  intros order.
  destruct (required_files_run [Demo.twice_first; Demo.twice_second] "out"
              Demo.empty_dir ∅ eq_refl) as (vs & Hrun & Hall).
  rewrite Hrun. do 2 f_equal.
  assert (Hw : wanted [Demo.twice_first; Demo.twice_second] ∅ = {[ "x.hdf" ]})
    by (vm_compute; reflexivity).
  rewrite Hw, set_to_list_singleton in Hall.
  inversion Hall as [|k v ks vs' Hkv Hrest]; subst. inversion Hrest; subst.
  vm_compute in Hkv. injection Hkv as <-. reflexivity.
Qed.

(** ** The fetcher *)

Lemma concat_cons (x : string) (xs : list string) :
  String.concat "" (x :: xs) = x +:+ String.concat "" xs.
Proof.
  destruct xs as [|y xs]; simpl.
  - now rewrite app_nil_r'.
  - reflexivity.
Qed.

Lemma set_outdir_twice d d' w : set_outdir d' (set_outdir d w) = set_outdir d' w.
Proof. reflexivity. Qed.

Lemma set_outdir_same w d : outdir w = Some d -> set_outdir (Some d) w = w.
Proof. destruct w; simpl; now intros ->. Qed.

Lemma length_append (a b : string) :
  String.length (a +:+ b) = (String.length a + String.length b)%nat.
Proof. induction a as [|c a IH]; [reflexivity|]. rewrite app_cons. simpl. now rewrite IH. Qed.

Lemma sidecar_neq (fname : string) : sidecar fname <> fname.
Proof.
  unfold sidecar. intros H. apply (f_equal String.length) in H.
  rewrite length_append in H. simpl in H. lia.
Qed.

Section Fetcher.

Variable server : Server.

Lemma session_request_eq s url w :
  session_request server s url w
  = (log_request url w, get_result (server (length (net_log w)) (Some (auth s)) url)).
Proof.
  unfold session_request, get_result.
  destruct (server _ _ url) as [|r]; [reflexivity|]. now destruct (body_fails r).
Qed.

(** Writing the chunks appends the body to the entry. *)
Lemma write_blocks_run name blocks fails w d old :
  outdir w = Some d ->
  d !! name = Some old ->
  write_blocks name blocks fails w
  = (set_outdir (Some (<[name := old +:+ String.concat "" blocks]> d)) w,
     if fails then Raise ChunkedEncodingError else Ok tt).
Proof.
  revert w d old. induction blocks as [|block rest IH]; intros w d old Hdir Hold.
  - cbn [write_blocks String.concat]. rewrite app_nil_r'.
    rewrite insert_id by assumption. rewrite set_outdir_same by assumption.
    now destruct fails.
  - cbn [write_blocks].
    assert (Hw : fp_write name block w
                 = (set_outdir (Some (<[name := old +:+ block]> d)) w, Ok tt)).
    { unfold fp_write. now rewrite Hdir, Hold. }
    rewrite (bind_ok _ _ _ _ _ Hw).
    rewrite (IH _ (<[name := old +:+ block]> d) (old +:+ block));
      [|reflexivity|apply lookup_insert_eq].
    rewrite set_outdir_twice, insert_insert_eq, concat_cons, app_assoc'. reflexivity.
Qed.

(** Opening, writing and renaming, in one step. *)
Lemma materialize_eq fname output_dir r w :
  (let* _ := open_wb (sidecar fname) in
   let* _ := write_blocks (sidecar fname) (chunks r) (body_fails r) in
   let* _ := os_rename (sidecar fname) fname in
   ret (os_path_join output_dir fname)) w
  = materialize fname output_dir r w.
Proof.
  unfold materialize. destruct (outdir w) as [d|] eqn:Hdir.
  - assert (Hopen : open_wb (sidecar fname) w
                    = (set_outdir (Some (<[sidecar fname := ""]> d)) w, Ok tt))
      by (unfold open_wb; now rewrite Hdir).
    rewrite (bind_ok _ _ _ _ _ Hopen).
    assert (Hwrite := write_blocks_run (sidecar fname) (chunks r) (body_fails r)
                        (set_outdir (Some (<[sidecar fname := ""]> d)) w)
                        (<[sidecar fname := ""]> d) "" eq_refl
                        (lookup_insert_eq _ _ _)).
    rewrite set_outdir_twice, insert_insert_eq, app_nil_l' in Hwrite.
    fold (text r) in Hwrite.
    destruct (body_fails r).
    + now rewrite (bind_raise _ _ _ _ _ Hwrite).
    + rewrite (bind_ok _ _ _ _ _ Hwrite).
      unfold bind, os_rename, ret. cbn [outdir set_outdir].
      rewrite lookup_insert_eq. now destruct (names_directory fname).
  - assert (Hopen : open_wb (sidecar fname) w = (w, Raise OSError))
      by (unfold open_wb; now rewrite Hdir).
    now rewrite (bind_raise _ _ _ _ _ Hopen).
Qed.

(** [download_granules], exit by exit. *)
Lemma download_granules_eq url s username password output_dir w :
  download_granules server url s username password output_dir w
  = let w1 := log_request url w in
    match get_result (server (length (net_log w)) (Some (auth s)) url) with
    | Raise e => (w1, Raise e)
    | Ok r1 =>
        let w2 := log_request (resp_url r1) w1 in
        match server (length (net_log w1)) (Some (auth s)) (resp_url r1) with
        | ConnFail => (w2, Raise ConnectionError)
        | Resp r =>
            if negb (ok r) then (w2, Raise IOError)
            else match content_length r with
                 | HMissing => (w2, Raise KeyError)
                 | HMalformed => (w2, Raise ValueError)
                 | HLength _ => materialize (fileName url) output_dir r w2
                 end
        end
    end.
Proof.
  unfold download_granules. cbv zeta.
  unfold bind at 1. rewrite session_request_eq.
  destruct (get_result _) as [r1|e]; [|reflexivity].
  unfold bind at 1. unfold session_get_stream.
  destruct (server _ _ (resp_url r1)) as [|r]; [reflexivity|].
  destruct (negb (ok r)); [reflexivity|].
  unfold bind at 1, lift.
  destruct (content_length r); try reflexivity.
  apply (materialize_eq (fileName url) output_dir r).
Qed.

(** When no response body breaks off and the file name is a proper file
    name, [download_granules] leaves no sidecar of its file behind on any
    exit: a sidecar that was not there before the call is not there after
    it. *)
Lemma download_granules_sidecar url s username password output_dir w :
  (forall n c v r, server n c v = Resp r -> body_fails r = false) ->
  names_directory (fileName url) = false ->
  sidecar_absent (fileName url) w ->
  sidecar_absent (fileName url)
    (fst (download_granules server url s username password output_dir w)).
Proof.
  intros Hbody Hname Habsent. rewrite download_granules_eq. cbv zeta.
  destruct (get_result _) as [r1|e]; [|exact Habsent].
  destruct (server _ _ (resp_url r1)) as [|r] eqn:Hr; [exact Habsent|].
  destruct (negb (ok r)); [exact Habsent|].
  destruct (content_length r); try exact Habsent.
  unfold materialize. cbn [outdir log_request].
  destruct (outdir w) as [d|] eqn:Hdir.
  - rewrite (Hbody _ _ _ _ Hr), Hname. unfold sidecar_absent. cbn [fst outdir set_outdir].
    rewrite lookup_insert_ne by (apply not_eq_sym, sidecar_neq).
    apply lookup_delete_eq.
  - unfold sidecar_absent. cbn [fst outdir log_request]. now rewrite Hdir.
Qed.

End Fetcher.

Lemma demo_bodies_complete n c v r :
  Demo.server n c v = Resp r -> body_fails r = false.
Proof.
  unfold Demo.server, Demo.archive.
  repeat match goal with
         | |- context [if ?b then _ else _] => destruct b
         end; intros [= <-]; reflexivity.
Qed.

(** C3 as stated fails when a transfer breaks off after its first chunk:
    the run ends with the error of the broken connection, and the sidecar
    of the granule is left in the output directory. *)
Lemma run_leaves_partial :
  snd (Demo.run Demo.server_breaking (mkSchedule 0 0) Demo.w0)
  = Raise ChunkedEncodingError /\
  Demo.entries (fst (Demo.run Demo.server_breaking (mkSchedule 0 0) Demo.w0))
  = ["MOD13A3.A2018.01.01.h17v05.006.hdf";
     "MOD13A3.A2018.01.01.h17v04.006.hdf.partial"].
Proof. split; vm_compute; reflexivity. Qed.

(** ** The worker pool *)

Lemma in_order_app_fail {A B} (f : A -> M B) before bad after w w1 w2 outs e :
  in_order f before w = (w1, inl outs) ->
  f bad w1 = (w2, Raise e) ->
  in_order f (before ++ bad :: after) w = (w2, inr (e, after)).
Proof.
  revert w outs. induction before as [|x before IH]; intros w outs Hbefore Hbad.
  - cbn in Hbefore. injection Hbefore as <- <-. cbn. now rewrite Hbad.
  - cbn in Hbefore |- *. destruct (f x w) as [wx [b|ex]]; [|discriminate].
    destruct (in_order f before wx) as [wy [bs|?]] eqn:Hrest; [|discriminate].
    injection Hbefore as <- <-.
    now rewrite (IH _ _ Hrest Hbad).
Qed.

(** The results a pass hands over, one per task. *)
Lemma in_order_results {A B} (f : A -> M B) xs w w' outs :
  in_order f xs w = (w', inl outs) ->
  Forall2 (fun x out => exists wa wb, f x wa = (wb, Ok out)) xs outs.
Proof.
  revert w outs. induction xs as [|x xs IH]; intros w outs H; cbn in H.
  - injection H as <- <-. constructor.
  - destruct (f x w) as [wx [b|ex]] eqn:Hx; [|discriminate].
    destruct (in_order f xs wx) as [wy [bs|?]] eqn:Hrest; [|discriminate].
    injection H as <- <-. constructor; eauto.
Qed.

Section Run.

Variable server : Server.
Context {order : SetOrder}.

(** A transfer that returns has its final path as result. *)
Lemma fetch_one_result username password output_dir u w w' out :
  fetch_one server username password output_dir u w = (w', Ok out) ->
  out = os_path_join output_dir (fileName u).
Proof.
  unfold fetch_one. rewrite download_granules_eq. cbv zeta.
  destruct (get_result _) as [r1|]; [|discriminate].
  destruct (server _ _ (resp_url r1)) as [|r]; [discriminate|].
  destruct (negb (ok r)); [discriminate|].
  destruct (content_length r); try discriminate.
  unfold materialize. destruct (outdir _); [|discriminate].
  destruct (body_fails r); [discriminate|].
  destruct (names_directory _); [discriminate|].
  now intros [= _ <-].
Qed.

Lemma fetch_results username password output_dir us w w' outs :
  in_order (fetch_one server username password output_dir) us w = (w', inl outs) ->
  outs = map (fun u => os_path_join output_dir (fileName u)) us.
Proof.
  intros H. apply in_order_results in H.
  induction H as [|u out us outs (wa & wb & Hu) _ IH]; [reflexivity|].
  cbn [map]. now rewrite (fetch_one_result _ _ _ _ _ _ _ Hu), IH.
Qed.

(** C4, as amended: when the transfer of one file of the pass meets a
    non-success status, [download_granules] raises [IOError] for it and
    [get_modis_data] ends with that error after this one pass, without a
    retry.  The transfers before it have returned their final paths; of
    those after it, the ones a worker had started run to their end and
    the others are never requested. *)
Theorem get_modis_data_failed_transfer fuel sched username password platform
    product tiles output_dir start_date end_date n_threads
    w w0 w1 before bad after outs r1 r :
  granules_to_download server fuel sched platform product tiles output_dir
    start_date end_date n_threads w = (w0, Ok (before ++ bad :: after)) ->
  0 < n_threads ->
  in_order (fetch_one server username password output_dir) before (fst (sleep 10 w0))
  = (w1, inl outs) ->
  server (length (net_log w1)) (Some (username, password)) bad = Resp r1 ->
  body_fails r1 = false ->
  server (length (net_log (log_request bad w1))) (Some (username, password))
    (resp_url r1) = Resp r ->
  ok r = false ->
  get_modis_data server fuel sched username password platform product tiles
    output_dir start_date end_date n_threads w
  = (run_discard (fetch_one server username password output_dir)
       (take (fetching_extra sched) after)
       (log_request (resp_url r1) (log_request bad w1)),
     Raise IOError) /\
  outs = map (fun u => os_path_join output_dir (fileName u)) before.
Proof.
  intros Hplan Hn Hbefore Hr1 Hbody Hr Hok.
  split; [|exact (fetch_results _ _ _ _ _ _ _ Hbefore)].
  unfold get_modis_data. rewrite (bind_ok _ _ _ _ _ Hplan).
  replace (length (before ++ bad :: after) =? 0)%nat with false
    by (symmetry; apply Nat.eqb_neq; rewrite length_app; simpl; lia).
  unfold fetch_pass.
  assert (Hsleep : sleep 10 w0 = (fst (sleep 10 w0), Ok tt)) by reflexivity.
  rewrite (bind_ok _ _ _ _ _ Hsleep).
  apply bind_raise. unfold executor_map.
  replace (n_threads <=? 0) with false by (symmetry; apply Z.leb_gt; lia).
  fold (fetch_one server username password output_dir).
  assert (Hbad : fetch_one server username password output_dir bad w1
                 = (log_request (resp_url r1) (log_request bad w1), Raise IOError)).
  { unfold fetch_one. rewrite download_granules_eq. cbv zeta. cbn [auth]. unfold credentials in *.
    rewrite Hr1. cbn [get_result]. rewrite Hbody, Hr, Hok. reflexivity. }
  now rewrite (in_order_app_fail _ _ _ _ _ _ _ _ _ Hbefore Hbad).
Qed.

End Run.

Section Orchestrator.

Variable server : Server.
Context {order : SetOrder}.

(** Up to the date scan: the platform is checked and the output directory
    made sure of. *)
Lemma granules_to_download_eq fuel sched platform product tiles output_dir
    start_date end_date n_threads w :
  valid_platform platform = true ->
  granules_to_download server fuel sched platform product tiles output_dir
    start_date end_date n_threads w
  = bind (get_available_dates server (BASE_URL +:+ platform +:+ "/" +:+ product)
            start_date end_date)
         (after_scan server fuel sched tiles output_dir n_threads)
         (ensure_dir w).
Proof.
  intros Hplat. unfold granules_to_download, valid_platform in *.
  rewrite Hplat. cbn [negb]. unfold ensure_dir.
  unfold bind at 1. unfold os_path_exists.
  destruct (outdir w) eqn:Hdir; cbn [negb].
  - reflexivity.
  - unfold bind at 1. unfold os_mkdir. rewrite Hdir. reflexivity.
Qed.

(** C1: when the date scan finds no date in the window it returns the
    empty list, and [get_modis_data] then raises [IndexError] on
    [the_dates[0]] instead of returning the empty list. *)
Theorem get_modis_data_empty_window fuel sched username password platform
    product tiles output_dir start_date end_date n_threads w w1 :
  valid_platform platform = true ->
  get_available_dates server (BASE_URL +:+ platform +:+ "/" +:+ product)
    start_date end_date (ensure_dir w) = (w1, Ok []) ->
  get_modis_data server fuel sched username password platform product tiles
    output_dir start_date end_date n_threads w
  = (w1, Raise IndexError).
Proof.
  intros Hplat Hscan. unfold get_modis_data. apply bind_raise.
  rewrite granules_to_download_eq by assumption.
  rewrite (bind_ok _ _ _ _ _ Hscan). reflexivity.
Qed.

End Orchestrator.

Lemma get_modis_data_empty_window_witness :
  (valid_platform "MOLT" = true /\
   snd (get_available_dates Demo.server (BASE_URL +:+ "MOLT" +:+ "/" +:+ "MOD13A3.006")
          (date_at 2010 1 1) (Some (date_at 2010 2 1)) (ensure_dir Demo.w0)) = Ok []) /\
  snd (Demo.run_2010 Demo.w0) = Raise IndexError.
Proof.
  split; [split; vm_compute; reflexivity|].
  unfold Demo.run_2010.
  rewrite (get_modis_data_empty_window Demo.server 1 (mkSchedule 0 0) (Some "user")
             (Some "secret") "MOLT" "MOD13A3.006" Demo.tiles "out" (date_at 2010 1 1)
             (Some (date_at 2010 2 1)) 3 Demo.w0
             (fst (get_available_dates Demo.server
                     (BASE_URL +:+ "MOLT" +:+ "/" +:+ "MOD13A3.006")
                     (date_at 2010 1 1) (Some (date_at 2010 2 1)) (ensure_dir Demo.w0))));
    [reflexivity|reflexivity|vm_compute; reflexivity].
Defined.

Lemma get_modis_data_failed_transfer_witness :
  snd (Demo.run Demo.server_missing (mkSchedule 0 1) Demo.w0) = Raise IOError /\
  Demo.entries (fst (Demo.run Demo.server_missing (mkSchedule 0 1) Demo.w0))
  = ["MOD13A3.A2018.01.01.h17v05.006.hdf"; "MOD13A3.A2018.02.01.h17v05.006.hdf"].
Proof.
  pose (plan := granules_to_download Demo.server_missing 1 (mkSchedule 0 1) "MOLT"
                  "MOD13A3.006" Demo.tiles "out" (date_at 2018 1 1)
                  (Some (date_at 2018 2 1)) 3 Demo.w0).
  pose (pass := in_order (fetch_one Demo.server_missing (Some "user") (Some "secret") "out")
                  [Demo.first_url] (fst (sleep 10 (fst plan)))).
  destruct (get_modis_data_failed_transfer Demo.server_missing 1 (mkSchedule 0 1)
              (Some "user") (Some "secret") "MOLT" "MOD13A3.006" Demo.tiles "out"
              (date_at 2018 1 1) (Some (date_at 2018 2 1)) 3
              Demo.w0 (fst plan) (fst pass) [Demo.first_url] Demo.broken_url
              Demo.later_urls ["out/MOD13A3.A2018.01.01.h17v05.006.hdf"]
              (Demo.not_found Demo.broken_url) (Demo.not_found Demo.broken_url))
    as [Hrun _]; try (vm_compute; reflexivity).
  unfold Demo.run. rewrite Hrun. split; vm_compute; reflexivity.
Defined.

(** C4 as stated fails on an archive where one granule of four is gone:
    the run ends with [IOError] after its one pass, with no retry, even
    when every other transfer had been started; and when none had, the
    transfers after the failed one never take place. *)
Lemma run_without_retry :
  snd (Demo.run Demo.server_missing (mkSchedule 0 3) Demo.w0) = Raise IOError /\
  slept (fst (Demo.run Demo.server_missing (mkSchedule 0 3) Demo.w0)) = [10] /\
  Demo.entries (fst (Demo.run Demo.server_missing (mkSchedule 0 3) Demo.w0))
  = ["MOD13A3.A2018.01.01.h17v05.006.hdf"; "MOD13A3.A2018.02.01.h17v05.006.hdf";
     "MOD13A3.A2018.02.01.h17v04.006.hdf"] /\
  Demo.entries (fst (Demo.run Demo.server_missing (mkSchedule 0 0) Demo.w0))
  = ["MOD13A3.A2018.01.01.h17v05.006.hdf"].
Proof. repeat split; vm_compute; reflexivity. Qed.

(** ** Product names and platforms *)

Lemma digit_facts (c : ascii) :
  is_digit c = true ->
  upper_char c = c /\ Ascii.eqb c "M" = false /\ class_has CAny c = true.
Proof.
  destruct c as [[] [] [] [] [] [] [] []]; vm_compute; intros H;
    try discriminate H; repeat split.
Qed.

Lemma startswith_other_char (c a : ascii) (s sub : string) :
  Ascii.eqb a c = false -> startswith (String a s) (String c sub) = false.
Proof.
  intros H. unfold startswith. cbn [String.prefix].
  destruct (ascii_dec c a) as [->|]; [|reflexivity].
  now rewrite Ascii.eqb_refl in H.
Qed.

(** A text is not found where its first character does not occur. *)
Lemma find_from_absent (c : ascii) (sub s : string) (i : Z) :
  has_char c s = false -> find_from i s (String c sub) = -1.
Proof.
  revert i. induction s as [|a s IH]; intros i H.
  - reflexivity.
  - cbn [has_char] in H. apply orb_false_iff in H as [Ha Hs].
    cbn [find_from]. rewrite startswith_other_char by assumption. now apply IH.
Qed.

Lemma three_digits_facts (s : string) :
  three_digits s = true ->
  upper s = s /\ has_char "M" s = false /\
  re_match [Ahead CAny; One CDigit; One CDigit; One CDigit] s = true.
Proof.
  destruct s as [|a [|b [|c [|? ?]]]]; try discriminate. cbn [three_digits].
  intros H. apply andb_true_iff in H as [H Hc]. apply andb_true_iff in H as [Ha Hb].
  destruct (digit_facts a Ha) as (Ua & Ma & Aa).
  destruct (digit_facts b Hb) as (Ub & Mb & _).
  destruct (digit_facts c Hc) as (Uc & Mc & _).
  cbn [upper has_char re_match]. rewrite Ua, Ub, Uc, Ma, Mb, Mc, Aa.
  cbn [class_has]. rewrite Ha, Hb, Hc. repeat split.
Qed.

Lemma collection_tail_facts (s : string) :
  collection_tail s = true ->
  upper s = s /\ has_char "M" s = false /\
  plus_go (class_has CAny)
    (re_match [Ahead CAny; One CDigit; One CDigit; One CDigit]) s = true.
Proof.
  induction s as [|c r IH]; [discriminate|]. cbn [collection_tail].
  destruct (is_digit c) eqn:Hc.
  - intros H. destruct (IH H) as (U & M' & P).
    destruct (digit_facts c Hc) as (Uc & Mc & Ac).
    cbn [upper has_char plus_go]. rewrite U, Uc, Mc, M', Ac, P.
    repeat split. now rewrite orb_true_r.
  - intros H. apply andb_true_iff in H as [Hdot H3].
    apply Ascii.eqb_eq in Hdot as ->.
    destruct (three_digits_facts r H3) as (U & M' & R).
    cbn [upper has_char plus_go]. rewrite U, M', R. repeat split.
Qed.

(** Where the first character of [sub] occurs only at the head of the
    text, [sub] is found at index 0 or not at all. *)
Lemma find_head_only (m : ascii) (s sub : string) :
  has_char m s = false ->
  find (String m s) (String m sub) = if startswith s sub then 0 else -1.
Proof.
  intros H. unfold find. cbn [find_from].
  assert (E : startswith (String m s) (String m sub) = startswith s sub).
  { unfold startswith. cbn [String.prefix]. destruct (ascii_dec m m); [reflexivity|congruence]. }
  rewrite E. destruct (startswith s sub); [reflexivity|].
  now apply find_from_absent.
Qed.

Lemma documented_form_inv (typed : string) :
  documented_form typed = true ->
  exists x d1 d2 r,
    typed = String "M" (String x (String "D" (String d1 (String d2 (String "A" r))))) /\
    (x = "C" \/ x = "Y" \/ x = "O")%char /\
    is_digit d1 = true /\ is_digit d2 = true /\ collection_tail r = true.
Proof.
  destruct typed as [|m [|x [|d [|d1 [|d2 [|a r]]]]]]; try discriminate.
  cbn [documented_form]. intros H.
  repeat match type of H with
         | (_ && _) = true => let H' := fresh "H" in apply andb_true_iff in H as [H H']
         end.
  apply Ascii.eqb_eq in H as ->.
  repeat match goal with
         | E : Ascii.eqb _ _ = true |- _ => apply Ascii.eqb_eq in E as ->
         end.
  exists x, d1, d2, r. repeat split; try assumption.
  match goal with E : existsb _ _ = true |- _ => cbn [existsb] in E; rename E into Hx end.
  repeat match type of Hx with
         | (_ || _) = true => apply orb_true_iff in Hx as [Hx|Hx]
         end; try discriminate; apply Ascii.eqb_eq in Hx; auto.
Qed.

Lemma main_product_documented (options : Options) (typed : string) :
  opt_product options = Some typed ->
  documented_form typed = true ->
  exists platform,
    main_product options = Ok (typed, platform) /\
    platform_of_prefix typed = Some platform.
Proof.
  intros Hopt Hform. unfold main_product. rewrite Hopt.
  destruct (documented_form_inv typed Hform) as (x & d1 & d2 & r & -> & Hx & H1 & H2 & Hr).
  destruct (collection_tail_facts r Hr) as (Ur & Mr & Pr).
  destruct (digit_facts d1 H1) as (U1 & M1 & _).
  destruct (digit_facts d2 H2) as (U2 & M2 & _).
  assert (Hup : upper_char x = x) by (destruct Hx as [->|[->| ->]]; reflexivity).
  assert (Hm : Ascii.eqb x "M" = false) by (destruct Hx as [->|[->| ->]]; reflexivity).
  assert (Hin : existsb (Ascii.eqb x) ["C"; "Y"; "O"]%char = true)
    by (destruct Hx as [->|[->| ->]]; reflexivity).
  cbn [upper]. rewrite Hup, U1, U2, Ur.
  change (upper_char "M") with "M"%char. change (upper_char "D") with "D"%char.
  change (upper_char "A") with "A"%char.
  assert (Hre : re_match product_regex
                  (String "M" (String x (String "D" (String d1 (String d2 (String "A" r))))))
                = true).
  { unfold product_regex. cbn [re_match class_has].
    rewrite Hin, !Ascii.eqb_refl, H1, H2. exact Pr. }
  rewrite Hre. cbn [negb].
  assert (Htail : has_char "M" (String x (String "D" (String d1 (String d2 (String "A" r)))))
                  = false).
  { cbn [has_char]. rewrite Hm, M1, M2, Mr. reflexivity. }
  rewrite !(find_head_only "M" _ _ Htail).
  destruct Hx as [->|[->| ->]]; cbn; eexists; split; reflexivity.
Qed.

Section Main.

Variable server : Server.
Context {order : SetOrder}.
Variable cli_datetime : string -> result datetime.

(** C9, as amended: a product name whose upper-case form does not match
    [product_regex] is rejected with [ValueError] before any request is
    issued; and for a name typed in the documented form the platform is
    the one of its prefix: [MOD] gives [MOLT], [MYD] gives [MOLA] and
    [MCD] gives [MOTA]. *)
Theorem main_product_platform fuel sched (options : Options) (typed : string) w :
  opt_product options = Some typed ->
  (re_match product_regex (upper typed) = false ->
   main server cli_datetime fuel sched options w = (w, Raise ValueError)) /\
  (documented_form typed = true ->
   exists platform,
     main_product options = Ok (typed, platform) /\
     platform_of_prefix typed = Some platform).
Proof.
  intros Hopt. split.
  - intros Hre. unfold main. apply bind_raise. unfold lift, main_product.
    now rewrite Hopt, Hre.
  - now apply main_product_documented.
Qed.

End Main.

Lemma main_product_platform_witness :
  (opt_product (Demo.options_for "MYD13A3.006") = Some "MYD13A3.006" /\
   documented_form "MYD13A3.006" = true) /\
  main_product (Demo.options_for "MYD13A3.006") = Ok ("MYD13A3.006", "MOLA") /\
  platform_of_prefix "MYD13A3.006" = Some "MOLA" /\
  re_match product_regex (upper "modis") = false /\
  main Demo.server Demo.read_date 1 (mkSchedule 0 0) (Demo.options_for "modis") Demo.w0
  = (Demo.w0, Raise ValueError).
Proof.
  split; [split; reflexivity|].
  destruct (main_product_platform Demo.server Demo.read_date 1 (mkSchedule 0 0)
              (Demo.options_for "MYD13A3.006") "MYD13A3.006" Demo.w0 eq_refl)
    as [_ Hform].
  destruct (Hform eq_refl) as (platform & Hmain & Hprefix).
  destruct (main_product_platform Demo.server Demo.read_date 1 (mkSchedule 0 0)
              (Demo.options_for "modis") "modis" Demo.w0 eq_refl)
    as [Hreject _].
  split; [reflexivity|]. split; [reflexivity|]. split; [reflexivity|].
  exact (Hreject eq_refl).
Defined.

(** C9 as stated fails on a name that matches [product_regex] and holds
    [MOD] after its prefix [MCD]: the platform is [MOLT], where the prefix
    gives [MOTA]. *)
Lemma platform_not_by_prefix :
  re_match product_regex (upper "MCD12AMOD006") = true /\
  main_product (Demo.options_for "MCD12AMOD006") = Ok ("MCD12AMOD006", "MOLT") /\
  platform_of_prefix "MCD12AMOD006" = Some "MOTA".
Proof. repeat split; reflexivity. Qed.

(** ** Running the orchestrator twice *)

Lemma bind_inv_ok {A B} (c : M A) (k : A -> M B) w w' b :
  bind c k w = (w', Ok b) -> exists w1 a, c w = (w1, Ok a) /\ k a w1 = (w', Ok b).
Proof.
  unfold bind. destruct (c w) as [w1 [a|e]]; [eauto|discriminate].
Qed.

Lemma rev_app_append (a b acc : string) :
  String.rev_app (a +:+ b) acc = String.rev_app b (String.rev_app a acc).
Proof.
  revert acc. induction a as [|c a IH]; intros acc; [reflexivity|].
  rewrite app_cons. cbn [String.rev_app]. apply IH.
Qed.

(** A sidecar is no [.hdf] file. *)
Lemma endswith_sidecar (fname : string) : endswith (sidecar fname) ".hdf" = false.
Proof.
  unfold endswith, sidecar, String.rev. rewrite rev_app_append. reflexivity.
Qed.

Lemma Forall2_In_l {A B} (R : A -> B -> Prop) xs ys x :
  Forall2 R xs ys -> In x xs -> exists y, In y ys /\ R x y.
Proof.
  intros H. induction H as [|a b xs ys Hab _ IH]; [contradiction|].
  intros [<-|Hx].
  - exists b. split; [now left|assumption].
  - destruct (IH Hx) as (y & Hy & Hxy). exists y. split; [now right|assumption].
Qed.

Lemma Forall2_In_r {A B} (R : A -> B -> Prop) xs ys y :
  Forall2 R xs ys -> In y ys -> exists x, In x xs /\ R x y.
Proof.
  intros H. induction H as [|a b xs ys Hab _ IH]; [contradiction|].
  intros [<-|Hy].
  - exists a. split; [now left|assumption].
  - destruct (IH Hy) as (x & Hx & Hxy). exists x. split; [now right|assumption].
Qed.

Section Twice.

Variable server : Server.
Context {order : SetOrder}.

Lemma get_available_dates_eq url start_date end_date w :
  get_available_dates server url start_date (Some end_date) w
  = (log_request url w,
     dates_result (server (length (net_log w)) None url) url start_date end_date).
Proof.
  unfold get_available_dates, dates_result.
  unfold bind at 1. unfold ret. unfold bind at 1. rewrite requests_get_eq.
  destruct (get_result _) as [r|e]; [|reflexivity].
  now destruct (negb (ok r)).
Qed.

Lemma download_granule_list_eq fuel url tiles w :
  download_granule_list server (S fuel) url tiles w
  = (log_request url w,
     listing_result (server (length (net_log w)) None url) url (as_tile_list tiles)).
Proof.
  unfold download_granule_list, listing_result.
  unfold bind. rewrite get_until_success_once.
  now destruct (get_result _).
Qed.

(** The listing phase leaves the output directory alone, and on a
    stationary archive its outcome does not depend on the world. *)
Lemma listing_in_order fuel tiles dates w w' :
  stationary server ->
  snd (in_order (fun date => download_granule_list server (S fuel) date tiles) dates w)
  = snd (in_order (fun date => download_granule_list server (S fuel) date tiles) dates w')
  /\ outdir (fst (in_order (fun date => download_granule_list server (S fuel) date tiles)
                    dates w)) = outdir w.
Proof.
  intros Hstat. revert w w'. induction dates as [|date rest IH]; intros w w'.
  - split; reflexivity.
  - cbn [in_order]. rewrite !download_granule_list_eq.
    rewrite (Hstat (length (net_log w)) (length (net_log w')) None date).
    destruct (listing_result _ date (as_tile_list tiles)) as [grab|e].
    + destruct (IH (log_request date w) (log_request date w')) as [Hsnd Hdir].
      destruct (in_order _ rest (log_request date w)) as [wx [gs|[ex left]]];
        destruct (in_order _ rest (log_request date w')) as [wy [gs'|[ey left']]];
        cbn [snd fst] in *; try discriminate; (split; [congruence|exact Hdir]).
    + split; reflexivity.
Qed.

Lemma set_to_list_empty (X : gset string) :
  (forall k, k ∉ X) -> set_to_list X = [].
Proof.
  intros H. destruct (set_to_list X) as [|k l] eqn:E; [reflexivity|].
  exfalso. apply (H k). apply set_to_list_In. rewrite E. now left.
Qed.

(** A transfer that returns has put its file in place and kept every
    entry but its own sidecar. *)
Lemma fetch_one_dir username password output_dir u w w' out :
  fetch_one server username password output_dir u w = (w', Ok out) ->
  exists d d',
    outdir w = Some d /\ outdir w' = Some d' /\
    is_Some (d' !! fileName u) /\
    forall k, k <> sidecar (fileName u) -> is_Some (d !! k) -> is_Some (d' !! k).
Proof.
  unfold fetch_one. rewrite download_granules_eq. cbv zeta.
  destruct (get_result _) as [r1|]; [|discriminate].
  destruct (server _ _ (resp_url r1)) as [|r]; [discriminate|].
  destruct (negb (ok r)); [discriminate|].
  destruct (content_length r); try discriminate.
  unfold materialize. cbn [outdir log_request].
  destruct (outdir w) as [d|]; [|discriminate].
  destruct (body_fails r); [discriminate|].
  destruct (names_directory _); [discriminate|].
  intros [= <- _]. eexists _, _. split; [reflexivity|]. split; [reflexivity|].
  split.
  - rewrite lookup_insert_eq. eauto.
  - intros k Hk Hd. destruct (decide (fileName u = k)) as [->|Hne].
    + rewrite lookup_insert_eq. eauto.
    + rewrite lookup_insert_ne by assumption.
      rewrite lookup_delete_ne by (now apply not_eq_sym).
      now rewrite lookup_insert_ne by (now apply not_eq_sym).
Qed.

(** A pass in which every transfer returns keeps the [.hdf] entries and
    adds the [.hdf] files it was asked for. *)
Lemma fetch_pass_dir username password output_dir us w w' outs d :
  in_order (fetch_one server username password output_dir) us w = (w', inl outs) ->
  outdir w = Some d ->
  exists d',
    outdir w' = Some d' /\
    (forall k, endswith k ".hdf" = true -> is_Some (d !! k) -> is_Some (d' !! k)) /\
    (forall u, In u us -> endswith (fileName u) ".hdf" = true ->
               is_Some (d' !! fileName u)).
Proof.
  revert w outs d. induction us as [|u us IH]; intros w outs d Hpass Hdir.
  - cbn in Hpass. injection Hpass as <- _. exists d. split; [assumption|].
    split; [auto|contradiction].
  - cbn [in_order] in Hpass.
    destruct (fetch_one _ _ _ _ u w) as [wx [out|e]] eqn:Hu; [|discriminate].
    destruct (in_order _ us wx) as [wy [outs'|?]] eqn:Hrest; [|discriminate].
    injection Hpass as <- _.
    destruct (fetch_one_dir _ _ _ _ _ _ _ Hu) as (d0 & dx & Hd0 & Hdx & Hnew & Hkeep).
    rewrite Hdir in Hd0. injection Hd0 as <-.
    destruct (IH _ _ _ Hrest Hdx) as (d' & Hd' & Hold & Hadded).
    assert (Hhdf : forall k, endswith k ".hdf" = true -> is_Some (d !! k) -> is_Some (dx !! k)).
    { intros k Hk. apply Hkeep. intros ->. rewrite endswith_sidecar in Hk. discriminate. }
    exists d'. split; [assumption|]. split.
    + intros k Hk Hin. apply Hold; [assumption|]. now apply Hhdf.
    + intros v [<-|Hv] Hk; [|now apply Hadded].
      apply Hold; assumption.
Qed.

Lemma last_item_cons {A} (x : A) (l : list A) : exists y, last_item (x :: l) = Some y.
Proof.
  unfold last_item. revert x. induction l as [|z l IH]; intros x.
  - now exists x.
  - destruct (IH z) as [y Hy]. exists y. cbn [map] in *.
    change (List.last (Some x :: Some z :: map Some l) None)
      with (List.last (Some z :: map Some l) None). exact Hy.
Qed.

Lemma after_scan_empty fuel sched tiles output_dir n_threads w :
  after_scan server fuel sched tiles output_dir n_threads [] w = (w, Raise IndexError).
Proof. reflexivity. Qed.

Lemma after_scan_cons fuel sched tiles output_dir n_threads date dates w :
  after_scan server fuel sched tiles output_dir n_threads (date :: dates) w
  = bind (executor_map n_threads (listing_extra sched)
            (fun date => download_granule_list server fuel date tiles) (date :: dates))
         (fun the_granules => required_files (sort (concat the_granules)) output_dir) w.
Proof.
  unfold after_scan. destruct (last_item_cons date dates) as [y Hy].
  unfold bind at 1. cbn [lift of_option index_at nth_error].
  unfold bind at 1. unfold lift. rewrite Hy. reflexivity.
Qed.

Lemma executor_map_ok {A B} n extra (f : A -> M B) xs w w' out :
  executor_map n extra f xs w = (w', Ok out) ->
  (n <=? 0) = false /\ in_order f xs w = (w', inl out).
Proof.
  unfold executor_map. destruct (n <=? 0); [discriminate|].
  destruct (in_order f xs w) as [wx [o|[e rest]]]; [|discriminate].
  intros [= <- <-]. split; reflexivity.
Qed.

Lemma ensure_dir_some w : exists d, outdir (ensure_dir w) = Some d.
Proof.
  unfold ensure_dir. destruct (outdir w) as [d|] eqn:E.
  - now exists d.
  - now exists ∅.
Qed.

Lemma ensure_dir_id w d : outdir w = Some d -> ensure_dir w = w.
Proof. unfold ensure_dir. now intros ->. Qed.

Lemma net_log_ensure_dir w : net_log (ensure_dir w) = net_log w.
Proof. unfold ensure_dir. now destruct (outdir w). Qed.

(** C8, as amended: on a stationary archive that lists only [.hdf]
    granules for the request, with the end of the window given, a run of
    [get_modis_data] that returns is followed, for the same request and
    the output directory it left, by a run that returns the empty list
    and leaves the directory as it is. *)
Theorem get_modis_data_twice fuel sched sched' username password platform product
    tiles output_dir start_date end_date n_threads w w1 files :
  stationary server ->
  lists_only_hdf server (S fuel) (BASE_URL +:+ platform +:+ "/" +:+ product)
    start_date (Some end_date) tiles ->
  get_modis_data server (S fuel) sched username password platform product tiles
    output_dir start_date (Some end_date) n_threads w = (w1, Ok files) ->
  exists w2,
    get_modis_data server (S fuel) sched' username password platform product tiles
      output_dir start_date (Some end_date) n_threads w1 = (w2, Ok []) /\
    outdir w2 = outdir w1.
Proof.
  intros Hstat Hhdf Hrun.
  set (url := BASE_URL +:+ platform +:+ "/" +:+ product) in *.
  set (list_one := fun date => download_granule_list server (S fuel) date tiles).
  (* the first run, phase by phase *)
  unfold get_modis_data in Hrun.
  apply bind_inv_ok in Hrun as (wa & todo & Hplan & Hrest).
  assert (Hplat : valid_platform platform = true).
  { destruct (valid_platform platform) eqn:E; [reflexivity|].
    unfold granules_to_download in Hplan. unfold valid_platform in E.
    rewrite E in Hplan. discriminate. }
  rewrite granules_to_download_eq in Hplan by assumption. fold url in Hplan.
  apply bind_inv_ok in Hplan as (wA & dates & Hscan & Hafter).
  pose proof Hscan as Hscan'.
  rewrite get_available_dates_eq, net_log_ensure_dir in Hscan.
  injection Hscan as HwA Hdates.
  destruct dates as [|date dates]; [rewrite after_scan_empty in Hafter; discriminate|].
  rewrite after_scan_cons in Hafter.
  apply bind_inv_ok in Hafter as (wB & gs & Hmap & Hreq).
  apply executor_map_ok in Hmap as [Hn Hio]. fold list_one in Hio.
  destruct (ensure_dir_some w) as [d0 Hd0].
  assert (HdB : outdir wB = Some d0).
  { destruct (listing_in_order fuel tiles (date :: dates) wA wA Hstat) as [_ Hdir].
    fold list_one in Hdir. rewrite Hio in Hdir. cbn [fst] in Hdir.
    rewrite Hdir, <- HwA. exact Hd0. }
  set (gr := sort (concat gs)) in *.
  destruct (required_files_run gr output_dir wB d0 HdB) as (todo' & Hreq' & Hall).
  rewrite Hreq' in Hreq. injection Hreq as <- <-.
  (* every listed granule is an .hdf file *)
  assert (Hgr : forall u, In u gr -> endswith (fileName u) ".hdf" = true).
  { intros u Hu. apply sort_In, in_concat in Hu as (grab & Hgrab & Hu).
    destruct (Forall2_In_r _ _ _ _ (in_order_results _ _ _ _ _ Hio) Hgrab)
      as (dt & Hdt & wc & wd & Hlist).
    exact (Hhdf _ _ _ Hscan' dt wc wd grab u Hdt Hlist Hu). }
  (* the directory the first run leaves *)
  assert (Hd1 : exists d1, outdir w1 = Some d1 /\
            (forall k, endswith k ".hdf" = true -> is_Some (d0 !! k) -> is_Some (d1 !! k)) /\
            (forall u, In u todo' -> endswith (fileName u) ".hdf" = true ->
                       is_Some (d1 !! fileName u))).
  { destruct (length todo' =? 0)%nat eqn:Hlen.
    - injection Hrest as <- _. exists d0. split; [assumption|]. split; [auto|].
      apply Nat.eqb_eq, length_zero_iff_nil in Hlen. subst todo'. contradiction.
    - unfold fetch_pass in Hrest.
      apply bind_inv_ok in Hrest as (ws & [] & Hsleep & Hrest).
      apply bind_inv_ok in Hrest as (wf & dl & Hmap & Hcheck).
      apply executor_map_ok in Hmap as [_ Hpass].
      fold (fetch_one server username password output_dir) in Hpass.
      assert (Hws : outdir ws = Some d0)
        by (unfold sleep in Hsleep; injection Hsleep as <-; exact HdB).
      destruct (fetch_pass_dir _ _ _ _ _ _ _ _ Hpass Hws) as (d1 & Hd1 & Hold & Hnew).
      exists d1. split; [|split; assumption].
      destruct (forallb _ _) in Hcheck; [|discriminate].
      injection Hcheck as <- _. exact Hd1. }
  destruct Hd1 as (d1 & Hd1 & Hold & Hnew).
  (* nothing is wanted any more *)
  assert (Hnone : set_to_list (wanted gr d1) = []).
  { apply set_to_list_empty. intros k Hk.
    pose proof Hk as Hk'. apply elem_of_wanted in Hk' as [(u & Hu & Hname) Hnot].
    apply Hnot. subst k. split; [|now apply Hgr].
    destruct (decide (fileName u ∈ wanted gr d0)) as [Hw|Hw].
    - apply set_to_list_In in Hw.
      destruct (Forall2_In_l _ _ _ _ Hall Hw) as (v & Hv & Hkv).
      apply name_dict_lookup in Hkv as [Hname _]. rewrite <- Hname.
      apply Hnew; [assumption|]. rewrite Hname. now apply Hgr.
    - apply Hold; [now apply Hgr|].
      destruct (d0 !! fileName u) as [x|] eqn:E; [eauto|].
      exfalso. apply Hw. apply elem_of_wanted. split; [eauto|].
      intros [[x Hx] _]. congruence. }
  (* the second run *)
  destruct (in_order list_one (date :: dates) (log_request url w1)) as [wB2 out2] eqn:Hio2.
  destruct (listing_in_order fuel tiles (date :: dates) (log_request url w1) wA Hstat)
    as [Hsnd Hdir2].
  fold list_one in Hsnd, Hdir2. rewrite Hio, Hio2 in Hsnd. rewrite Hio2 in Hdir2.
  cbn [snd fst] in Hsnd, Hdir2. subst out2.
  assert (HdB2 : outdir wB2 = Some d1) by (rewrite Hdir2; exact Hd1).
  destruct (required_files_run gr output_dir wB2 d1 HdB2) as (todo2 & Hreq2 & Hall2).
  rewrite Hnone in Hall2. inversion Hall2; subst.
  exists wB2. split; [|now rewrite HdB2, Hd1].
  unfold get_modis_data.
  assert (Hplan2 : granules_to_download server (S fuel) sched' platform product tiles
                     output_dir start_date (Some end_date) n_threads w1 = (wB2, Ok [])).
  { rewrite granules_to_download_eq by assumption. fold url.
    rewrite (ensure_dir_id _ _ Hd1).
    assert (Hscan2 : get_available_dates server url start_date (Some end_date) w1
                     = (log_request url w1, Ok (date :: dates))).
    { rewrite get_available_dates_eq.
      rewrite (Hstat (length (net_log w1)) (length (net_log w)) None url).
      now rewrite Hdates. }
    rewrite (bind_ok _ _ _ _ _ Hscan2). rewrite after_scan_cons.
    assert (Hmap2 : executor_map n_threads (listing_extra sched') list_one
                      (date :: dates) (log_request url w1) = (wB2, Ok gs)).
    { unfold executor_map. now rewrite Hn, Hio2. }
    fold list_one. rewrite (bind_ok _ _ _ _ _ Hmap2). exact Hreq2. }
  rewrite (bind_ok _ _ _ _ _ Hplan2). reflexivity.
Qed.

End Twice.

Lemma demo_stationary ext : stationary (Demo.archive ext).
Proof. intros n m c u. reflexivity. Qed.

Lemma demo_lists_only_hdf :
  lists_only_hdf Demo.server 1 (BASE_URL +:+ "MOLT" +:+ "/" +:+ "MOD13A3.006")
    (date_at 2018 1 1) (Some (date_at 2018 2 1)) Demo.tiles.
Proof.
  intros wa wb dates Hscan date wc wd grab u Hdate Hlist Hu.
  rewrite get_available_dates_eq in Hscan. injection Hscan as _ Hdates.
  vm_compute in Hdates. simplify_eq.
  rewrite download_granule_list_eq in Hlist. injection Hlist as _ Hgrab.
  destruct Hdate as [<-|[<-|[]]]; vm_compute in Hgrab; simplify_eq;
    repeat (destruct Hu as [<-|Hu]; [reflexivity|]); destruct Hu.
Qed.

Lemma get_modis_data_twice_witness :
  (stationary Demo.server /\
   snd (Demo.run Demo.server (mkSchedule 0 0) Demo.w0)
   = Ok ["out/MOD13A3.A2018.01.01.h17v05.006.hdf"; "out/MOD13A3.A2018.01.01.h17v04.006.hdf";
         "out/MOD13A3.A2018.02.01.h17v05.006.hdf"; "out/MOD13A3.A2018.02.01.h17v04.006.hdf"]) /\
  snd (Demo.run Demo.server (mkSchedule 2 1)
         (fst (Demo.run Demo.server (mkSchedule 0 0) Demo.w0))) = Ok [].
Proof.
  split; [split; [apply demo_stationary|vm_compute; reflexivity]|].
  destruct (get_modis_data_twice Demo.server 0 (mkSchedule 0 0) (mkSchedule 2 1)
              (Some "user") (Some "secret") "MOLT" "MOD13A3.006" Demo.tiles "out"
              (date_at 2018 1 1) (date_at 2018 2 1) 3 Demo.w0
              (fst (Demo.run Demo.server (mkSchedule 0 0) Demo.w0))
              ["out/MOD13A3.A2018.01.01.h17v05.006.hdf";
               "out/MOD13A3.A2018.01.01.h17v04.006.hdf";
               "out/MOD13A3.A2018.02.01.h17v05.006.hdf";
               "out/MOD13A3.A2018.02.01.h17v04.006.hdf"]
              (demo_stationary "hdf") demo_lists_only_hdf)
    as (w2 & Hsecond & _).
  - vm_compute. reflexivity.
  - exact (f_equal snd Hsecond).
Defined.

(** C8 as stated fails on a stationary archive whose granules do not end
    in [.hdf]: the second run fetches again every file of the first. *)
Lemma second_run_fetches_again :
  stationary (Demo.archive "h5") /\
  snd (Demo.run (Demo.archive "h5") (mkSchedule 0 0) Demo.w0)
  = Ok ["out/MOD13A3.A2018.01.01.h17v05.006.h5"; "out/MOD13A3.A2018.01.01.h17v04.006.h5";
        "out/MOD13A3.A2018.02.01.h17v05.006.h5"; "out/MOD13A3.A2018.02.01.h17v04.006.h5"] /\
  snd (Demo.run (Demo.archive "h5") (mkSchedule 0 0)
         (fst (Demo.run (Demo.archive "h5") (mkSchedule 0 0) Demo.w0)))
  = Ok ["out/MOD13A3.A2018.01.01.h17v05.006.h5"; "out/MOD13A3.A2018.01.01.h17v04.006.h5";
        "out/MOD13A3.A2018.02.01.h17v05.006.h5"; "out/MOD13A3.A2018.02.01.h17v04.006.h5"].
Proof. split; [apply demo_stationary|]. split; vm_compute; reflexivity. Qed.

(** ** No new [.partial] entries *)

Lemma keeps_refl w : keeps w w.
Proof. intros k _ H. exact H. Qed.

Lemma keeps_trans w1 w2 w3 : keeps w1 w2 -> keeps w2 w3 -> keeps w1 w3.
Proof. intros H12 H23 k Hk H. apply H12; [assumption|]. now apply H23. Qed.

Lemma keeps_same_dir w w' : outdir w' = outdir w -> keeps w w'.
Proof. intros E k _ H. now rewrite <- E. Qed.

Lemma ensures_bind {A B} (c : M A) (k : A -> M B) (Q : A -> Prop) (R : B -> Prop) :
  ensures c Q -> (forall a, Q a -> ensures (k a) R) -> ensures (bind c k) R.
Proof.
  intros Hc Hk w. unfold bind. specialize (Hc w).
  destruct (c w) as [w1 [a|e]]; cbn [fst snd] in Hc; destruct Hc as [K1 Q1].
  - destruct (Hk a (Q1 a eq_refl) w1) as [K2 R2].
    split; [exact (keeps_trans _ _ _ K1 K2)|exact R2].
  - split; [exact K1|discriminate].
Qed.

(** A computation that leaves the output directory alone. *)
Lemma ensures_same_dir {A} (c : M A) (Q : A -> Prop) :
  (forall w, outdir (fst (c w)) = outdir w) ->
  (forall w a, snd (c w) = Ok a -> Q a) ->
  ensures c Q.
Proof. intros Hdir HQ w. split; [apply keeps_same_dir, Hdir|apply HQ]. Qed.

Lemma ensures_raise {A} (e : exn) (Q : A -> Prop) : ensures (raise e) Q.
Proof. apply ensures_same_dir; [reflexivity|discriminate]. Qed.

Lemma ensures_ret {A} (a : A) (Q : A -> Prop) : Q a -> ensures (ret a) Q.
Proof. intros H. apply ensures_same_dir; [reflexivity|]. now intros w b [= <-]. Qed.

Lemma in_order_same_dir {A B} (f : A -> M B) xs w :
  (forall x w, outdir (fst (f x w)) = outdir w) ->
  outdir (fst (in_order f xs w)) = outdir w.
Proof.
  intros Hf. revert w. induction xs as [|x xs IH]; intros w; [reflexivity|].
  cbn [in_order]. specialize (Hf x w). specialize (IH (fst (f x w))).
  destruct (f x w) as [w1 [b|e]]; cbn [fst] in *; [|assumption].
  destruct (in_order f xs w1) as [w2 [bs|r]]; cbn [fst] in *; congruence.
Qed.

Lemma run_discard_same_dir {A B} (f : A -> M B) xs w :
  (forall x w, outdir (fst (f x w)) = outdir w) ->
  outdir (run_discard f xs w) = outdir w.
Proof.
  intros Hf. revert w. induction xs as [|x xs IH]; intros w; [reflexivity|].
  cbn [run_discard]. now rewrite IH, Hf.
Qed.

Lemma in_order_keeps {A B} (f : A -> M B) xs w :
  (forall x w, In x xs -> keeps w (fst (f x w))) ->
  keeps w (fst (in_order f xs w)).
Proof.
  revert w. induction xs as [|x xs IH]; intros w Hf; [apply keeps_refl|].
  cbn [in_order]. pose proof (Hf x w (or_introl eq_refl)) as Hx.
  assert (Hrest : forall w1, keeps w1 (fst (in_order f xs w1)))
    by (intros w1; apply IH; intros y w2 Hy; apply Hf; now right).
  destruct (f x w) as [w1 [b|e]]; cbn [fst] in *; [|assumption].
  specialize (Hrest w1).
  destruct (in_order f xs w1) as [w2 [bs|r]]; cbn [fst] in *;
    exact (keeps_trans _ _ _ Hx Hrest).
Qed.

Lemma run_discard_keeps {A B} (f : A -> M B) xs w :
  (forall x w, In x xs -> keeps w (fst (f x w))) ->
  keeps w (run_discard f xs w).
Proof.
  revert w. induction xs as [|x xs IH]; intros w Hf; [apply keeps_refl|].
  cbn [run_discard]. eapply keeps_trans; [apply Hf; now left|].
  apply IH. intros y w1 Hy. apply Hf. now right.
Qed.

Lemma in_order_left {A B} (f : A -> M B) xs w w' e left :
  in_order f xs w = (w', inr (e, left)) -> forall x, In x left -> In x xs.
Proof.
  revert w. induction xs as [|y ys IH]; intros w H x Hx; cbn in H; [discriminate|].
  destruct (f y w) as [w1 [b|e1]].
  - destruct (in_order f ys w1) as [w2 [bs|[e2 l2]]] eqn:E; [discriminate|].
    injection H as <- <- <-. right. eapply IH; eauto.
  - injection H as <- <- <-. now right.
Qed.

Lemma In_take {A} (n : nat) (l : list A) x : In x (take n l) -> In x l.
Proof.
  revert l. induction n as [|n IH]; intros [|y l]; cbn; try contradiction.
  intros [<-|H]; [now left|right; now apply IH].
Qed.

Lemma executor_map_keeps {A B} n extra (f : A -> M B) xs w :
  (forall x w, In x xs -> keeps w (fst (f x w))) ->
  keeps w (fst (executor_map n extra f xs w)).
Proof.
  intros Hf. unfold executor_map. destruct (n <=? 0); [apply keeps_refl|].
  pose proof (in_order_keeps f xs w Hf) as Hall.
  destruct (in_order f xs w) as [w1 [out|[e rest]]] eqn:Hio; cbn [fst] in *; [assumption|].
  eapply keeps_trans; [exact Hall|]. apply run_discard_keeps.
  intros x w2 Hx. apply Hf.
  eapply in_order_left; [exact Hio|]. eapply In_take; exact Hx.
Qed.

Lemma executor_map_same_dir {A B} n extra (f : A -> M B) xs w :
  (forall x w, outdir (fst (f x w)) = outdir w) ->
  outdir (fst (executor_map n extra f xs w)) = outdir w.
Proof.
  intros Hf. unfold executor_map. destruct (n <=? 0); [reflexivity|].
  pose proof (in_order_same_dir f xs w Hf) as Hall.
  destruct (in_order f xs w) as [w1 [out|[e rest]]]; cbn [fst] in *; [assumption|].
  now rewrite run_discard_same_dir.
Qed.

Section Partial.

Variable server : Server.
Context {order : SetOrder}.

Hypothesis bodies_complete : forall n c v r, server n c v = Resp r -> body_fails r = false.

(** One transfer adds no [.partial] entry, however it ends. *)
Lemma fetch_one_keeps username password output_dir u w :
  proper_name (fileName u) = true ->
  keeps w (fst (fetch_one server username password output_dir u w)).
Proof.
  intros Hname. unfold proper_name in Hname.
  apply andb_true_iff in Hname as [Hfile Hpart].
  apply negb_true_iff in Hfile, Hpart.
  unfold fetch_one. rewrite download_granules_eq. cbv zeta.
  destruct (get_result _) as [r1|e]; [|now apply keeps_same_dir].
  destruct (server _ _ (resp_url r1)) as [|r] eqn:Hr; [now apply keeps_same_dir|].
  destruct (negb (ok r)); [now apply keeps_same_dir|].
  destruct (content_length r); try (now apply keeps_same_dir).
  unfold materialize. cbn [outdir log_request].
  destruct (outdir w) as [d|] eqn:Hdir.
  - rewrite (bodies_complete _ _ _ _ Hr), Hfile.
    intros k Hk Hin. cbn [fst outdir set_outdir in_dir] in Hin. rewrite Hdir. cbn [in_dir].
    assert (Hne : fileName u <> k) by (intros E; rewrite <- E in Hk; congruence).
    rewrite lookup_insert_ne in Hin by assumption.
    destruct (decide (sidecar (fileName u) = k)) as [<-|Hsc].
    + rewrite lookup_delete_eq in Hin. now destruct Hin.
    + rewrite lookup_delete_ne in Hin by assumption.
      now rewrite lookup_insert_ne in Hin by assumption.
  - apply keeps_same_dir. cbn [fst outdir log_request]. reflexivity.
Qed.

Lemma get_available_dates_same_dir url start_date end_date w :
  outdir (fst (get_available_dates server url start_date end_date w)) = outdir w.
Proof.
  unfold get_available_dates.
  assert (H : forall e w0, outdir (fst (bind (requests_get server url)
              (fun r => if negb (ok r) then raise WebError
                        else lift (scan_dates url start_date e
                                     (slice_from 19 (splitlines (text r))) [])) w0))
              = outdir w0).
  { intros e w0. unfold bind. rewrite requests_get_eq.
    destruct (get_result _) as [r|?]; [|reflexivity]. now destruct (negb (ok r)). }
  destruct end_date as [e|]; unfold bind at 1; cbn [now ret]; apply H.
Qed.

Lemma download_granule_list_same_dir fuel url tiles w :
  outdir (fst (download_granule_list server fuel url tiles w)) = outdir w.
Proof.
  destruct fuel as [|fuel].
  - reflexivity.
  - rewrite download_granule_list_eq. reflexivity.
Qed.

Lemma required_files_same_world url_list output_dir w :
  fst (required_files url_list output_dir w) = w.
Proof.
  unfold required_files, bind, os_listdir. now destruct (outdir w).
Qed.

(** What [required_files] returns was among the candidates. *)
Lemma required_files_subset url_list output_dir w to_download u :
  snd (required_files url_list output_dir w) = Ok to_download ->
  In u to_download -> In u url_list.
Proof.
  intros Hres Hu. destruct (outdir w) as [d|] eqn:Hdir.
  - destruct (required_files_run url_list output_dir w d Hdir) as (vs & Hrun & Hall).
    rewrite Hrun in Hres. injection Hres as <-.
    destruct (Forall2_In_r _ _ _ _ Hall Hu) as (k & _ & Hk).
    apply name_dict_lookup in Hk as [_ (pre & post & -> & _)].
    apply in_or_app. right. now left.
  - unfold required_files, bind, os_listdir in Hres. rewrite Hdir in Hres. discriminate.
Qed.

(** The fetching phase adds no [.partial] entry. *)
Lemma fetch_pass_keeps sched username password output_dir n_threads gr req_fnames w :
  (forall u, In u gr -> proper_name (fileName u) = true) ->
  keeps w (fst (fetch_pass server sched username password output_dir n_threads gr
                  req_fnames w)).
Proof.
  intros Hgr. unfold fetch_pass. unfold bind at 1. cbn [sleep].
  fold (fetch_one server username password output_dir).
  set (ws := mkWorld (outdir w) (net_log w) (slept w ++ [10]) (clock w)).
  assert (Hpass : keeps ws (fst (executor_map n_threads (fetching_extra sched)
                    (fetch_one server username password output_dir) gr ws))).
  { apply executor_map_keeps. intros u w0 Hu. apply fetch_one_keeps. now apply Hgr. }
  unfold bind.
  destruct (executor_map _ _ _ gr ws) as [w1 [dl|e]]; cbn [fst] in *.
  - destruct (forallb _ _); exact Hpass.
  - exact Hpass.
Qed.

Lemma granules_to_download_ensures fuel sched platform product tiles output_dir
    start_date end_date n_threads :
  lists_only proper_name server fuel (BASE_URL +:+ platform +:+ "/" +:+ product)
    start_date end_date tiles ->
  ensures (granules_to_download server fuel sched platform product tiles output_dir
             start_date end_date n_threads)
    (fun gr => forall u, In u gr -> proper_name (fileName u) = true).
Proof.
  intros Hlist. unfold granules_to_download.
  destruct (negb _); [apply ensures_raise|].
  apply ensures_bind with (Q := fun _ => True).
  { apply ensures_same_dir; [reflexivity|trivial]. }
  intros there _.
  apply ensures_bind with (Q := fun _ => True).
  { destruct (negb there); [|now apply ensures_ret].
    intros w. split; [|trivial]. unfold os_mkdir.
    destruct (outdir w) eqn:Hdir; [apply keeps_refl|].
    intros k _ Hin. cbn in Hin. rewrite lookup_empty in Hin. now destruct Hin. }
  intros _ _.
  apply ensures_bind with
    (Q := fun dates => exists wa wb,
            get_available_dates server (BASE_URL +:+ platform +:+ "/" +:+ product)
              start_date end_date wa = (wb, Ok dates)).
  { apply ensures_same_dir; [apply get_available_dates_same_dir|].
    intros w dates Hres. exists w, (fst (get_available_dates server
      (BASE_URL +:+ platform +:+ "/" +:+ product) start_date end_date w)).
    rewrite <- Hres. apply surjective_pairing. }
  intros dates (wa & wb & Hscan).
  apply ensures_bind with (Q := fun _ => True).
  { apply ensures_same_dir; [reflexivity|trivial]. }
  intros _ _.
  apply ensures_bind with (Q := fun _ => True).
  { apply ensures_same_dir; [reflexivity|trivial]. }
  intros _ _.
  apply ensures_bind with
    (Q := fun gs => forall u, In u (concat gs) -> proper_name (fileName u) = true).
  { apply ensures_same_dir.
    - intros w. apply executor_map_same_dir. intros date w0.
      apply download_granule_list_same_dir.
    - intros w gs Hres u Hu.
      assert (Hmap : executor_map n_threads (listing_extra sched)
                (fun date => download_granule_list server fuel date tiles) dates w
              = (fst (executor_map n_threads (listing_extra sched)
                        (fun date => download_granule_list server fuel date tiles) dates w),
                 Ok gs))
        by (rewrite <- Hres; apply surjective_pairing).
      apply executor_map_ok in Hmap as [_ Hio].
      apply in_concat in Hu as (grab & Hgrab & Hu).
      destruct (Forall2_In_r _ _ _ _ (in_order_results _ _ _ _ _ Hio) Hgrab)
        as (date & Hdate & wc & wd & Hone).
      exact (Hlist _ _ _ Hscan date wc wd grab u Hdate Hone Hu). }
  intros gs Hgs.
  apply ensures_same_dir.
  - intros w. now rewrite required_files_same_world.
  - intros w todo Hres u Hu. apply Hgs. apply sort_In.
    eapply required_files_subset; eauto.
Qed.

(** C3, as amended: when no response body breaks off mid-transfer, a
    call of [download_granules] for a proper file name leaves no sidecar
    behind that was not there before, on any of its exits; and when every
    granule listed for the request has a proper file name, a run of
    [get_modis_data] adds no [.partial] entry to the output directory,
    whatever state it ends in. *)
Theorem no_partial_left fuel sched username password platform product tiles
    output_dir start_date end_date n_threads :
  (forall url s w,
     names_directory (fileName url) = false ->
     sidecar_absent (fileName url) w ->
     sidecar_absent (fileName url)
       (fst (download_granules server url s username password output_dir w))) /\
  (lists_only proper_name server fuel (BASE_URL +:+ platform +:+ "/" +:+ product)
     start_date end_date tiles ->
   forall w,
     keeps w (fst (get_modis_data server fuel sched username password platform
                     product tiles output_dir start_date end_date n_threads w))).
Proof.
  split.
  - intros url s w. now apply download_granules_sidecar.
  - intros Hlist w.
    assert (Hrun : ensures (get_modis_data server fuel sched username password platform
                              product tiles output_dir start_date end_date n_threads)
                     (fun _ => True)).
    { unfold get_modis_data.
      apply ensures_bind with
        (Q := fun gr => forall u, In u gr -> proper_name (fileName u) = true).
      - now apply granules_to_download_ensures.
      - intros gr Hgr. destruct (length gr =? 0)%nat; [now apply ensures_ret|].
        intros w0. split; [|trivial]. now apply fetch_pass_keeps. }
    apply Hrun.
Qed.

End Partial.

Lemma demo_lists_proper :
  lists_only proper_name Demo.server 1 (BASE_URL +:+ "MOLT" +:+ "/" +:+ "MOD13A3.006")
    (date_at 2018 1 1) (Some (date_at 2018 2 1)) Demo.tiles.
Proof.
  intros wa wb dates Hscan date wc wd grab u Hdate Hlist Hu.
  rewrite get_available_dates_eq in Hscan. injection Hscan as _ Hdates.
  vm_compute in Hdates. simplify_eq.
  rewrite download_granule_list_eq in Hlist. injection Hlist as _ Hgrab.
  destruct Hdate as [<-|[<-|[]]]; vm_compute in Hgrab; simplify_eq;
    repeat (destruct Hu as [<-|Hu]; [reflexivity|]); destruct Hu.
Qed.

Lemma no_partial_left_witness :
  ((forall n c v r, Demo.server n c v = Resp r -> body_fails r = false) /\
   names_directory (fileName Demo.broken_url) = false /\
   sidecar_absent (fileName Demo.broken_url) Demo.empty_dir) /\
  sidecar_absent (fileName Demo.broken_url)
    (fst (download_granules Demo.server Demo.broken_url
            (mkSession (Some "user", Some "secret")) (Some "user") (Some "secret")
            "out" Demo.empty_dir)) /\
  keeps Demo.w0 (fst (Demo.run Demo.server (mkSchedule 0 0) Demo.w0)).
Proof.
  split; [split; [exact demo_bodies_complete|split; reflexivity]|].
  destruct (no_partial_left Demo.server demo_bodies_complete 1 (mkSchedule 0 0)
              (Some "user") (Some "secret") "MOLT" "MOD13A3.006" Demo.tiles "out"
              (date_at 2018 1 1) (Some (date_at 2018 2 1)) 3)
    as [Hfetch Hrun].
  split.
  - apply Hfetch; reflexivity.
  - exact (Hrun demo_lists_proper Demo.w0).
Defined.

(** * Further properties of the code *)

(** ** The outcomes of the two scans *)

Lemma href_value_raises line e : href_value line = Raise e -> e = IndexError.
Proof.
  unfold href_value. destruct (index_at (split line "href=") 1) as [after|].
  - unfold of_option. destruct (index_at _ 1); [discriminate|]. now intros [= <-].
  - now intros [= <-].
Qed.

(** Either every directory row parses, or the scan raises whatever it had
    gathered. *)
Lemma scan_dates_cases url start_date end_date lines :
  rows_parse lines \/
  (~ rows_parse lines /\
   forall avail, scan_dates url start_date end_date lines avail = Raise ValueError \/
                 scan_dates url start_date end_date lines avail = Raise IndexError).
Proof.
  induction lines as [|line rest IH].
  - left. constructor.
  - assert (Hcons : forall P : Prop, ~ rows_parse rest -> ~ rows_parse (line :: rest)).
    { intros _ Hrest Hall. inversion Hall; subst. now apply Hrest. }
    destruct (is_dir_row line) eqn:Hdir.
    + destruct (row_date line) as [[s d]|] eqn:Hrow.
      * destruct IH as [Hrest|[Hrest Hfail]].
        -- left. constructor; [intros _; eauto|assumption].
        -- right. split; [now apply (Hcons True)|]. intros avail.
           cbn [scan_dates]. fold (is_dir_row line). rewrite Hdir.
           unfold row_date in Hrow.
           destruct (href_value line) as [quoted|]; [|discriminate].
           destruct (strptime (strip "/" quoted)); [|discriminate].
           destruct (_ && _); apply Hfail.
      * right. split.
        { intros Hall. inversion Hall as [|? ? Hline _]; subst.
          destruct (Hline Hdir) as [x Hx]. congruence. }
        intros avail. cbn [scan_dates]. fold (is_dir_row line). rewrite Hdir.
        unfold row_date in Hrow.
        destruct (href_value line) as [quoted|e] eqn:Hq.
        -- destruct (strptime (strip "/" quoted)); [discriminate|]. now left.
        -- right. now rewrite (href_value_raises _ _ Hq).
    + destruct IH as [Hrest|[Hrest Hfail]].
      * left. constructor; [intros H; congruence|assumption].
      * right. split; [now apply (Hcons True)|]. intros avail.
        cbn [scan_dates]. fold (is_dir_row line). rewrite Hdir. apply Hfail.
Qed.

Lemma grab_tiles_unlinked url line tiles grab e :
  existsb (tile_selects line) tiles = true ->
  href_value line = Raise e ->
  grab_tiles url line tiles grab = Raise IndexError.
Proof.
  intros Hsel Hraise. rewrite (href_value_raises _ _ Hraise) in Hraise.
  induction tiles as [|tile rest IH]; [discriminate|].
  cbn [grab_tiles]. fold (tile_selects line tile). cbn [existsb] in Hsel.
  destruct (tile_selects line tile).
  - now rewrite Hraise.
  - now apply IH.
Qed.

Lemma grab_lines_cases url tiles lines :
  rows_linked tiles lines \/
  (~ rows_linked tiles lines /\
   forall grab, grab_lines url lines tiles grab = Raise IndexError).
Proof.
  induction lines as [|line rest IH].
  - left. constructor.
  - destruct (existsb (tile_selects line) tiles) eqn:Hsel.
    + destruct (href_value line) as [fname|e] eqn:Hf.
      * destruct IH as [Hrest|[Hrest Hfail]].
        -- left. constructor; [eauto|assumption].
        -- right. split.
           { intros Hall. inversion Hall; subst. now apply Hrest. }
           intros grab. cbn [grab_lines].
           rewrite grab_tiles_spec by (intros _; eauto). apply Hfail.
      * right. split.
        { intros Hall. inversion Hall as [|? ? Hline _]; subst.
          destruct (Hline Hsel) as [? ?]. congruence. }
        intros grab. cbn [grab_lines].
        now rewrite (grab_tiles_unlinked _ _ _ _ _ Hsel Hf).
    + destruct IH as [Hrest|[Hrest Hfail]].
      * left. constructor; [intros H; congruence|assumption].
      * right. split.
        { intros Hall. inversion Hall; subst. now apply Hrest. }
        intros grab. cbn [grab_lines].
        rewrite grab_tiles_spec by (intros H; congruence). apply Hfail.
Qed.

Section Outcomes.

Variable server : Server.

Lemma get_available_dates_run url start_date end_date w :
  get_available_dates server url start_date end_date w
  = (log_request url w,
     dates_result (server (length (net_log w)) None url) url start_date
       (match end_date with Some e => e | None => clock w end)).
Proof.
  unfold get_available_dates, dates_result.
  assert (Hend : (match end_date with None => now | Some e0 => ret e0 end) w
                 = (w, Ok (match end_date with Some e => e | None => clock w end)))
    by now destruct end_date.
  rewrite (bind_ok _ _ _ _ _ Hend).
  unfold bind. rewrite requests_get_eq.
  destruct (get_result _) as [r|e]; [|reflexivity].
  now destruct (negb (ok r)).
Qed.

(** X1: [get_available_dates] issues exactly one request and changes
    nothing else, whatever the outcome; a refused connection, a broken
    body and a non-success status end it with [ConnectionError],
    [ChunkedEncodingError] and [WebError]; on a page that was fetched it
    returns the dates of the window when every directory row after the
    19 header lines parses, and raises [ValueError] or [IndexError]
    otherwise. *)
Theorem get_available_dates_outcome url start_date end_date w :
  fst (get_available_dates server url start_date end_date w) = log_request url w /\
  match server (length (net_log w)) None url with
  | ConnFail =>
      snd (get_available_dates server url start_date end_date w) = Raise ConnectionError
  | Resp r =>
      if body_fails r
      then snd (get_available_dates server url start_date end_date w)
           = Raise ChunkedEncodingError
      else if negb (ok r)
      then snd (get_available_dates server url start_date end_date w) = Raise WebError
      else
        (rows_parse (skipn 19 (splitlines (text r))) /\
         snd (get_available_dates server url start_date end_date w)
         = Ok (dates_in_window url start_date
                 (match end_date with Some e => e | None => clock w end)
                 (skipn 19 (splitlines (text r))))) \/
        (~ rows_parse (skipn 19 (splitlines (text r))) /\
         (snd (get_available_dates server url start_date end_date w) = Raise ValueError \/
          snd (get_available_dates server url start_date end_date w) = Raise IndexError))
  end.
Proof.
  rewrite get_available_dates_run. cbn [fst snd]. split; [reflexivity|].
  unfold dates_result, get_result.
  destruct (server _ None url) as [|r]; [reflexivity|].
  destruct (body_fails r); [reflexivity|].
  destruct (negb (ok r)); [reflexivity|].
  destruct (scan_dates_cases url start_date
              (match end_date with Some e => e | None => clock w end)
              (skipn 19 (splitlines (text r)))) as [Hrows|[Hrows Hfail]].
  - left. split; [assumption|]. now rewrite scan_dates_spec.
  - right. split; [assumption|]. apply Hfail.
Qed.

Lemma download_granule_list_run fuel url tiles w :
  download_granule_list server (S fuel) url tiles w
  = (log_request url w,
     listing_result (server (length (net_log w)) None url) url (as_tile_list tiles)).
Proof.
  unfold download_granule_list, listing_result.
  unfold bind. rewrite get_until_success_once.
  now destruct (get_result _).
Qed.

(** X2: [download_granule_list] issues exactly one request and changes
    nothing else.  On a page that was fetched it returns, in page order,
    the link of every selected line once for each tile that selects it,
    when every selected line carries a quoted link, and raises
    [IndexError] otherwise; when the request fails it raises
    [AttributeError]. *)
Theorem download_granule_list_outcome fuel url tiles w :
  fst (download_granule_list server (S fuel) url tiles w) = log_request url w /\
  match server (length (net_log w)) None url with
  | ConnFail =>
      snd (download_granule_list server (S fuel) url tiles w) = Raise AttributeError
  | Resp r =>
      if body_fails r
      then snd (download_granule_list server (S fuel) url tiles w) = Raise AttributeError
      else
        (rows_linked (as_tile_list tiles) (splitlines (text r)) /\
         snd (download_granule_list server (S fuel) url tiles w)
         = Ok (granules_listed url (as_tile_list tiles) (splitlines (text r)))) \/
        (~ rows_linked (as_tile_list tiles) (splitlines (text r)) /\
         snd (download_granule_list server (S fuel) url tiles w) = Raise IndexError)
  end.
Proof.
  rewrite download_granule_list_run. cbn [fst snd]. split; [reflexivity|].
  unfold listing_result, get_result.
  destruct (server _ None url) as [|r]; [reflexivity|].
  destruct (body_fails r); [reflexivity|].
  destruct (grab_lines_cases url (as_tile_list tiles) (splitlines (text r)))
    as [Hrows|[Hrows Hfail]].
  - left. split; [assumption|]. now rewrite grab_lines_spec.
  - right. split; [assumption|]. apply Hfail.
Qed.

End Outcomes.

(** ** One transfer *)

Section Transfer.

Variable server : Server.

(** X3: when both responses arrive whole, the status of the second is a
    success, it carries a numeric content-length and the file name is a
    proper one, [download_granules] returns the final path after two
    requests; the file then holds the streamed body under its final name
    and the sidecar is gone.  The declared length [n] plays no part. *)
Theorem download_granules_success url s username password output_dir w d r1 r n :
  server (length (net_log w)) (Some (auth s)) url = Resp r1 ->
  body_fails r1 = false ->
  server (length (net_log (log_request url w))) (Some (auth s)) (resp_url r1) = Resp r ->
  ok r = true ->
  content_length r = HLength n ->
  body_fails r = false ->
  outdir w = Some d ->
  names_directory (fileName url) = false ->
  download_granules server url s username password output_dir w
  = (mkWorld (Some (<[fileName url := text r]> (delete (sidecar (fileName url)) d)))
       (net_log w ++ [url; resp_url r1]) (slept w) (clock w),
     Ok (os_path_join output_dir (fileName url))).
Proof.
  intros H1 Hb1 H2 Hok Hlen Hb2 Hdir Hname.
  rewrite download_granules_eq. cbv zeta.
  rewrite H1. cbn [get_result]. rewrite Hb1, H2, Hok, Hlen. cbn [negb].
  unfold materialize. cbn [outdir log_request]. rewrite Hdir, Hb2, Hname.
  unfold set_outdir. cbn [net_log slept clock log_request].
  rewrite delete_insert_eq, <- app_assoc. reflexivity.
Qed.

(** X4: whatever its outcome, [download_granules] changes no entry of
    the output directory other than its file and its sidecar, and when it
    raises it has not changed its file either. *)
Theorem download_granules_touches url s username password output_dir w k :
  k <> sidecar (fileName url) ->
  k <> fileName url \/
    (exists e, snd (download_granules server url s username password output_dir w)
               = Raise e) ->
  entry k (fst (download_granules server url s username password output_dir w))
  = entry k w.
Proof.
  intros Hsc Hfile. revert Hfile. rewrite download_granules_eq. cbv zeta.
  destruct (get_result _) as [r1|e]; [|reflexivity].
  destruct (server _ _ (resp_url r1)) as [|r]; [reflexivity|].
  destruct (negb (ok r)); [reflexivity|].
  destruct (content_length r); try reflexivity.
  unfold materialize, entry. cbn [outdir log_request].
  destruct (outdir w) as [d|] eqn:Hdir;
    [|intros _; cbn [fst outdir log_request]; now rewrite Hdir].
  destruct (body_fails r).
  { intros _. cbn [fst outdir set_outdir]. now rewrite lookup_insert_ne by (now apply not_eq_sym). }
  destruct (names_directory (fileName url)).
  { intros _. cbn [fst outdir set_outdir]. now rewrite lookup_insert_ne by (now apply not_eq_sym). }
  intros [Hne|[e He]]; [|discriminate].
  cbn [fst outdir set_outdir].
  rewrite lookup_insert_ne by (now apply not_eq_sym).
  rewrite lookup_delete_ne by (now apply not_eq_sym).
  now rewrite lookup_insert_ne by (now apply not_eq_sym).
Qed.

End Transfer.

Lemma download_granules_success_witness :
  (Demo.server 0%nat (Some (Some "user", Some "secret")) Demo.broken_url
   = Resp (Demo.granule Demo.broken_url) /\
   content_length (Demo.granule Demo.broken_url) = HLength 0 /\
   text (Demo.granule Demo.broken_url) = "data of MOD13A3.A2018.01.01.h17v04.006.hdf") /\
  download_granules Demo.server Demo.broken_url (mkSession (Some "user", Some "secret"))
    (Some "user") (Some "secret") "out" Demo.empty_dir
  = (mkWorld (Some (<[fileName Demo.broken_url := text (Demo.granule Demo.broken_url)]>
                      (delete (sidecar (fileName Demo.broken_url)) ∅)))
       ([] ++ [Demo.broken_url; Demo.broken_url]) [] (date_at 2019 1 1),
     Ok "out/MOD13A3.A2018.01.01.h17v04.006.hdf").
Proof.
  split; [repeat split; reflexivity|].
  exact (download_granules_success Demo.server Demo.broken_url
           (mkSession (Some "user", Some "secret")) (Some "user") (Some "secret") "out"
           Demo.empty_dir ∅ (Demo.granule Demo.broken_url) (Demo.granule Demo.broken_url) 0
           eq_refl eq_refl eq_refl eq_refl eq_refl eq_refl eq_refl eq_refl).
Defined.

Lemma download_granules_touches_witness :
  (snd (download_granules Demo.server_missing Demo.broken_url
          (mkSession (Some "user", Some "secret")) (Some "user") (Some "secret") "out"
          Demo.one_kept) = Raise IOError /\
   fileName Demo.broken_url = Demo.kept_name) /\
  entry Demo.kept_name
    (fst (download_granules Demo.server_missing Demo.broken_url
            (mkSession (Some "user", Some "secret")) (Some "user") (Some "secret") "out"
            Demo.one_kept))
  = Some "fetched last week".
Proof.
  split; [split; reflexivity|].
  rewrite (download_granules_touches Demo.server_missing Demo.broken_url
             (mkSession (Some "user", Some "secret")) (Some "user") (Some "secret") "out"
             Demo.one_kept Demo.kept_name).
  - reflexivity.
  - apply not_eq_sym. apply (sidecar_neq (fileName Demo.broken_url)).
  - right. exists IOError. reflexivity.
Defined.

(** ** What a run leaves alone *)

Section Relations.

Variable R : World -> World -> Prop.
Hypothesis R_refl : forall w, R w w.
Hypothesis R_trans : forall a b c, R a b -> R b c -> R a c.

Lemma always_bind {A B} (c : M A) (k : A -> M B) :
  always R c -> (forall a, always R (k a)) -> always R (bind c k).
Proof.
  intros Hc Hk w. unfold bind. specialize (Hc w).
  destruct (c w) as [w1 [a|e]]; cbn [fst] in *; [|assumption].
  exact (R_trans _ _ _ Hc (Hk a w1)).
Qed.

Lemma always_still {A} (c : M A) : (forall w, fst (c w) = w) -> always R c.
Proof. intros H w. rewrite H. apply R_refl. Qed.

Lemma in_order_always {A B} (f : A -> M B) xs :
  (forall x, In x xs -> always R (f x)) -> forall w, R w (fst (in_order f xs w)).
Proof.
  induction xs as [|x xs IH]; intros Hf w; [apply R_refl|].
  cbn [in_order]. pose proof (Hf x (or_introl eq_refl) w) as Hx.
  destruct (f x w) as [w1 [b|e]]; cbn [fst] in *; [|assumption].
  assert (Hrest : R w1 (fst (in_order f xs w1)))
    by (apply IH; intros y Hy; apply Hf; now right).
  destruct (in_order f xs w1) as [w2 [bs|r]]; cbn [fst] in *;
    exact (R_trans _ _ _ Hx Hrest).
Qed.

Lemma run_discard_always {A B} (f : A -> M B) xs :
  (forall x, In x xs -> always R (f x)) -> forall w, R w (run_discard f xs w).
Proof.
  induction xs as [|x xs IH]; intros Hf w; [apply R_refl|].
  cbn [run_discard]. eapply R_trans; [apply (Hf x (or_introl eq_refl) w)|].
  apply IH. intros y Hy. apply Hf. now right.
Qed.

Lemma executor_map_always {A B} n extra (f : A -> M B) xs :
  (forall x, In x xs -> always R (f x)) -> always R (executor_map n extra f xs).
Proof.
  intros Hf w. unfold executor_map. destruct (n <=? 0); [apply R_refl|].
  pose proof (in_order_always f xs Hf w) as Hall.
  destruct (in_order f xs w) as [w1 [out|[e rest]]] eqn:Hio; cbn [fst] in *; [assumption|].
  eapply R_trans; [exact Hall|]. apply run_discard_always.
  intros x Hx. apply Hf. eapply in_order_left; [exact Hio|]. eapply In_take; exact Hx.
Qed.

End Relations.

Lemma quiet_refl w : quiet w w.
Proof. split; [reflexivity|intros k; reflexivity]. Qed.

Lemma quiet_trans a b c : quiet a b -> quiet b c -> quiet a c.
Proof.
  intros [S1 E1] [S2 E2]. split; [congruence|]. intros k. now rewrite E2, E1.
Qed.

Lemma quiet_log url w : quiet w (log_request url w).
Proof. split; [reflexivity|intros k; reflexivity]. Qed.

Section Quiet.

Variable server : Server.
Context {order : SetOrder}.

(** The listing of one date only asks the archive. *)
Lemma download_granule_list_quiet fuel date tiles :
  always quiet (download_granule_list server fuel date tiles).
Proof.
  intros w. destruct fuel as [|fuel].
  - apply quiet_refl.
  - rewrite download_granule_list_run. apply quiet_log.
Qed.

(** Up to the list of files to fetch, a run sleeps nowhere and changes no
    entry of the output directory. *)
Lemma granules_to_download_quiet fuel sched platform product tiles output_dir
    start_date end_date n_threads :
  always quiet (granules_to_download server fuel sched platform product tiles
                  output_dir start_date end_date n_threads).
Proof.
  unfold granules_to_download.
  destruct (negb _); [apply always_still; [apply quiet_refl|reflexivity]|].
  apply always_bind; [apply quiet_trans|apply always_still; [apply quiet_refl|reflexivity]|].
  intros there.
  apply always_bind; [apply quiet_trans| |].
  { destruct (negb there); [|apply always_still; [apply quiet_refl|reflexivity]].
    intros w. unfold os_mkdir. destruct (outdir w) eqn:Hdir; [apply quiet_refl|].
    split; [reflexivity|]. intros k. unfold entry. cbn [fst outdir set_outdir].
    now rewrite Hdir, lookup_empty. }
  intros _. cbv zeta.
  apply always_bind; [apply quiet_trans| |].
  { intros w. rewrite get_available_dates_run. apply quiet_log. }
  intros the_dates.
  apply always_bind; [apply quiet_trans|apply always_still; [apply quiet_refl|reflexivity]|].
  intros _.
  apply always_bind; [apply quiet_trans|apply always_still; [apply quiet_refl|reflexivity]|].
  intros _.
  apply always_bind; [apply quiet_trans| |].
  { apply executor_map_always; [apply quiet_refl|apply quiet_trans|].
    intros date _. apply download_granule_list_quiet. }
  intros the_granules.
  apply always_still; [apply quiet_refl|]. intros w. apply required_files_same_world.
Qed.

(** One transfer sleeps nowhere. *)
Lemma fetch_one_sleep username password output_dir u :
  always same_sleep (fetch_one server username password output_dir u).
Proof.
  intros w. unfold same_sleep, fetch_one. rewrite download_granules_eq. cbv zeta.
  destruct (get_result _) as [r1|e]; [|reflexivity].
  destruct (server _ _ (resp_url r1)) as [|r]; [reflexivity|].
  destruct (negb (ok r)); [reflexivity|].
  destruct (content_length r); try reflexivity.
  unfold materialize. destruct (outdir _); [|reflexivity].
  destruct (body_fails r); [reflexivity|].
  now destruct (names_directory _).
Qed.

(** One transfer changes no entry but its file and its sidecar. *)
Lemma fetch_one_entry username password output_dir u k :
  k <> fileName u -> k <> sidecar (fileName u) ->
  always (same_entry k) (fetch_one server username password output_dir u).
Proof.
  intros Hfile Hsc w. unfold same_entry, fetch_one. rewrite download_granules_eq. cbv zeta.
  destruct (get_result _) as [r1|e]; [|reflexivity].
  destruct (server _ _ (resp_url r1)) as [|r]; [reflexivity|].
  destruct (negb (ok r)); [reflexivity|].
  destruct (content_length r); try reflexivity.
  unfold materialize, entry. cbn [outdir log_request].
  destruct (outdir w) as [d|] eqn:Hdir;
    [|cbn [fst outdir log_request]; now rewrite Hdir].
  assert (Hside : <[sidecar (fileName u) := text r]> d !! k = d !! k)
    by (now rewrite lookup_insert_ne by (now apply not_eq_sym)).
  destruct (body_fails r); [exact Hside|].
  destruct (names_directory _); [exact Hside|].
  cbn [fst outdir set_outdir].
  rewrite lookup_insert_ne by (now apply not_eq_sym).
  now rewrite lookup_delete_ne by (now apply not_eq_sym).
Qed.

(** The fetching phase sleeps ten seconds, once. *)
Lemma fetch_pass_sleep sched username password output_dir n_threads gr req_fnames w :
  slept (fst (fetch_pass server sched username password output_dir n_threads gr
                req_fnames w)) = slept w ++ [10].
Proof.
  unfold fetch_pass. unfold bind at 1. cbn [sleep].
  fold (fetch_one server username password output_dir).
  set (ws := mkWorld (outdir w) (net_log w) (slept w ++ [10]) (clock w)).
  assert (Hpass : same_sleep ws (fst (executor_map n_threads (fetching_extra sched)
                    (fetch_one server username password output_dir) gr ws))).
  { apply executor_map_always; [reflexivity|intros a b c H1 H2; unfold same_sleep in *; congruence|].
    intros u _. apply fetch_one_sleep. }
  unfold bind. unfold same_sleep in Hpass.
  destruct (executor_map _ _ _ gr ws) as [w1 [dl|e]]; cbn [fst] in *; [|exact Hpass].
  destruct (forallb _ _); exact Hpass.
Qed.

(** X5: whatever the archive does and however a run ends, the run has
    slept either not at all or for ten seconds once, before its fetching
    phase; the back-off of 240 seconds never takes place. *)
Theorem get_modis_data_sleeps fuel sched username password platform product tiles
    output_dir start_date end_date n_threads w :
  slept (fst (get_modis_data server fuel sched username password platform product
                tiles output_dir start_date end_date n_threads w)) = slept w \/
  slept (fst (get_modis_data server fuel sched username password platform product
                tiles output_dir start_date end_date n_threads w)) = slept w ++ [10].
Proof.
  unfold get_modis_data, bind.
  destruct (granules_to_download_quiet fuel sched platform product tiles output_dir
              start_date end_date n_threads w) as [Hsleep _].
  destruct (granules_to_download _ _ _ _ _ _ _ _ _ _ w) as [wa [gr|e]]; cbn [fst] in *.
  - destruct (length gr =? 0)%nat; [now left|].
    right. now rewrite fetch_pass_sleep, Hsleep.
  - now left.
Qed.

End Quiet.

Section Kept.

Variable server : Server.
Context {order : SetOrder}.

(** A file the run decides to fetch is no [.hdf] entry of the output
    directory. *)
Lemma granules_to_download_fresh fuel sched platform product tiles output_dir
    start_date end_date n_threads w wa todo u :
  granules_to_download server fuel sched platform product tiles output_dir
    start_date end_date n_threads w = (wa, Ok todo) ->
  In u todo ->
  ~ (is_Some (entry (fileName u) wa) /\ endswith (fileName u) ".hdf" = true).
Proof.
  unfold granules_to_download. destruct (negb _); [discriminate|].
  intros H Hu.
  apply bind_inv_ok in H as (w1 & there & _ & H).
  apply bind_inv_ok in H as (w2 & [] & _ & H). cbv zeta in H.
  apply bind_inv_ok in H as (w3 & the_dates & _ & H).
  apply bind_inv_ok in H as (w4 & ? & _ & H).
  apply bind_inv_ok in H as (w5 & ? & _ & H).
  apply bind_inv_ok in H as (w6 & the_granules & _ & H).
  destruct (outdir w6) as [d|] eqn:Hdir.
  - destruct (required_files_run (sort (concat the_granules)) output_dir w6 d Hdir)
      as (vs & Hrun & Hall).
    rewrite Hrun in H. injection H as <- <-.
    destruct (Forall2_In_r _ _ _ _ Hall Hu) as (k & Hk & Hku).
    apply name_dict_lookup in Hku as [<- _].
    apply set_to_list_In, elem_of_wanted in Hk as [_ Hk].
    unfold entry. now rewrite Hdir.
  - unfold required_files, bind, os_listdir in H. rewrite Hdir in H. discriminate.
Qed.

(** X6: however a run ends, an [.hdf] entry that was in the output
    directory before the run is there after it with the same content:
    a run never fetches again, overwrites or removes a granule it
    counts as present. *)
Theorem get_modis_data_keeps_hdf fuel sched username password platform product tiles
    output_dir start_date end_date n_threads w k data :
  endswith k ".hdf" = true ->
  entry k w = Some data ->
  entry k (fst (get_modis_data server fuel sched username password platform product
                  tiles output_dir start_date end_date n_threads w)) = Some data.
Proof.
  intros Hhdf Hentry. unfold get_modis_data, bind.
  destruct (granules_to_download_quiet server fuel sched platform product tiles
              output_dir start_date end_date n_threads w) as [_ Hsame].
  pose proof (granules_to_download_fresh fuel sched platform product tiles output_dir
                start_date end_date n_threads w) as Hfresh.
  destruct (granules_to_download _ _ _ _ _ _ _ _ _ _ w) as [wa [gr|e]]; cbn [fst] in *;
    [|now rewrite Hsame].
  destruct (length gr =? 0)%nat; [cbn [ret fst]; now rewrite Hsame|].
  assert (Hpass : same_entry k wa
            (fst (fetch_pass server sched username password output_dir n_threads gr
                    (map fileName gr) wa))).
  { unfold fetch_pass. unfold bind at 1. cbn [sleep].
    fold (fetch_one server username password output_dir).
    set (ws := mkWorld (outdir wa) (net_log wa) (slept wa ++ [10]) (clock wa)).
    assert (Hmap : same_entry k ws (fst (executor_map n_threads (fetching_extra sched)
                     (fetch_one server username password output_dir) gr ws))).
    { apply executor_map_always;
        [reflexivity|intros a b c H1 H2; unfold same_entry in *; congruence|].
      intros u Hu. apply fetch_one_entry.
      - intros ->. apply (Hfresh wa gr u eq_refl Hu). split; [|assumption].
        rewrite Hsame, Hentry. eauto.
      - intros ->. rewrite endswith_sidecar in Hhdf. discriminate. }
    unfold bind. unfold same_entry in *.
    destruct (executor_map _ _ _ gr ws) as [w1 [dl|e]]; cbn [fst] in *; [|exact Hmap].
    destruct (forallb _ _); exact Hmap. }
  unfold same_entry in Hpass. now rewrite Hpass, Hsame.
Qed.

End Kept.

Lemma get_modis_data_keeps_hdf_witness :
  (endswith Demo.kept_name ".hdf" = true /\
   entry Demo.kept_name Demo.one_kept = Some "fetched last week" /\
   snd (Demo.run Demo.server (mkSchedule 0 0) Demo.one_kept)
   = Ok ["out/MOD13A3.A2018.01.01.h17v05.006.hdf";
         "out/MOD13A3.A2018.02.01.h17v05.006.hdf";
         "out/MOD13A3.A2018.02.01.h17v04.006.hdf"]) /\
  entry Demo.kept_name (fst (Demo.run Demo.server (mkSchedule 0 0) Demo.one_kept))
  = Some "fetched last week".
Proof.
  split; [repeat split; vm_compute; reflexivity|].
  apply (get_modis_data_keeps_hdf Demo.server 1 (mkSchedule 0 0) (Some "user")
           (Some "secret") "MOLT" "MOD13A3.006" Demo.tiles "out" (date_at 2018 1 1)
           (Some (date_at 2018 2 1)) 3 Demo.one_kept Demo.kept_name "fetched last week");
    reflexivity.
Defined.

(** ** Splitting at a character *)

Lemma prefix_nil (s : string) : String.prefix "" s = true.
Proof. now destruct s. Qed.

Lemma startswith_char (c a : ascii) (s : string) :
  startswith (String a s) (String c "") = Ascii.eqb a c.
Proof.
  unfold startswith. cbn [String.prefix]. destruct (ascii_dec c a) as [->|Hne].
  - now rewrite prefix_nil, Ascii.eqb_refl.
  - symmetry. apply Ascii.eqb_neq. congruence.
Qed.

Lemma split_char (c a : ascii) (s : string) :
  split (String a s) (String c "")
  = if Ascii.eqb a c then "" :: split s (String c "")
    else cons_head a (split s (String c "")).
Proof. unfold split. cbn [split_go]. now rewrite startswith_char. Qed.

Lemma split_char_nil (c : ascii) : split "" (String c "") = [""].
Proof. reflexivity. Qed.

Lemma split_char_nonempty (c : ascii) (s : string) : split s (String c "") <> [].
Proof.
  induction s as [|a s IH]; [discriminate|]. rewrite split_char.
  destruct (Ascii.eqb a c); [discriminate|].
  destruct (split s (String c "")); [contradiction|discriminate].
Qed.

(** No piece of a split holds the separator. *)
Lemma split_char_pieces (c : ascii) (s : string) :
  Forall (fun p => has_char c p = false) (split s (String c "")).
Proof.
  induction s as [|a s IH]; [repeat constructor|]. rewrite split_char.
  destruct (Ascii.eqb a c) eqn:E; [now constructor|].
  destruct (split s (String c "")) as [|p ps]; [repeat constructor; cbn; now rewrite E|].
  inversion IH; subst. constructor; [|assumption]. cbn [has_char]. now rewrite E.
Qed.

Lemma split_char_whole (c : ascii) (s : string) :
  has_char c s = false -> split s (String c "") = [s].
Proof.
  induction s as [|a s IH]; [reflexivity|]. cbn [has_char]. intros H.
  apply orb_false_iff in H as [Ha Hs]. now rewrite split_char, Ha, (IH Hs).
Qed.

(** A text without the separator, then the separator: the text is the
    first piece. *)
Lemma split_char_first (c : ascii) (m rest : string) :
  has_char c m = false ->
  split (m +:+ String c rest) (String c "") = m :: split rest (String c "").
Proof.
  induction m as [|a m IH]; intros H.
  - rewrite app_nil_l', split_char, Ascii.eqb_refl. reflexivity.
  - cbn [has_char] in H. apply orb_false_iff in H as [Ha Hm].
    now rewrite app_cons, split_char, Ha, (IH Hm).
Qed.

(** The separator, then a text without it: the text is the last piece. *)
Lemma split_char_last (c : ascii) (x f : string) :
  has_char c f = false ->
  split (x +:+ String c f) (String c "") = split x (String c "") ++ [f].
Proof.
  intros Hf. induction x as [|a x IH].
  - now rewrite app_nil_l', split_char, Ascii.eqb_refl, split_char_whole.
  - rewrite app_cons, !split_char, IH. destruct (Ascii.eqb a c); [reflexivity|].
    pose proof (split_char_nonempty c x) as Hne.
    now destruct (split x (String c "")).
Qed.

Lemma last_item_snoc {A} (l : list A) (x : A) : last_item (l ++ [x]) = Some x.
Proof. unfold last_item. rewrite map_app. cbn [map]. apply last_last. Qed.

Lemma last_item_Forall {A} (P : A -> Prop) (l : list A) x :
  Forall P l -> last_item l = Some x -> P x.
Proof.
  destruct l as [|y l] using rev_ind; [discriminate|].
  rewrite last_item_snoc. intros H [= <-]. apply Forall_app in H as [_ H]. now inversion H.
Qed.

(** A file name holds no slash. *)
Lemma fileName_no_slash (url : string) : has_char "/" (fileName url) = false.
Proof.
  unfold fileName. destruct (last_item (split url "/")) as [f|] eqn:E; [|reflexivity].
  exact (last_item_Forall _ _ _ (split_char_pieces "/" url) E).
Qed.

Lemma rev_app_last (a acc : string) :
  a <> "" ->
  exists x l, a = x +:+ String l "" /\ String.rev_app a acc = String l (String.rev_app x acc).
Proof.
  revert acc. induction a as [|h t IH]; intros acc Hne; [contradiction|].
  destruct t as [|h' t'].
  - exists "", h. split; reflexivity.
  - destruct (IH (String h acc)) as (x & l & Heq & Hrev); [discriminate|].
    exists (String h x), l. split.
    + now rewrite app_cons, <- Heq.
    + cbn [String.rev_app] in *. exact Hrev.
Qed.

Lemma endswith_char (a : string) (c : ascii) :
  endswith a (String c "") = true -> exists x, a = x +:+ String c "".
Proof.
  unfold endswith, String.rev. cbn [String.rev_app]. intros H.
  destruct a as [|h t]; [discriminate|].
  destruct (rev_app_last (String h t) "") as (x & l & Heq & Hrev); [discriminate|].
  rewrite Hrev in H. cbn [String.prefix] in H.
  destruct (ascii_dec c l) as [->|]; [|discriminate]. now exists x.
Qed.

(** The name of the path that [os.path.join] makes of a directory and a
    proper file name is the file name. *)
Lemma path_name_join (dir f : string) :
  has_char "/" f = false ->
  names_directory f = false ->
  path_name (os_path_join dir f) = f.
Proof.
  intros Hslash Hname.
  assert (Hkeep : negb (String.eqb f "" || String.eqb f ".") = true).
  { unfold names_directory in Hname. apply orb_false_iff in Hname as [Hname _].
    now rewrite Hname. }
  assert (Hlast : forall x, path_name (x +:+ String "/" f) = f).
  { intros x. unfold path_name. rewrite (split_char_last "/" x f Hslash).
    rewrite List.filter_app. cbn [List.filter]. rewrite Hkeep. now rewrite last_item_snoc. }
  unfold os_path_join.
  assert (Hstart : startswith f "/" = false).
  { destruct f as [|a f']; [reflexivity|]. rewrite startswith_char.
    cbn [has_char] in Hslash. now apply orb_false_iff in Hslash as [-> _]. }
  rewrite Hstart.
  destruct (String.eqb dir "") eqn:Hdir.
  - apply String.eqb_eq in Hdir as ->. cbn [orb]. rewrite app_nil_l'.
    unfold path_name. rewrite (split_char_whole "/" f Hslash). cbn [List.filter].
    now rewrite Hkeep.
  - cbn [orb]. destruct (endswith dir "/") eqn:Hend.
    + destruct (endswith_char dir "/" Hend) as [x ->].
      rewrite app_assoc'. apply Hlast.
    + apply Hlast.
Qed.

(** ** The check that closes a fetching pass *)

Lemma all_in_self (l : list string) :
  forallb (fun fich => existsb (String.eqb fich) l) l = true.
Proof.
  apply forallb_forall. intros x Hx. apply existsb_exists.
  exists x. split; [assumption|apply String.eqb_refl].
Qed.

Section Verified.

Variable server : Server.

(** A transfer that returns has renamed its sidecar, so its file name
    is a proper one. *)
Lemma fetch_one_name username password output_dir u w w' out :
  fetch_one server username password output_dir u w = (w', Ok out) ->
  names_directory (fileName u) = false.
Proof.
  unfold fetch_one. rewrite download_granules_eq. cbv zeta.
  destruct (get_result _) as [r1|]; [|discriminate].
  destruct (server _ _ (resp_url r1)) as [|r]; [discriminate|].
  destruct (negb (ok r)); [discriminate|].
  destruct (content_length r); try discriminate.
  unfold materialize. destruct (outdir _); [|discriminate].
  destruct (body_fails r); [discriminate|].
  now destruct (names_directory _).
Qed.

Lemma fetch_names username password output_dir us w w' outs :
  in_order (fetch_one server username password output_dir) us w = (w', inl outs) ->
  Forall (fun u => names_directory (fileName u) = false) us.
Proof.
  intros H. apply in_order_results in H.
  induction H as [|u out us outs (wa & wb & Hu) _ IH]; constructor; [|assumption].
  exact (fetch_one_name _ _ _ _ _ _ _ Hu).
Qed.

(** The names of the paths of a pass are the file names of its URLs. *)
Lemma gotten_names output_dir us :
  Forall (fun u => names_directory (fileName u) = false) us ->
  map path_name (map (fun u => os_path_join output_dir (fileName u)) us)
  = map fileName us.
Proof.
  induction 1 as [|u us Hu _ IH]; [reflexivity|]. cbn [map].
  now rewrite IH, (path_name_join output_dir (fileName u) (fileName_no_slash u) Hu).
Qed.

(** X7: the check that closes the fetching pass never fails.  A pass
    over the granules [gr] with their own file names as the required
    ones is the worker pool's run after the sleep of ten seconds: when
    every transfer returned the pass returns their paths, and an error
    of the pass is the error of a transfer, never the [IOError] of the
    check. *)
Theorem fetch_pass_verified sched username password output_dir n_threads gr w :
  fetch_pass server sched username password output_dir n_threads gr (map fileName gr) w
  = executor_map n_threads (fetching_extra sched)
      (fetch_one server username password output_dir) gr
      (mkWorld (outdir w) (net_log w) (slept w ++ [10]) (clock w)).
Proof.
  unfold fetch_pass. unfold bind at 1. cbn [sleep].
  fold (fetch_one server username password output_dir).
  set (ws := mkWorld _ _ _ _). unfold bind.
  destruct (executor_map _ _ _ gr ws) as [w1 [dl|e]] eqn:Hmap; [|reflexivity].
  apply executor_map_ok in Hmap as [_ Hio].
  rewrite (fetch_results _ _ _ _ _ _ _ _ Hio).
  rewrite (gotten_names output_dir gr (fetch_names _ _ _ _ _ _ _ Hio)).
  now rewrite all_in_self.
Qed.

Context {order : SetOrder}.

(** X8: when a run returns, what it returns are the final paths of
    exactly the granules that [required_files] selected, in that order,
    and every one of them with an [.hdf] name is an entry of the output
    directory after the run. *)
Theorem get_modis_data_returns fuel sched username password platform product tiles
    output_dir start_date end_date n_threads w w' files :
  get_modis_data server fuel sched username password platform product tiles
    output_dir start_date end_date n_threads w = (w', Ok files) ->
  exists w1 gr,
    granules_to_download server fuel sched platform product tiles output_dir
      start_date end_date n_threads w = (w1, Ok gr) /\
    files = map (fun u => os_path_join output_dir (fileName u)) gr /\
    forall u, In u gr -> endswith (fileName u) ".hdf" = true ->
              is_Some (entry (fileName u) w').
Proof.
  unfold get_modis_data. intros H.
  apply bind_inv_ok in H as (w1 & gr & Hgr & H).
  exists w1, gr. split; [assumption|].
  destruct gr as [|u0 gr0]; [cbn in H; injection H as <- <-; split; [reflexivity|contradiction]|].
  cbn [length Nat.eqb] in H.
  unfold fetch_pass in H. unfold bind at 1 in H. cbn [sleep] in H.
  fold (fetch_one server username password output_dir) in H.
  apply bind_inv_ok in H as (w2 & dl & Hmap & Hcheck).
  apply executor_map_ok in Hmap as [_ Hio].
  destruct (forallb _ _); [|discriminate]. injection Hcheck as <- <-.
  split; [exact (fetch_results _ _ _ _ _ _ _ _ Hio)|].
  assert (Hdir : exists d, outdir w1 = Some d).
  { cbn [in_order] in Hio.
    destruct (fetch_one _ _ _ _ u0 _) as [wx [b|ex]] eqn:Hu; [|discriminate].
    apply fetch_one_dir in Hu as (d & _ & Hd & _). now exists d. }
  destruct Hdir as [d Hd].
  destruct (fetch_pass_dir _ _ _ _ _ _ _ _ d Hio Hd) as (d' & Hd' & _ & Hall).
  intros u Hu Hhdf. unfold entry. rewrite Hd'. now apply Hall.
Qed.

End Verified.

Lemma get_modis_data_returns_witness :
  snd (Demo.run Demo.server (mkSchedule 0 0) Demo.w0)
  = Ok ["out/MOD13A3.A2018.01.01.h17v05.006.hdf";
        "out/MOD13A3.A2018.01.01.h17v04.006.hdf";
        "out/MOD13A3.A2018.02.01.h17v05.006.hdf";
        "out/MOD13A3.A2018.02.01.h17v04.006.hdf"] /\
  exists w1 gr,
    granules_to_download Demo.server 1 (mkSchedule 0 0) "MOLT" "MOD13A3.006" Demo.tiles
      "out" (date_at 2018 1 1) (Some (date_at 2018 2 1)) 3 Demo.w0 = (w1, Ok gr) /\
    ["out/MOD13A3.A2018.01.01.h17v05.006.hdf";
     "out/MOD13A3.A2018.01.01.h17v04.006.hdf";
     "out/MOD13A3.A2018.02.01.h17v05.006.hdf";
     "out/MOD13A3.A2018.02.01.h17v04.006.hdf"]
    = map (fun u => os_path_join "out" (fileName u)) gr /\
    forall u, In u gr -> endswith (fileName u) ".hdf" = true ->
              is_Some (entry (fileName u)
                         (fst (Demo.run Demo.server (mkSchedule 0 0) Demo.w0))).
Proof.
  assert (Hrun : Demo.run Demo.server (mkSchedule 0 0) Demo.w0
    = (fst (Demo.run Demo.server (mkSchedule 0 0) Demo.w0),
       Ok ["out/MOD13A3.A2018.01.01.h17v05.006.hdf";
           "out/MOD13A3.A2018.01.01.h17v04.006.hdf";
           "out/MOD13A3.A2018.02.01.h17v05.006.hdf";
           "out/MOD13A3.A2018.02.01.h17v04.006.hdf"]))
    by (vm_compute; reflexivity).
  split; [exact (f_equal snd Hrun)|].
  exact (get_modis_data_returns Demo.server 1 (mkSchedule 0 0) (Some "user")
           (Some "secret") "MOLT" "MOD13A3.006" Demo.tiles "out" (date_at 2018 1 1)
           (Some (date_at 2018 2 1)) 3 Demo.w0 _ _ Hrun).
Defined.

(** ** The command line *)

Section CommandLine.

Variable server : Server.
Context {order : SetOrder}.
Variable cli_datetime : string -> result datetime.

(** X9: without an end date on the command line [main] contacts nobody,
    changes nothing and ends with an error; when the product, the tiles
    and the start date are in order the error is [UnboundLocalError],
    because [end_date] is assigned only under
    [if options.end_date is not None]. *)
Theorem main_without_end_date fuel sched (options : Options) w :
  opt_end_date options = None ->
  (exists e, main server cli_datetime fuel sched options w = (w, Raise e)) /\
  forall pp tiles begin d,
    main_product options = Ok pp ->
    opt_tiles options = Some tiles ->
    opt_start_date options = Some begin ->
    cli_datetime begin = Ok d ->
    main server cli_datetime fuel sched options w = (w, Raise UnboundLocalError).
Proof.
  intros Hend. unfold main, bind, lift, raise. rewrite Hend. split.
  - destruct (main_product options) as [pp|e]; [|eauto].
    destruct (opt_tiles options) as [tiles|]; [|eauto].
    destruct (opt_start_date options) as [begin|]; [|eauto].
    destruct (cli_datetime begin) as [d|e]; eauto.
  - intros pp tiles begin d -> -> -> ->. reflexivity.
Qed.

(** X10: a product name typed without a capital M is rejected with
    [ValueError] before anything else happens, also when its upper-case
    form matches [product_regex]: the pattern is tried on the upper-case
    form, the platform is looked for in the name as typed. *)
Theorem main_lower_case fuel sched (options : Options) (typed : string) w :
  opt_product options = Some typed ->
  has_char "M" typed = false ->
  main server cli_datetime fuel sched options w = (w, Raise ValueError).
Proof.
  intros Hopt Hm. unfold main. apply bind_raise. unfold lift, main_product.
  rewrite Hopt. destruct (negb _); [reflexivity|].
  unfold find. now rewrite !(find_from_absent "M" _ typed 0 Hm).
Qed.

End CommandLine.

Lemma main_without_end_date_witness :
  (opt_end_date Demo.options_open_end = None /\
   main_product Demo.options_open_end = Ok ("MOD13A3.006", "MOLT") /\
   Demo.read_date "2018-01-01" = Ok (date_at 2018 1 1)) /\
  main Demo.server Demo.read_date 1 (mkSchedule 0 0) Demo.options_open_end Demo.w0
  = (Demo.w0, Raise UnboundLocalError).
Proof.
  split; [repeat split; reflexivity|].
  exact (proj2 (main_without_end_date Demo.server Demo.read_date 1 (mkSchedule 0 0)
                  Demo.options_open_end Demo.w0 eq_refl)
           _ _ _ _ eq_refl eq_refl eq_refl eq_refl).
Defined.

Lemma main_lower_case_witness :
  (opt_product (Demo.options_for "mod13a3.006") = Some "mod13a3.006" /\
   has_char "M" "mod13a3.006" = false /\
   re_match product_regex (upper "mod13a3.006") = true) /\
  main Demo.server Demo.read_date 1 (mkSchedule 0 0) (Demo.options_for "mod13a3.006")
    Demo.w0
  = (Demo.w0, Raise ValueError).
Proof.
  split; [repeat split; reflexivity|].
  exact (main_lower_case Demo.server Demo.read_date 1 (mkSchedule 0 0)
           (Demo.options_for "mod13a3.006") "mod13a3.006" Demo.w0 eq_refl eq_refl).
Defined.

(** ** How a run starts *)




Lemma entry_ensure_dir k w : entry k (ensure_dir w) = entry k w.
Proof.
  unfold ensure_dir, entry. destruct (outdir w) eqn:Hdir; [now rewrite Hdir|].
  cbn [outdir set_outdir]. apply lookup_empty.
Qed.

Section Start.

Variable server : Server.
Context {order : SetOrder}.






(** X12: with a worker count of zero or less a run cannot return.  It
    ends with an error having fetched nothing and having asked the
    archive for the product index at most: the worker pool refuses to
    start before any date is listed. *)
Theorem get_modis_data_no_workers fuel sched username password platform product tiles
    output_dir start_date end_date n_threads w :
  n_threads <= 0 ->
  (exists e, snd (get_modis_data server fuel sched username password platform product
                    tiles output_dir start_date end_date n_threads w) = Raise e) /\
  (net_log (fst (get_modis_data server fuel sched username password platform product
                   tiles output_dir start_date end_date n_threads w)) = net_log w \/
   net_log (fst (get_modis_data server fuel sched username password platform product
                   tiles output_dir start_date end_date n_threads w))
   = net_log w ++ [BASE_URL +:+ platform +:+ "/" +:+ product]) /\
  forall k, entry k (fst (get_modis_data server fuel sched username password platform
                            product tiles output_dir start_date end_date n_threads w))
            = entry k w.
Proof.
  intros Hn. apply Z.leb_le in Hn.
  destruct (valid_platform platform) eqn:Hplat.
  - assert (Hens : net_log (ensure_dir w) = net_log w)
      by (unfold ensure_dir; now destruct (outdir w)).
    assert (Hrun : exists e,
      get_modis_data server fuel sched username password platform product tiles
        output_dir start_date end_date n_threads w
      = (log_request (BASE_URL +:+ platform +:+ "/" +:+ product) (ensure_dir w), Raise e)).
    { unfold get_modis_data. unfold bind at 1.
      rewrite (granules_to_download_eq server fuel sched platform product tiles
                 output_dir start_date end_date n_threads w Hplat).
      unfold bind at 1. rewrite get_available_dates_run.
      destruct (dates_result _ _ _ _) as [[|date dates]|e]; [| |eauto].
      - rewrite after_scan_empty. eauto.
      - rewrite after_scan_cons. unfold bind, executor_map. rewrite Hn. eauto. }
    destruct Hrun as [e ->]. cbn [fst snd]. split; [eauto|]. split.
    + right. cbn [net_log log_request]. now rewrite Hens.
    + intros k. exact (entry_ensure_dir k w).
  - assert (Hrun : get_modis_data server fuel sched username password platform product
                     tiles output_dir start_date end_date n_threads w
                   = (w, Raise AssertionError)).
    { unfold get_modis_data, granules_to_download, valid_platform in *.
      unfold bind. now rewrite Hplat. }
    rewrite Hrun. cbn [fst snd]. split; [eauto|]. split; [now left|reflexivity].
Qed.

End Start.

Lemma get_modis_data_no_workers_witness :
  0 <= 0 /\
  snd (get_modis_data Demo.server 1 (mkSchedule 0 0) (Some "user") (Some "secret") "MOLT"
         "MOD13A3.006" Demo.tiles "out" (date_at 2018 1 1) (Some (date_at 2018 2 1)) 0
         Demo.w0) = Raise ValueError /\
  net_log (fst (get_modis_data Demo.server 1 (mkSchedule 0 0) (Some "user")
                  (Some "secret") "MOLT" "MOD13A3.006" Demo.tiles "out" (date_at 2018 1 1)
                  (Some (date_at 2018 2 1)) 0 Demo.w0))
  = net_log Demo.w0 ++ [BASE_URL +:+ "MOLT" +:+ "/" +:+ "MOD13A3.006"] /\
  forall k, entry k (fst (get_modis_data Demo.server 1 (mkSchedule 0 0) (Some "user")
                            (Some "secret") "MOLT" "MOD13A3.006" Demo.tiles "out"
                            (date_at 2018 1 1) (Some (date_at 2018 2 1)) 0 Demo.w0))
            = entry k Demo.w0.
Proof.
  split; [lia|]. split; [reflexivity|]. split; [reflexivity|].
  exact (proj2 (proj2 (get_modis_data_no_workers Demo.server 1 (mkSchedule 0 0)
                         (Some "user") (Some "secret") "MOLT" "MOD13A3.006" Demo.tiles
                         "out" (date_at 2018 1 1) (Some (date_at 2018 2 1)) 0 Demo.w0
                         (Z.le_refl 0)))).
Defined.

(** ** The link of a row *)

Lemma split_go_skip (sep a rest : string) (k : nat) :
  split_go sep (a +:+ rest) (String.length a + k) = split_go sep rest k.
Proof.
  induction a as [|c a IH]; [reflexivity|].
  rewrite app_cons. cbn [String.length Nat.add split_go]. exact IH.
Qed.

Lemma split_go_nonempty (sep s : string) (k : nat) : split_go sep s k <> [].
Proof.
  revert k. induction s as [|c s IH]; intros k; [discriminate|].
  cbn [split_go]. destruct k as [|k]; [|apply IH].
  destruct (startswith _ sep); [discriminate|].
  specialize (IH 0%nat). now destruct (split_go sep s 0).
Qed.

(** A text that starts with the separator: an empty piece comes first. *)
Lemma split_at_sep (c : ascii) (sep rest : string) :
  split (String c sep +:+ rest) (String c sep) = "" :: split rest (String c sep).
Proof.
  unfold split. rewrite app_cons. cbn [split_go].
  assert (Hstart : startswith (String c (sep +:+ rest)) (String c sep) = true)
    by (apply startswith_iff; exists rest; now rewrite app_cons).
  rewrite Hstart. cbn [String.length Nat.pred]. f_equal.
  rewrite <- (Nat.add_0_r (String.length sep)). apply split_go_skip.
Qed.

(** A text in which no separator starts goes to the front of the first
    piece of what follows. *)
Lemma split_before (sep pre tail : string) :
  starts_nowhere sep pre tail = true ->
  exists p ps,
    split tail sep = p :: ps /\ split (pre +:+ tail) sep = (pre +:+ p) :: ps.
Proof.
  induction pre as [|c pre IH]; intros H.
  - destruct (split tail sep) as [|p ps] eqn:E;
      [now destruct (split_go_nonempty sep tail 0)|].
    exists p, ps. now rewrite !app_nil_l'.
  - cbn [starts_nowhere] in H. apply andb_true_iff in H as [Hhere Hrest].
    apply negb_true_iff in Hhere.
    destruct (IH Hrest) as (p & ps & Htail & Hsplit).
    exists p, ps. split; [assumption|].
    unfold split in *. rewrite app_cons in *. cbn [split_go].
    now rewrite Hhere, Hsplit.
Qed.

(** X13: the link that [line.split("href=")[1].split(quote)[1]] reads
    off a row is the text between the first two quotes after the first
    [href=] of the row, provided no [href=] starts between that [href=]
    and the closing quote: a link that itself holds [href=] is cut
    short. *)
Theorem href_value_quoted (pre mid name post : string) :
  starts_nowhere "href=" pre
    ("href=" +:+ mid +:+ String dquote (name +:+ String dquote post)) = true ->
  starts_nowhere "href=" (mid +:+ String dquote (name +:+ String dquote "")) post = true ->
  has_char dquote mid = false ->
  has_char dquote name = false ->
  href_value (pre +:+ "href=" +:+ mid +:+ String dquote (name +:+ String dquote post))
  = Ok name.
Proof.
  intros Hpre Hlink Hmid Hname. unfold href_value.
  destruct (split_before _ _ _ Hpre) as (p & ps & Htail & ->).
  rewrite (split_at_sep "h" "ref=") in Htail. injection Htail as <- <-.
  assert (Hassoc : mid +:+ String dquote (name +:+ String dquote post)
                   = (mid +:+ String dquote (name +:+ String dquote "")) +:+ post).
  { now rewrite app_assoc', app_cons, app_assoc', app_cons, app_nil_l'. }
  rewrite Hassoc.
  destruct (split_before _ _ _ Hlink) as (p2 & ps2 & _ & ->).
  cbn [index_at nth_error].
  rewrite app_assoc', app_cons, app_assoc', app_cons, app_nil_l'.
  rewrite (split_char_first dquote mid _ Hmid), (split_char_first dquote name _ Hname).
  reflexivity.
Qed.

Lemma href_value_quoted_witness :
  (has_char dquote "2018.01.01/" = false /\
   starts_nowhere "href=" (String dquote ("2018.01.01/" +:+ String dquote ""))
     ">2018.01.01/</a>" = true) /\
  href_value (Demo.dir_row "2018.01.01") = Ok "2018.01.01/".
Proof.
  split; [split; reflexivity|].
  exact (href_value_quoted
           ("<img src=" +:+ Demo.q +:+ "/icons/folder.gif" +:+ Demo.q +:+ " alt="
            +:+ Demo.q +:+ "[DIR]" +:+ Demo.q +:+ "> <a ")
           "" "2018.01.01/" ">2018.01.01/</a>" eq_refl eq_refl eq_refl eq_refl).
Defined.

(** ** What a run costs the archive *)

Lemma in_order_count {A B} (f : A -> M B) (c : nat) xs w w' outs :
  (forall x wa wb b, f x wa = (wb, Ok b) ->
     length (net_log wb) = (length (net_log wa) + c)%nat) ->
  in_order f xs w = (w', inl outs) ->
  length (net_log w') = (length (net_log w) + c * length xs)%nat /\
  length outs = length xs.
Proof.
  intros Hf. revert w outs. induction xs as [|x xs IH]; intros w outs H; cbn [in_order] in H.
  - injection H as <- <-. cbn [length]. split; [lia|reflexivity].
  - destruct (f x w) as [wx [b|ex]] eqn:Hx; [|discriminate].
    destruct (in_order f xs wx) as [wy [bs|?]] eqn:Hrest; [|discriminate].
    injection H as <- <-. destruct (IH _ _ Hrest) as [Hlog Hlen].
    rewrite Hlog, (Hf _ _ _ _ Hx). cbn [length]. split; lia.
Qed.

Section Requests.

Variable server : Server.
Context {order : SetOrder}.

Lemma fetch_one_count username password output_dir u w w' out :
  fetch_one server username password output_dir u w = (w', Ok out) ->
  length (net_log w') = (length (net_log w) + 2)%nat.
Proof.
  unfold fetch_one. rewrite download_granules_eq. cbv zeta.
  destruct (get_result _) as [r1|]; [|discriminate].
  destruct (server _ _ (resp_url r1)) as [|r]; [discriminate|].
  destruct (negb (ok r)); [discriminate|].
  destruct (content_length r); try discriminate.
  unfold materialize. destruct (outdir _); [|discriminate].
  destruct (body_fails r); [discriminate|].
  destruct (names_directory _); [discriminate|].
  intros [= <- _]. cbn [net_log set_outdir log_request].
  rewrite !length_app. cbn [length]. lia.
Qed.

Lemma download_granule_list_count fuel tiles date w w' out :
  download_granule_list server (S fuel) date tiles w = (w', Ok out) ->
  length (net_log w') = (length (net_log w) + 1)%nat.
Proof.
  rewrite download_granule_list_run. intros [= <- _].
  cbn [net_log log_request]. rewrite length_app. reflexivity.
Qed.

(** X14: a run that returns has issued one request for the product
    index, one for every date of the window, whatever the number of
    tiles, and two for every file it returns: the one that resolves the
    URL and the one that streams the body. *)
Theorem get_modis_data_requests fuel sched username password platform product tiles
    output_dir start_date end_date n_threads w w' files :
  get_modis_data server (S fuel) sched username password platform product tiles
    output_dir start_date end_date n_threads w = (w', Ok files) ->
  exists dates,
    snd (get_available_dates server (BASE_URL +:+ platform +:+ "/" +:+ product)
           start_date end_date (ensure_dir w)) = Ok dates /\
    length (net_log w')
    = (length (net_log w) + 1 + length dates + 2 * length files)%nat.
Proof.
  intros H.
  destruct (valid_platform platform) eqn:Hplat;
    [|unfold get_modis_data, granules_to_download, valid_platform, bind in *;
      rewrite Hplat in H; discriminate].
  unfold get_modis_data in H. apply bind_inv_ok in H as (w3 & gr & Hgr & H).
  rewrite (granules_to_download_eq server (S fuel) sched platform product tiles
             output_dir start_date end_date n_threads w Hplat) in Hgr.
  apply bind_inv_ok in Hgr as (w1 & dates & Hdates & Hscan).
  exists dates. rewrite Hdates. split; [reflexivity|].
  assert (Hw1 : length (net_log w1) = (length (net_log w) + 1)%nat).
  { rewrite get_available_dates_run in Hdates. injection Hdates as <- _.
    cbn [net_log log_request]. rewrite length_app. cbn [length].
    unfold ensure_dir. now destruct (outdir w). }
  assert (Hw3 : length (net_log w3) = (length (net_log w1) + length dates)%nat).
  { unfold after_scan in Hscan.
    apply bind_inv_ok in Hscan as (wa & ? & Ha & Hscan). injection Ha as <- _.
    apply bind_inv_ok in Hscan as (wb & ? & Hb & Hscan). injection Hb as <- _.
    apply bind_inv_ok in Hscan as (w2 & the_granules & Hmap & Hreq).
    apply executor_map_ok in Hmap as [_ Hio].
    apply (in_order_count _ 1) in Hio as [Hlog _];
      [|intros date wa wb b; apply download_granule_list_count].
    pose proof (required_files_same_world (sort (concat the_granules)) output_dir w2)
      as Hsame.
    rewrite Hreq in Hsame. cbn [fst] in Hsame. subst w3. lia. }
  destruct (length gr =? 0)%nat.
  - injection H as <- <-. cbn [length]. lia.
  - unfold fetch_pass in H. unfold bind at 1 in H. cbn [sleep] in H.
    fold (fetch_one server username password output_dir) in H.
    apply bind_inv_ok in H as (w4 & dl & Hmap & Hcheck).
    apply executor_map_ok in Hmap as [_ Hio].
    destruct (forallb _ _); [|discriminate]. injection Hcheck as <- <-.
    apply (in_order_count _ 2) in Hio as [Hlog Hlen];
      [|intros u wa wb b; apply fetch_one_count].
    cbn [net_log] in Hlog. lia.
Qed.

End Requests.

Lemma get_modis_data_requests_witness :
  (snd (Demo.run Demo.server (mkSchedule 0 0) Demo.w0)
   = Ok ["out/MOD13A3.A2018.01.01.h17v05.006.hdf";
         "out/MOD13A3.A2018.01.01.h17v04.006.hdf";
         "out/MOD13A3.A2018.02.01.h17v05.006.hdf";
         "out/MOD13A3.A2018.02.01.h17v04.006.hdf"] /\
   length (net_log (fst (Demo.run Demo.server (mkSchedule 0 0) Demo.w0))) = 11%nat) /\
  exists dates,
    snd (get_available_dates Demo.server (BASE_URL +:+ "MOLT" +:+ "/" +:+ "MOD13A3.006")
           (date_at 2018 1 1) (Some (date_at 2018 2 1)) (ensure_dir Demo.w0)) = Ok dates /\
    length (net_log (fst (Demo.run Demo.server (mkSchedule 0 0) Demo.w0)))
    = (length (net_log Demo.w0) + 1 + length dates
       + 2 * length ["out/MOD13A3.A2018.01.01.h17v05.006.hdf";
                     "out/MOD13A3.A2018.01.01.h17v04.006.hdf";
                     "out/MOD13A3.A2018.02.01.h17v05.006.hdf";
                     "out/MOD13A3.A2018.02.01.h17v04.006.hdf"])%nat.
Proof.
  assert (Hrun : Demo.run Demo.server (mkSchedule 0 0) Demo.w0
    = (fst (Demo.run Demo.server (mkSchedule 0 0) Demo.w0),
       Ok ["out/MOD13A3.A2018.01.01.h17v05.006.hdf";
           "out/MOD13A3.A2018.01.01.h17v04.006.hdf";
           "out/MOD13A3.A2018.02.01.h17v05.006.hdf";
           "out/MOD13A3.A2018.02.01.h17v04.006.hdf"]))
    by (vm_compute; reflexivity).
  split; [split; [exact (f_equal snd Hrun)|vm_compute; reflexivity]|].
  exact (get_modis_data_requests Demo.server 0 (mkSchedule 0 0) (Some "user")
           (Some "secret") "MOLT" "MOD13A3.006" Demo.tiles "out" (date_at 2018 1 1)
           (Some (date_at 2018 2 1)) 3 Demo.w0 _ _ Hrun).
Defined.
